(** * shared.py: the account store and the event store

    A shallow embedding of [shared.py] and the properties its
    specification states about it.

    - Python values that travel through [json.load] and [json.dump]
      are the type [pyval]; a [dict] is an association list in
      insertion order, and a number is kept as an integer (no function
      here computes with one).
    - A Python [str] is a [string] holding the UTF-8 bytes of the text.
      The [str] methods used by the program ([strip], [upper], [lower])
      are given on ASCII text; bytes above 127 pass through them
      untouched.
    - A function that can raise returns in [res]; the functions that
      read and write [users.json] or [events.json] thread the file
      through [M].
    - A file is absent, unreadable as JSON, or holds a value; writing
      replaces its content. The handlers around the two writes guard
      against a failing file system, which the model does not have.
    - [hashlib.sha256], [datetime.strftime] and [datetime.strptime]
      are the fields of the class [Library], and every theorem holds
      for every library; the examples run with [python]. A [datetime]
      is a number of microseconds. The identifier [uuid.uuid4] draws
      and the readings of the clock are arguments of the functions
      that need them.
    - The speech engine is what [speak_text] is given, kept in the
      order of the calls; the voices it reports are records [Voice],
      and [_select_voice_for_language] is given the list of them. *)

From Stdlib Require Import String Ascii List ZArith Bool Lia.
Import ListNotations.

Set Warnings "-register-all".

Local Open Scope string_scope.
Local Open Scope list_scope.

(** ** Python values *)

Inductive pyval : Type :=
| PNone
| PBool (b : bool)
| PNum (n : Z)
| PStr (s : string)
| PList (l : list pyval)
| PDict (kv : list (string * pyval)).

Inductive exn : Type := KeyError | TypeError | AttributeError | ValueError.

Inductive res (A : Type) : Type :=
| Ret (a : A)
| Raise (e : exn).

Arguments Ret {A} a.
Arguments Raise {A} e.

Definition rbind {A B : Type} (r : res A) (k : A -> res B) : res B :=
  match r with
  | Ret a => k a
  | Raise e => Raise e
  end.

Declare Scope res_scope.
Delimit Scope res_scope with res.
Notation "x <- c ;; k" := (rbind c (fun x => k))
  (at level 61, c at next level, right associativity) : res_scope.

(** ** Strings *)

Definition ord (c : ascii) : Z := Z.of_N (N_of_ascii c).

Definition in_range (lo hi : Z) (c : ascii) : bool :=
  ((lo <=? ord c) && (ord c <=? hi))%Z.

(** [[A-Z]], [[0-9]] and [[^A-Za-z0-9]] of the password policy. *)
Definition is_upper (c : ascii) : bool := in_range 65 90 c.
Definition is_lower (c : ascii) : bool := in_range 97 122 c.
Definition is_digit (c : ascii) : bool := in_range 48 57 c.
Definition is_special (c : ascii) : bool :=
  negb (is_upper c || is_lower c || is_digit c).

(** The white space [str.strip] removes, among ASCII characters:
    tab, line feed, vertical tab, form feed, carriage return, the four
    separators 28..31 and the space. *)
Definition is_space (c : ascii) : bool :=
  in_range 9 13 c || in_range 28 32 c.

Fixpoint existsb_str (p : ascii -> bool) (s : string) : bool :=
  match s with
  | EmptyString => false
  | String c r => p c || existsb_str p r
  end.


Fixpoint map_str (f : ascii -> ascii) (s : string) : string :=
  match s with
  | EmptyString => EmptyString
  | String c r => String (f c) (map_str f r)
  end.

(** [re.search] with a pattern that is one character class. *)
Definition re_search (class : ascii -> bool) (s : string) : bool :=
  existsb_str class s.

(** [len]: the number of characters, one for every byte that is not a
    UTF-8 continuation byte. *)
Fixpoint py_len (s : string) : Z :=
  match s with
  | EmptyString => 0
  | String c r => ((if in_range 128 191 c then 0 else 1) + py_len r)%Z
  end.

Definition upper_char (c : ascii) : ascii :=
  if is_lower c then ascii_of_N (N_of_ascii c - 32) else c.

Definition lower_char (c : ascii) : ascii :=
  if is_upper c then ascii_of_N (N_of_ascii c + 32) else c.

Definition py_upper (s : string) : string := map_str upper_char s.
Definition py_lower (s : string) : string := map_str lower_char s.

Fixpoint py_lstrip (s : string) : string :=
  match s with
  | EmptyString => EmptyString
  | String c r => if is_space c then py_lstrip r else s
  end.

Fixpoint py_rstrip (s : string) : string :=
  match s with
  | EmptyString => EmptyString
  | String c r =>
      match py_rstrip r with
      | EmptyString => if is_space c then EmptyString else String c EmptyString
      | r' => String c r'
      end
  end.

Definition py_strip (s : string) : string := py_rstrip (py_lstrip s).

(** [sub in s] for two strings. *)
Fixpoint str_contains (sub s : string) : bool :=
  String.prefix sub s ||
  match s with
  | EmptyString => false
  | String _ r => str_contains sub r
  end.

(** ** Operations on Python values *)

Fixpoint dict_get (k : string) (kv : list (string * pyval)) : option pyval :=
  match kv with
  | [] => None
  | (k', v) :: rest => if String.eqb k k' then Some v else dict_get k rest
  end.

(** [d[k] = v]: an existing key keeps its place, a new key goes last. *)
Fixpoint dict_set (k : string) (v : pyval) (kv : list (string * pyval))
  : list (string * pyval) :=
  match kv with
  | [] => [(k, v)]
  | (k', v') :: rest =>
      if String.eqb k k' then (k', v) :: rest else (k', v') :: dict_set k v rest
  end.

Definition dict_keys (kv : list (string * pyval)) : list string := map fst kv.

(** [x == s] where [s] is a [str]. *)
Definition py_eq_str (x : pyval) (s : string) : bool :=
  match x with
  | PStr s' => String.eqb s' s
  | _ => false
  end.

(** Truthiness, as [if x:] and [not x] see it. *)
Definition truthy (x : pyval) : bool :=
  match x with
  | PNone => false
  | PBool b => b
  | PNum n => negb (n =? 0)%Z
  | PStr s => negb (String.eqb s "")
  | PList l => match l with [] => false | _ => true end
  | PDict kv => match kv with [] => false | _ => true end
  end.

(** [x[k]] with a string key. *)
Definition py_getitem (x : pyval) (k : string) : res pyval :=
  match x with
  | PDict kv => match dict_get k kv with Some v => Ret v | None => Raise KeyError end
  | _ => Raise TypeError
  end.

(** [x[k] = v] with a string key. *)
Definition py_setitem (x : pyval) (k : string) (v : pyval) : res pyval :=
  match x with
  | PDict kv => Ret (PDict (dict_set k v kv))
  | _ => Raise TypeError
  end.

(** [k in x] with a string [k]. *)
Definition py_in (k : string) (x : pyval) : res bool :=
  match x with
  | PDict kv => Ret (existsb (String.eqb k) (dict_keys kv))
  | PList l => Ret (existsb (fun y => py_eq_str y k) l)
  | PStr s => Ret (str_contains k s)
  | _ => Raise TypeError
  end.

(** [x.items()]. *)
Definition py_items (x : pyval) : res (list (string * pyval)) :=
  match x with
  | PDict kv => Ret kv
  | _ => Raise AttributeError
  end.

(** [x.get(k, d)] and [x.get(k)], which is [x.get(k, None)]. *)
Definition py_get_default (x : pyval) (k : string) (d : pyval) : res pyval :=
  match x with
  | PDict kv => Ret (match dict_get k kv with Some v => v | None => d end)
  | _ => Raise AttributeError
  end.

Definition py_get (x : pyval) (k : string) : res pyval :=
  py_get_default x k PNone.

(** [x.append(v)]. *)
Definition py_append (x : pyval) (v : pyval) : res pyval :=
  match x with
  | PList l => Ret (PList (l ++ [v]))
  | _ => Raise AttributeError
  end.

(** [a or ""] for an optional string argument. *)
Definition or_empty (a : option string) : string :=
  match a with
  | Some s => s
  | None => ""
  end.

(** ** Files *)

Inductive file : Type :=
| Absent
| Garbage
| Json (v : pyval).

(** A computation over a store [S] that may raise. *)
Definition M (S A : Type) : Type := S -> res A * S.

Definition ret {S A : Type} (a : A) : M S A := fun s => (Ret a, s).

Definition bind {S A B : Type} (m : M S A) (k : A -> M S B) : M S B :=
  fun s =>
    match m s with
    | (Ret a, s') => k a s'
    | (Raise e, s') => (Raise e, s')
    end.

Definition lift {S A : Type} (r : res A) : M S A := fun s => (r, s).

Declare Scope M_scope.
Delimit Scope M_scope with M.
Notation "x <- c ;; k" := (bind c (fun x => k))
  (at level 61, c at next level, right associativity) : M_scope.
Notation "c ;;; k" := (bind c (fun _ => k))
  (at level 61, right associativity) : M_scope.

(** ** The library functions the program calls

    [hashlib.sha256(b).hexdigest()], [t.strftime("%Y-%m-%d %H:%M:%S")]
    and [datetime.strptime(s, "%Y-%m-%d %H:%M:%S")], which is [None]
    where the library raises [ValueError]. *)

Class Library : Type := {
  sha256_hexdigest : string -> string;
  strftime : Z -> string;
  strptime : string -> option Z
}.

(** The library the examples run with: SHA-256 (FIPS 180-4) over the
    bytes of a string, its digest in lower-case hexadecimal, and the
    timestamp format [%Y-%m-%d %H:%M:%S] over a count of microseconds
    since 0001-01-01 00:00:00 in the proleptic Gregorian calendar. *)

Module Lib.

Local Open Scope Z_scope.

Definition mask32 (x : Z) : Z := Z.land x 0xffffffff.

Definition rotr (n x : Z) : Z :=
  Z.lor (Z.shiftr x n) (mask32 (Z.shiftl x (32 - n))).

(** The first 64 primes, the largest being 311. *)
Definition is_prime (n : Z) : bool :=
  forallb (fun d => negb (n mod d =? 0))
          (map Z.of_nat (seq 2 (Z.to_nat n - 2))).

Definition primes : list Z := filter is_prime (map Z.of_nat (seq 2 310)).

(** The largest [r' >= r] with [r'^3 <= x] among those that add to [r]
    some of the [n] lowest bits. *)
Fixpoint cube_root (n : nat) (x r : Z) : Z :=
  match n with
  | O => r
  | S n' =>
      let r' := r + 2 ^ Z.of_nat n' in
      if r' ^ 3 <=? x then cube_root n' x r' else cube_root n' x r
  end.

(** The round constants and the initial hash value: the first 32 bits
    of the fractional parts of the cube roots of the first 64 primes
    and of the square roots of the first 8. *)
Definition K : list Z :=
  map (fun p => mask32 (cube_root 40 (p * 2 ^ 96) 0)) primes.

Definition H0 : list Z :=
  map (fun p => mask32 (Z.sqrt (p * 2 ^ 64))) (firstn 8 primes).

Definition big_sigma0 (x : Z) : Z :=
  Z.lxor (Z.lxor (rotr 2 x) (rotr 13 x)) (rotr 22 x).
Definition big_sigma1 (x : Z) : Z :=
  Z.lxor (Z.lxor (rotr 6 x) (rotr 11 x)) (rotr 25 x).
Definition small_sigma0 (x : Z) : Z :=
  Z.lxor (Z.lxor (rotr 7 x) (rotr 18 x)) (Z.shiftr x 3).
Definition small_sigma1 (x : Z) : Z :=
  Z.lxor (Z.lxor (rotr 17 x) (rotr 19 x)) (Z.shiftr x 10).
Definition ch (x y z : Z) : Z :=
  Z.lxor (Z.land x y) (Z.land (Z.lxor x 0xffffffff) z).
Definition maj (x y z : Z) : Z :=
  Z.lxor (Z.lxor (Z.land x y) (Z.land x z)) (Z.land y z).

(** The message, the byte 128, zeros up to 56 modulo 64, and the
    length in bits on eight bytes. *)
Definition pad (msg : list Z) : list Z :=
  let len := Z.of_nat (length msg) in
  msg ++ [128] ++ repeat 0 (Z.to_nat ((55 - len) mod 64))
      ++ map (fun i => Z.land (Z.shiftr (8 * len) (8 * i)) 255)
             [7; 6; 5; 4; 3; 2; 1; 0].

Fixpoint to_words (bytes : list Z) : list Z :=
  match bytes with
  | a :: b :: c :: d :: rest =>
      Z.lor (Z.lor (Z.shiftl a 24) (Z.shiftl b 16)) (Z.lor (Z.shiftl c 8) d)
      :: to_words rest
  | _ => []
  end.

Fixpoint schedule (n : nat) (w : list Z) : list Z :=
  match n with
  | O => w
  | S n' =>
      let i := length w in
      let at_ k := nth (i - k) w 0 in
      schedule n' (w ++ [mask32 (small_sigma1 (at_ 2%nat) + at_ 7%nat
                                 + small_sigma0 (at_ 15%nat) + at_ 16%nat)])
  end.

Definition round (s : list Z) (kw : Z * Z) : list Z :=
  match s with
  | [a; b; c; d; e; f; g; h] =>
      let t1 := h + big_sigma1 e + ch e f g + fst kw + snd kw in
      let t2 := big_sigma0 a + maj a b c in
      [mask32 (t1 + t2); a; b; c; mask32 (d + t1); e; f; g]
  | _ => s
  end.

Definition compress (h : list Z) (block : list Z) : list Z :=
  map (fun p => mask32 (fst p + snd p))
      (combine h (fold_left round (combine K (schedule 48 block)) h)).

Fixpoint blocks (n : nat) (words : list Z) : list (list Z) :=
  match n with
  | O => []
  | S n' =>
      match words with
      | [] => []
      | _ => firstn 16 words :: blocks n' (skipn 16 words)
      end
  end.

Definition hex_digit (d : Z) : ascii :=
  ascii_of_N (Z.to_N (if d <? 10 then 48 + d else 87 + d)).

Definition hex_word (w : Z) : string :=
  string_of_list_ascii
    (map (fun i => hex_digit (Z.land (Z.shiftr w (4 * i)) 15))
         [7; 6; 5; 4; 3; 2; 1; 0]).

Definition sha256 (s : string) : string :=
  let words := to_words (pad (map ord (list_ascii_of_string s))) in
  String.concat ""
    (map hex_word (fold_left compress (blocks (length words) words) H0)).

(** Days since 1970-01-01 to year, month and day, and back. *)
Definition civil_from_days (z : Z) : Z * Z * Z :=
  let z := z + 719468 in
  let era := z / 146097 in
  let doe := z - era * 146097 in
  let yoe := (doe - doe / 1460 + doe / 36524 - doe / 146096) / 365 in
  let doy := doe - (365 * yoe + yoe / 4 - yoe / 100) in
  let mp := (5 * doy + 2) / 153 in
  let d := doy - (153 * mp + 2) / 5 + 1 in
  let m := if mp <? 10 then mp + 3 else mp - 9 in
  (yoe + era * 400 + (if m <=? 2 then 1 else 0), m, d).

Definition days_from_civil (y m d : Z) : Z :=
  let y := if m <=? 2 then y - 1 else y in
  let era := y / 400 in
  let yoe := y - era * 400 in
  let doy := (153 * (if 2 <? m then m - 3 else m + 9) + 2) / 5 + d - 1 in
  era * 146097 + (yoe * 365 + yoe / 4 - yoe / 100 + doy) - 719468.

(** The days from 0001-01-01 to 1970-01-01. *)
Definition epoch_days : Z := 719162.

Definition digit (d : Z) : ascii := ascii_of_N (Z.to_N (48 + d)).

Definition two (n : Z) : string :=
  String (digit (n / 10 mod 10)) (String (digit (n mod 10)) "").

Definition four (n : Z) : string :=
  (two (n / 100) ++ two n)%string.

Definition format_timestamp (t : Z) : string :=
  let secs := t / 1000000 in
  let '(y, m, d) := civil_from_days (secs / 86400 - epoch_days) in
  let sod := secs mod 86400 in
  (four y ++ "-" ++ two m ++ "-" ++ two d ++ " "
   ++ two (sod / 3600) ++ ":" ++ two (sod / 60 mod 60) ++ ":"
   ++ two (sod mod 60))%string.

Definition digit_val (c : ascii) : option Z :=
  let n := ord c in
  if (48 <=? n) && (n <=? 57) then Some (n - 48) else None.

Fixpoint number (acc : Z) (cs : list ascii) : option Z :=
  match cs with
  | [] => Some acc
  | c :: rest =>
      match digit_val c with
      | Some d => number (10 * acc + d) rest
      | None => None
      end
  end.

(** Reads the timestamps [format_timestamp] writes: four, two, two,
    two, two and two digits around the separators, naming a date and
    a time that exist. (The parser of the library also takes fields of
    one digit, which none of the examples has.) *)
Definition parse_timestamp (s : string) : option Z :=
  match list_ascii_of_string s with
  | [y1; y2; y3; y4; s1; m1; m2; s2; d1; d2; s3; h1; h2; s4; n1; n2; s5;
     c1; c2] =>
      if negb (String.eqb (string_of_list_ascii [s1; s2; s3; s4; s5]) "-- ::")
      then None
      else
        match number 0 [y1; y2; y3; y4], number 0 [m1; m2], number 0 [d1; d2],
              number 0 [h1; h2], number 0 [n1; n2], number 0 [c1; c2] with
        | Some y, Some m, Some d, Some h, Some n, Some c =>
            let days := days_from_civil y m d in
            if (1 <=? y) && (1 <=? m) && (m <=? 12) && (1 <=? d)
               && (let '(y', m', d') := civil_from_days days in
                   (y' =? y) && (m' =? m) && (d' =? d))
               && (h <? 24) && (n <? 60) && (c <? 60)
            then Some (((days + epoch_days) * 86400 + h * 3600 + n * 60 + c)
                       * 1000000)
            else None
        | _, _, _, _, _, _ => None
        end
  | _ => None
  end.

End Lib.

(** The library of the examples. *)
Definition python : Library :=
  {| sha256_hexdigest := Lib.sha256;
     strftime := Lib.format_timestamp;
     strptime := Lib.parse_timestamp |}.

(** ** The account store *)

Section Model.

Context {lib : Library}.

Definition _hash_password (password : string) : string :=
  sha256_hexdigest password.

Definition _load_users : M file pyval :=
  fun f =>
    match f with
    | Json v => (Ret v, f)
    | _ => (Ret (PDict []), f)
    end.

Definition _save_users (users : pyval) : M file unit :=
  fun _ => (Ret tt, Json users).

(** The dict [{"success": ok, "message": msg}]. *)
Definition result (ok : bool) (msg : string) : pyval :=
  PDict [("success", PBool ok); ("message", PStr msg)].

(** The dict [{"success": True, "message": msg, "user_id": uid}]. *)
Definition result_for (msg uid : string) : pyval :=
  PDict [("success", PBool true); ("message", PStr msg); ("user_id", PStr uid)].

(** The loop of [user_signup]: is the email on some record? *)
Fixpoint user_signup_scan (email : string) (items : list (string * pyval))
  : res bool :=
  match items with
  | [] => Ret false
  | (_, user) :: rest =>
      (e <- py_getitem user "email" ;;
       if py_eq_str e email then Ret true else user_signup_scan email rest)%res
  end.

(** The record [user_signup] stores for a new user. *)
Definition new_user (email password : string) (primary_account : bool)
    (name phone security_question security_answer : option string)
    (now : Z) : pyval :=
  PDict [
    ("email", PStr email);
    ("password_hash", PStr (_hash_password password));
    ("name", PStr (or_empty name));
    ("phone", PStr (or_empty phone));
    ("theme", PStr "light");
    ("security_question", PStr (or_empty security_question));
    ("security_answer_hash",
       PStr (_hash_password (py_strip (py_lower (or_empty security_answer)))));
    ("created_at", PStr (strftime now));
    ("is_primary", PBool primary_account);
    ("devices", PDict []);
    ("caretakers", PList []);
    ("family", PList [])].

(** [uuid4] is the string [str(uuid.uuid4())] draws and [now] the
    reading of the clock. *)
Definition user_signup (email password : string) (primary_account : bool)
    (name phone security_question security_answer : option string)
    (uuid4 : string) (now : Z) : M file pyval :=
  (users <- _load_users ;;
   if negb (str_contains "@" email) || negb (str_contains "." email) then
     ret (result false "Invalid email format")
   else
     items <- lift (py_items users) ;;
     taken <- lift (user_signup_scan email items) ;;
     if taken then ret (result false "Email already registered")
     else if (py_len password <? 7)%Z then
       ret (result false "Password must be at least 7 characters")
     else if negb (re_search is_upper password) then
       ret (result false "Password must include at least one uppercase letter")
     else if negb (re_search is_digit password) then
       ret (result false "Password must include at least one digit")
     else if negb (re_search is_special password) then
       ret (result false "Password must include at least one special character")
     else
       let user_id := uuid4 in
       users' <- lift (py_setitem users user_id
                         (new_user email password primary_account name phone
                            security_question security_answer now)) ;;
       _save_users users' ;;;
       ret (result_for "Account created" user_id))%M.

Fixpoint user_login_scan (email password : string)
    (items : list (string * pyval)) : res pyval :=
  match items with
  | [] => Ret (result false "Email not found")
  | (uid, user) :: rest =>
      (e <- py_getitem user "email" ;;
       if py_eq_str e email then
         h <- py_getitem user "password_hash" ;;
         if py_eq_str h (_hash_password password)
         then Ret (result_for "Login successful" uid)
         else Ret (result false "Incorrect password")
       else user_login_scan email password rest)%res
  end.

Definition user_login (email password : string) : M file pyval :=
  (users <- _load_users ;;
   items <- lift (py_items users) ;;
   lift (user_login_scan email password items))%M.

(** [now1] and [now2] are the two readings of the clock. *)
Definition register_device (user_id device_id device_name : string)
    (now1 now2 : Z) : M file pyval :=
  (users <- _load_users ;;
   present <- lift (py_in user_id users) ;;
   if negb present then ret (result false "User not found")
   else
     user <- lift (py_getitem users user_id) ;;
     devices <- lift (py_getitem user "devices") ;;
     devices' <- lift (py_setitem devices device_id (PDict [
       ("name", PStr device_name);
       ("registered_at", PStr (strftime now1));
       ("last_seen", PStr (strftime now2))])) ;;
     user' <- lift (py_setitem user "devices" devices') ;;
     users' <- lift (py_setitem users user_id user') ;;
     _save_users users' ;;;
     ret (result true ("Device '" ++ device_name ++ "' registered")))%M.

(** [{"id": did, **info}]. *)
Definition device_entry (did : string) (info : pyval) : res pyval :=
  match info with
  | PDict kv =>
      Ret (PDict (fold_left (fun d '(k, v) => dict_set k v d) kv [("id", PStr did)]))
  | _ => Raise TypeError
  end.

Fixpoint get_user_devices_list (items : list (string * pyval))
  : res (list pyval) :=
  match items with
  | [] => Ret []
  | (did, info) :: rest =>
      (d <- device_entry did info ;;
       ds <- get_user_devices_list rest ;;
       Ret (d :: ds))%res
  end.

Definition get_user_devices (user_id : string) : M file pyval :=
  (users <- _load_users ;;
   present <- lift (py_in user_id users) ;;
   if negb present then ret (PList [])
   else
     user <- lift (py_getitem users user_id) ;;
     devices <- lift (py_getitem user "devices") ;;
     items <- lift (py_items devices) ;;
     ds <- lift (get_user_devices_list items) ;;
     ret (PList ds))%M.

(** The loop of [add_caretaker]: the first identifier whose record
    carries the email. *)
Fixpoint add_caretaker_scan (caretaker_email : string)
    (items : list (string * pyval)) : res (option string) :=
  match items with
  | [] => Ret None
  | (uid, user) :: rest =>
      (e <- py_getitem user "email" ;;
       if py_eq_str e caretaker_email then Ret (Some uid)
       else add_caretaker_scan caretaker_email rest)%res
  end.

Definition add_caretaker (user_id caretaker_email : string) : M file pyval :=
  (users <- _load_users ;;
   present <- lift (py_in user_id users) ;;
   if negb present then ret (result false "User not found")
   else
     items <- lift (py_items users) ;;
     found <- lift (add_caretaker_scan caretaker_email items) ;;
     match found with
     | None => ret (result false "Caretaker email not found")
     | Some caretaker_id =>
         if String.eqb caretaker_id "" then
           ret (result false "Caretaker email not found")
         else
           user <- lift (py_getitem users user_id) ;;
           caretakers <- lift (py_getitem user "caretakers") ;;
           listed <- lift (py_in caretaker_id caretakers) ;;
           if negb listed then
             caretakers' <- lift (py_append caretakers (PStr caretaker_id)) ;;
             user' <- lift (py_setitem user "caretakers" caretakers') ;;
             users' <- lift (py_setitem users user_id user') ;;
             _save_users users' ;;;
             ret (result true ("Caretaker " ++ caretaker_email ++ " added"))
           else ret (result false "Caretaker already added")
     end)%M.

Fixpoint get_accessible_accounts_scan (user_id : string)
    (items : list (string * pyval)) : res (list string) :=
  match items with
  | [] => Ret []
  | (uid, user) :: rest =>
      (caretakers <- py_getitem user "caretakers" ;;
       listed <- py_in user_id caretakers ;;
       more <- get_accessible_accounts_scan user_id rest ;;
       Ret (if listed then uid :: more else more))%res
  end.

Definition get_accessible_accounts (user_id : string) : M file (list string) :=
  (users <- _load_users ;;
   items <- lift (py_items users) ;;
   more <- lift (get_accessible_accounts_scan user_id items) ;;
   ret (user_id :: more))%M.

Definition set_user_theme (user_id theme : string) : M file pyval :=
  (users <- _load_users ;;
   present <- lift (py_in user_id users) ;;
   if negb present then ret (result false "User not found")
   else
     user <- lift (py_getitem users user_id) ;;
     user' <- lift (py_setitem user "theme"
       (PStr (if String.eqb theme "light" || String.eqb theme "dark"
              then theme else "light"))) ;;
     users' <- lift (py_setitem users user_id user') ;;
     _save_users users' ;;;
     ret (result true "Theme updated"))%M.

Definition get_user_profile (user_id : string) : M file pyval :=
  (users <- _load_users ;;
   user <- lift (py_get users user_id) ;;
   if negb (truthy user) then ret (PDict [])
   else
     email <- lift (py_get user "email") ;;
     name <- lift (py_get user "name") ;;
     phone <- lift (py_get user "phone") ;;
     theme <- lift (py_get_default user "theme" (PStr "light")) ;;
     ret (PDict [("email", email); ("name", name); ("phone", phone);
                 ("theme", theme)]))%M.

Definition get_user_medicines (user_id : string) : M file pyval :=
  (users <- _load_users ;;
   user <- lift (py_get users user_id) ;;
   if negb (truthy user) then ret (PList [])
   else lift (py_get_default user "medicines" (PList [])))%M.

Definition set_user_medicines (user_id : string) (medicines : pyval)
  : M file pyval :=
  (users <- _load_users ;;
   present <- lift (py_in user_id users) ;;
   if negb present then ret (PBool false)
   else
     user <- lift (py_getitem users user_id) ;;
     user' <- lift (py_setitem user "medicines" medicines) ;;
     users' <- lift (py_setitem users user_id user') ;;
     _save_users users' ;;;
     ret (PBool true))%M.

Fixpoint verify_security_answer_scan (email provided_answer : string)
    (items : list (string * pyval)) : res pyval :=
  match items with
  | [] => Ret (result false "Email not found")
  | (uid, user) :: rest =>
      (e <- py_getitem user "email" ;;
       if py_eq_str e email then
         stored_hash <- py_get_default user "security_answer_hash" (PStr "") ;;
         let provided_normalized :=
           _hash_password (py_strip (py_lower provided_answer)) in
         if py_eq_str stored_hash provided_normalized
         then Ret (result_for "Security answer verified" uid)
         else Ret (result false "Security answer is incorrect")
       else verify_security_answer_scan email provided_answer rest)%res
  end.

Definition verify_security_answer (email provided_answer : string)
  : M file pyval :=
  (users <- _load_users ;;
   items <- lift (py_items users) ;;
   lift (verify_security_answer_scan email provided_answer items))%M.

Definition reset_password (user_id new_password : string) : M file pyval :=
  (users <- _load_users ;;
   present <- lift (py_in user_id users) ;;
   if negb present then ret (result false "User not found")
   else if (py_len new_password <? 7)%Z then
     ret (result false "Password must be at least 7 characters")
   else if negb (re_search is_upper new_password) then
     ret (result false "Password must include at least one uppercase letter")
   else if negb (re_search is_digit new_password) then
     ret (result false "Password must include at least one digit")
   else if negb (re_search is_special new_password) then
     ret (result false "Password must include at least one special character")
   else
     user <- lift (py_getitem users user_id) ;;
     user' <- lift (py_setitem user "password_hash"
                      (PStr (_hash_password new_password))) ;;
     users' <- lift (py_setitem users user_id user') ;;
     _save_users users' ;;;
     ret (result true "Password reset successfully"))%M.

(** One call of the account store, with what the environment supplies
    to it (the identifier drawn, the readings of the clock). *)
Inductive call : Type :=
| UserSignup (email password : string) (primary_account : bool)
    (name phone security_question security_answer : option string)
    (uuid4 : string) (now : Z)
| UserLogin (email password : string)
| RegisterDevice (user_id device_id device_name : string) (now1 now2 : Z)
| GetUserDevices (user_id : string)
| AddCaretaker (user_id caretaker_email : string)
| GetAccessibleAccounts (user_id : string)
| SetUserTheme (user_id theme : string)
| GetUserProfile (user_id : string)
| GetUserMedicines (user_id : string)
| SetUserMedicines (user_id : string) (medicines : pyval)
| VerifySecurityAnswer (email provided_answer : string)
| ResetPassword (user_id new_password : string).

Definition run (c : call) : M file pyval :=
  match c with
  | UserSignup e p pa n ph q a u t => user_signup e p pa n ph q a u t
  | UserLogin e p => user_login e p
  | RegisterDevice u d n t1 t2 => register_device u d n t1 t2
  | GetUserDevices u => get_user_devices u
  | AddCaretaker u e => add_caretaker u e
  | GetAccessibleAccounts u =>
      (l <- get_accessible_accounts u ;; ret (PList (map PStr l)))%M
  | SetUserTheme u t => set_user_theme u t
  | GetUserProfile u => get_user_profile u
  | GetUserMedicines u => get_user_medicines u
  | SetUserMedicines u m => set_user_medicines u m
  | VerifySecurityAnswer e a => verify_security_answer e a
  | ResetPassword u p => reset_password u p
  end.

(** The stores the program can be in: it starts without a readable
    [users.json] and every call leaves the next store. *)
Inductive reachable : file -> Prop :=
| reachable_absent : reachable Absent
| reachable_garbage : reachable Garbage
| reachable_run (c : call) (f : file) :
    reachable f -> reachable (snd (run c f)).

(** ** The event store *)

Record Event : Type := {
  ts : pyval;
  source : pyval;
  button : pyval;
  language : pyval;
  text : pyval;
  device_id : pyval;
  user_id : pyval
}.

Definition CONFIG : pyval :=
  PDict [
    ("BTN1", PDict [("label", PStr "Help");
      ("texts", PDict [("en", PStr "I need help"); ("hi", PStr "मुझे मदद चाहिए"); ("it", PStr "Ho bisogno di aiuto"); ("de", PStr "Ich brauche Hilfe"); ("fr", PStr "J'ai besoin d'aide"); ("es", PStr "Necesito ayuda")])]);
    ("BTN2", PDict [("label", PStr "Medicines please");
      ("texts", PDict [("en", PStr "Medicines please"); ("hi", PStr "कृपया दवाएं दें"); ("it", PStr "Medicinali per favore"); ("de", PStr "Medikamente bitte"); ("fr", PStr "Médicaments s'il vous plaît"); ("es", PStr "Medicinas por favor")])]);
    ("BTN3", PDict [("label", PStr "Water");
      ("texts", PDict [("en", PStr "I need water"); ("hi", PStr "मुझे पानी चाहिए"); ("it", PStr "Ho bisogno di acqua"); ("de", PStr "Ich brauche Wasser"); ("fr", PStr "J'ai besoin d'eau"); ("es", PStr "Necesito agua")])]);
    ("BTN4", PDict [("label", PStr "I need rest");
      ("texts", PDict [("en", PStr "I need rest"); ("hi", PStr "मुझे आराम चाहिए"); ("it", PStr "Ho bisogno di riposo"); ("de", PStr "Ich brauche Ruhe"); ("fr", PStr "J'ai besoin de repos"); ("es", PStr "Necesito descanso")])]);
    ("BTN5", PDict [("label", PStr "Come here");
      ("texts", PDict [("en", PStr "Please come here"); ("hi", PStr "कृपया यहाँ आइए"); ("it", PStr "Per favore vieni qui"); ("de", PStr "Bitte komm her"); ("fr", PStr "S'il vous plaît, venez ici"); ("es", PStr "Por favor ven aquí")])]);
    ("BTN6", PDict [("label", PStr "Emergency");
      ("texts", PDict [("en", PStr "Emergency!"); ("hi", PStr "आपातकाल!"); ("it", PStr "Emergenza!"); ("de", PStr "Notfall!"); ("fr", PStr "Urgence!"); ("es", PStr "¡Emergencia!")])])].

(** [dataclasses.asdict]. *)
Definition asdict (e : Event) : pyval :=
  PDict [("ts", ts e); ("source", source e); ("button", button e);
         ("language", language e); ("text", text e);
         ("device_id", device_id e); ("user_id", user_id e)].

Definition Event_fields : list string :=
  ["ts"; "source"; "button"; "language"; "text"; "device_id"; "user_id"].

(** [Event] called with the entries of [item] as keyword arguments:
    every key names a field, the five fields without a default are
    given. *)
Definition Event_kwargs (item : pyval) : res Event :=
  match item with
  | PDict kv =>
      if forallb (fun k => existsb (String.eqb k) Event_fields) (dict_keys kv)
      then
        match dict_get "ts" kv, dict_get "source" kv, dict_get "button" kv,
              dict_get "language" kv, dict_get "text" kv with
        | Some a, Some b, Some c, Some d, Some e =>
            Ret {| ts := a; source := b; button := c; language := d; text := e;
                   device_id := match dict_get "device_id" kv with
                                | Some x => x
                                | None => PStr "unknown"
                                end;
                   user_id := match dict_get "user_id" kv with
                              | Some x => x
                              | None => PStr "default"
                              end |}
        | _, _, _, _, _ => Raise TypeError
        end
      else Raise TypeError
  | _ => Raise TypeError
  end.

(** [timedelta(days=7)]. *)
Definition seven_days : Z := 7 * 86400 * 1000000.

(** [datetime.strptime(x, "%Y-%m-%d %H:%M:%S")] on a value. *)
Definition strptime_val (x : pyval) : res Z :=
  match x with
  | PStr s =>
      match strptime s with
      | Some t => Ret t
      | None => Raise ValueError
      end
  | _ => Raise TypeError
  end.

(** [for item in data]. *)
Definition py_iter (x : pyval) : res (list pyval) :=
  match x with
  | PList l => Ret l
  | PDict kv => Ret (map (fun p => PStr (fst p)) kv)
  | PStr s => Ret (map (fun c => PStr (String c "")) (list_ascii_of_string s))
  | _ => Raise TypeError
  end.

(** The body of the inner [try] of [_load_events_from_file]. *)
Definition load_item (cutoff : Z) (item : pyval) : res (option Event) :=
  (t <- py_getitem item "ts" ;;
   evt_ts <- strptime_val t ;;
   if (cutoff <=? evt_ts)%Z then
     e <- Event_kwargs item ;; Ret (Some e)
   else Ret None)%res.

Fixpoint load_items (cutoff : Z) (data : list pyval) : list Event :=
  match data with
  | [] => []
  | item :: rest =>
      match load_item cutoff item with
      | Ret (Some e) => e :: load_items cutoff rest
      | _ => load_items cutoff rest
      end
  end.

Definition _load_events_from_file (now : Z) (f : file) : list Event :=
  match f with
  | Json data =>
      match py_iter data with
      | Ret items => load_items (now - seven_days) items
      | Raise _ => []
      end
  | _ => []
  end.

(** The module's state: the list [HISTORY], the file [events.json] and
    what has been handed to the speech engine. *)
Record store : Type := {
  HISTORY : list Event;
  EVENTS_FILE : file;
  spoken : list (pyval * string)
}.

Definition get_HISTORY : M store (list Event) :=
  fun st => (Ret (HISTORY st), st).

Definition set_HISTORY (h : list Event) : M store unit :=
  fun st => (Ret tt, {| HISTORY := h; EVENTS_FILE := EVENTS_FILE st;
                        spoken := spoken st |}).

Definition _save_events_to_file (events : list Event) : M store unit :=
  fun st => (Ret tt, {| HISTORY := HISTORY st;
                        EVENTS_FILE := Json (PList (map asdict events));
                        spoken := spoken st |}).

(** The module starts with [HISTORY = _load_events_from_file()]. *)
Definition startup (now : Z) (f : file) : store :=
  {| HISTORY := _load_events_from_file now f; EVENTS_FILE := f; spoken := [] |}.

Fixpoint keep_recent (cutoff : Z) (h : list Event) : res (list Event) :=
  match h with
  | [] => Ret []
  | e :: rest =>
      (t <- strptime_val (ts e) ;;
       rest' <- keep_recent cutoff rest ;;
       Ret (if (cutoff <=? t)%Z then e :: rest' else rest'))%res
  end.

Definition _cleanup_old_events (now : Z) : M store unit :=
  (let cutoff := (now - seven_days)%Z in
   h <- get_HISTORY ;;
   h' <- lift (keep_recent cutoff h) ;;
   set_HISTORY h' ;;;
   h'' <- get_HISTORY ;;
   _save_events_to_file h'')%M.

(** [speak_text] hands a non-empty text to the speech engine and never
    raises. *)
Definition speak_text (text : pyval) (language : string) : M store unit :=
  fun st =>
    if negb (truthy text) then (Ret tt, st)
    else (Ret tt, {| HISTORY := HISTORY st; EVENTS_FILE := EVENTS_FILE st;
                     spoken := spoken st ++ [(text, language)] |}).

(** The text [trigger] resolves, from the button already stripped and
    upper-cased. *)
Definition resolve_text (button language : string) (custom_text : option string)
  : res pyval :=
  match custom_text with
  | Some (String c s) => Ret (PStr (String c s))
  | _ =>
      (known <- py_in button CONFIG ;;
       if negb known then Ret (PStr ("Unknown button " ++ button))
       else
         entry <- py_getitem CONFIG button ;;
         texts <- py_getitem entry "texts" ;;
         entry' <- py_getitem CONFIG button ;;
         texts' <- py_getitem entry' "texts" ;;
         en <- py_getitem texts' "en" ;;
         py_get_default texts language en)%res
  end.

(** [now_evt] is the reading of the clock that stamps the event and
    [now_cleanup] the one [_cleanup_old_events] takes. *)
Definition trigger (button language source : string)
    (custom_text : option string) (device_id user_id : string)
    (now_evt now_cleanup : Z) : M store pyval :=
  (let button := py_upper (py_strip button) in
   text <- lift (resolve_text button language custom_text) ;;
   let evt := {| ts := PStr (strftime now_evt); source := PStr source;
                 button := PStr button; language := PStr language;
                 text := text; device_id := PStr device_id;
                 user_id := PStr user_id |} in
   h <- get_HISTORY ;;
   set_HISTORY (evt :: h) ;;;
   _cleanup_old_events now_cleanup ;;;
   h' <- get_HISTORY ;;
   _save_events_to_file h' ;;;
   speak_text text language ;;;
   ret (asdict evt))%M.

(** ** What a result says *)

(** The result is a dict whose ["success"] is [True]. *)
Definition succeeded (r : pyval) : bool :=
  match r with
  | PDict kv =>
      match dict_get "success" kv with
      | Some (PBool true) => true
      | _ => false
      end
  | _ => false
  end.

(** The result is a dict with a boolean ["success"] and a string
    ["message"]. *)
Definition structured (r : pyval) : bool :=
  match r with
  | PDict kv =>
      match dict_get "success" kv, dict_get "message" kv with
      | Some (PBool _), Some (PStr _) => true
      | _, _ => false
      end
  | _ => false
  end.

(** The password policy as the specification words it: at least seven
    characters, an uppercase letter, a digit and a character that is
    neither a letter nor a digit. *)
Definition meets_policy (password : string) : bool :=
  (7 <=? py_len password)%Z
  && existsb_str is_upper password
  && existsb_str is_digit password
  && existsb_str is_special password.

Definition policy_messages : list string :=
  ["Password must be at least 7 characters";
   "Password must include at least one uppercase letter";
   "Password must include at least one digit";
   "Password must include at least one special character"].

(** The email passes the format check of [user_signup]. *)
Definition valid_email (email : string) : bool :=
  str_contains "@" email && str_contains "." email.

(** The record stored under an identifier. *)
Definition lookup_user (f : file) (uid : string) : option pyval :=
  match f with
  | Json (PDict kv) => dict_get uid kv
  | _ => None
  end.

(** Some record of the store carries the email. *)
Definition registered (email : string) (f : file) : Prop :=
  exists uid user, lookup_user f uid = Some user
                   /\ py_getitem user "email" = Ret (PStr email).

(** The same, computed. *)
Definition registeredb (email : string) (f : file) : bool :=
  match f with
  | Json (PDict kv) =>
      existsb (fun p => match py_getitem (snd p) "email" with
                        | Ret e => py_eq_str e email
                        | Raise _ => false
                        end) kv
  | _ => false
  end.

(** The account [owner] lists [uid] as a caretaker. *)
Definition lists_caretaker (f : file) (owner uid : string) : Prop :=
  exists user l, lookup_user f owner = Some user
                 /\ py_getitem user "caretakers" = Ret (PList l)
                 /\ In (PStr uid) l.

(** ** The shape of the stores the program writes *)

Definition field_ok (k : string) (v : pyval) : Prop :=
  if String.eqb k "email" then exists e, v = PStr e /\ valid_email e = true
  else if String.eqb k "password_hash" then exists h, v = PStr h
  else if String.eqb k "theme" then v = PStr "light" \/ v = PStr "dark"
  else if String.eqb k "caretakers" then
    exists l, v = PList l /\ Forall (fun x => exists s, x = PStr s) l
  else if String.eqb k "devices" then
    exists d, v = PDict d /\ Forall (fun p => exists i, snd p = PDict i) d
  else True.

Definition user_ok (user : pyval) : Prop :=
  exists fields,
    user = PDict fields
    /\ Forall (fun k => dict_get k fields <> None)
         ["email"; "password_hash"; "theme"; "caretakers"; "devices"]
    /\ forall k v, dict_get k fields = Some v -> field_ok k v.

Definition users_ok (f : file) : Prop :=
  match f with
  | Absent | Garbage => True
  | Json (PDict kv) => NoDup (dict_keys kv) /\ Forall (fun p => user_ok (snd p)) kv
  | Json _ => False
  end.

(** [uid] is on the caretaker list of the record. *)
Definition has_caretaker (uid : string) (user : pyval) : bool :=
  match py_getitem user "caretakers" with
  | Ret (PList l) => existsb (fun y => py_eq_str y uid) l
  | _ => false
  end.

(** [f'] is [f] with the field [k] of the record of [uid] set to [v]. *)
Definition with_field (f : file) (uid k : string) (v : pyval) (f' : file)
  : Prop :=
  exists kv fields,
    _load_users f = (Ret (PDict kv), f)
    /\ dict_get uid kv = Some (PDict fields)
    /\ f' = Json (PDict (dict_set uid (PDict (dict_set k v fields)) kv)).

(** What the answer of a call looks like: the seven operations that
    report through a dict with a flag and a message, and the five that
    answer with a bare value. *)
Definition answer_shape (c : call) (f : file) (v : pyval) : Prop :=
  match c with
  | SetUserMedicines uid _ =>
      v = PBool (match lookup_user f uid with Some _ => true | None => false end)
  | GetUserProfile uid =>
      exists fields, v = PDict fields /\ (lookup_user f uid = None -> fields = [])
  | GetUserDevices uid =>
      exists ds, v = PList ds /\ (lookup_user f uid = None -> ds = [])
  | GetUserMedicines uid => lookup_user f uid = None -> v = PList []
  | GetAccessibleAccounts uid => exists l, v = PList (PStr uid :: l)
  | _ => structured v = true
  end.

(** The record whose theme a call may write. *)
Definition writes_theme (c : call) : option string :=
  match c with
  | UserSignup _ _ _ _ _ _ _ uuid4 _ => Some uuid4
  | SetUserTheme uid _ => Some uid
  | _ => None
  end.

(** ** What the event store holds *)

(** The timestamp of the event reads as a time not before the cutoff. *)
Definition recent (cutoff : Z) (e : Event) : bool :=
  match strptime_val (ts e) with
  | Ret t => (cutoff <=? t)%Z
  | Raise _ => false
  end.

(** The timestamp of the event reads as a time. *)
Definition stamped (e : Event) : Prop :=
  exists t, strptime_val (ts e) = Ret t.

(** The events written in [events.json]. *)
Definition persisted (st : store) : list pyval :=
  match EVENTS_FILE st with
  | Json (PList items) => items
  | _ => []
  end.

(** The history and the file hold the events of [h] that are at most
    seven days old at [now], and no event older than that. *)
Definition pruned (now : Z) (h : list Event) (st' : store) : Prop :=
  HISTORY st' = filter (recent (now - seven_days)) h
  /\ persisted st' = map asdict (HISTORY st')
  /\ (forall e t,
        strptime_val (ts e) = Ret t -> (t < now - seven_days)%Z ->
        ~ In e (HISTORY st') /\ ~ In (asdict e) (persisted st'))
  /\ (forall e t,
        In e h -> strptime_val (ts e) = Ret t -> (now - seven_days <= t)%Z ->
        In e (HISTORY st') /\ In (asdict e) (persisted st')).

(** The phrases configured for a button. *)
Definition phrase_table (button : string) : option (list (string * pyval)) :=
  match py_getitem CONFIG button with
  | Ret entry =>
      match py_getitem entry "texts" with
      | Ret (PDict texts) => Some texts
      | _ => None
      end
  | Raise _ => None
  end.

(** The text as the specification words it: the custom text when there
    is a non-empty one; otherwise the phrase configured for the button
    and the language, or the button's English phrase when the language
    is not in its table; and the placeholder when the button is not
    configured. *)
Definition expected_text (button language : string)
    (custom_text : option string) : pyval :=
  match custom_text with
  | Some (String c s) => PStr (String c s)
  | _ =>
      match phrase_table button with
      | Some texts =>
          match dict_get language texts with
          | Some phrase => phrase
          | None =>
              match dict_get "en" texts with
              | Some phrase => phrase
              | None => PNone
              end
          end
      | None => PStr ("Unknown button " ++ button)
      end
  end.

(** The event [trigger] builds. *)
Definition trigger_event (button language source : string)
    (custom_text : option string) (device_id user_id : string) (now_evt : Z)
  : Event :=
  {| ts := PStr (strftime now_evt);
     source := PStr source;
     button := PStr (py_upper (py_strip button));
     language := PStr language;
     text := expected_text (py_upper (py_strip button)) language custom_text;
     device_id := PStr device_id;
     user_id := PStr user_id |}.

(** ** Further properties of the account store *)

(** No two records of the store carry the same email. *)
Definition unique_emails (f : file) : Prop :=
  forall uid uid' user user' e,
    lookup_user f uid = Some user ->
    lookup_user f uid' = Some user' ->
    py_getitem user "email" = Ret (PStr e) ->
    py_getitem user' "email" = Ret (PStr e) ->
    uid = uid'.

(** The record and the field a call may set. *)
Definition writes (c : call) : option (string * string) :=
  match c with
  | RegisterDevice uid _ _ _ _ => Some (uid, "devices")
  | AddCaretaker uid _ => Some (uid, "caretakers")
  | SetUserTheme uid _ => Some (uid, "theme")
  | SetUserMedicines uid _ => Some (uid, "medicines")
  | ResetPassword uid _ => Some (uid, "password_hash")
  | _ => None
  end.


(** A device record as [register_device] writes it. *)
Definition device_ok (info : pyval) : Prop :=
  exists n r l,
    info = PDict [("name", PStr n); ("registered_at", PStr r);
                  ("last_seen", PStr l)].

(** Every record of the store maps device identifiers, each once, to
    such device records. *)
Definition devices_ok (f : file) : Prop :=
  forall uid user,
    lookup_user f uid = Some user ->
    exists d,
      py_getitem user "devices" = Ret (PDict d)
      /\ NoDup (dict_keys d)
      /\ Forall (fun p => device_ok (snd p)) d.

(** The entry [get_user_devices] lists for a device. *)
Definition device_row (p : string * pyval) : pyval :=
  match snd p with
  | PDict info => PDict (("id", PStr (fst p)) :: info)
  | _ => PNone
  end.

(** ** Further properties of the event store *)

(** An entry of [events.json] that [_load_events_from_file] can turn
    into an event: a dict whose timestamp is a string that reads as a
    time, whose keys all name fields of [Event], and which gives the
    four other fields without a default. *)
Definition well_formed_item (item : pyval) : bool :=
  match item with
  | PDict kv =>
      match dict_get "ts" kv with
      | Some (PStr s) =>
          match strptime s with
          | Some _ => true
          | None => false
          end
      | _ => false
      end
      && forallb (fun k => existsb (String.eqb k) Event_fields) (dict_keys kv)
      && forallb (fun k => match dict_get k kv with
                           | Some _ => true
                           | None => false
                           end)
                 ["source"; "button"; "language"; "text"]
  | _ => false
  end.

(** ** Choosing a voice

    A voice of the speech engine, as [_select_voice_for_language]
    reads it: its identifier and its name, either of which may be
    [None], and its language tags, each a [bytes] or a [str]; the tags
    are [None] when the voice has no attribute [languages] or an empty
    one. *)

Inductive lang_tag : Type :=
| TagBytes (b : string)
| TagStr (s : string).

Record Voice : Type := {
  voice_id : option string;
  voice_name : option string;
  voice_languages : option (list lang_tag)
}.

(** Well-formed UTF-8: what [bytes.decode] accepts. *)
Fixpoint valid_utf8 (fuel : nat) (bs : list ascii) : bool :=
  match fuel with
  | O => match bs with [] => true | _ => false end
  | S fuel' =>
      let cont := in_range 128 191 in
      match bs with
      | [] => true
      | b :: rest =>
          if in_range 0 127 b then valid_utf8 fuel' rest
          else if in_range 194 223 b then
            match rest with
            | c :: rest' => cont c && valid_utf8 fuel' rest'
            | _ => false
            end
          else if in_range 224 239 b then
            match rest with
            | c :: d :: rest' =>
                (if in_range 224 224 b then in_range 160 191 c
                 else if in_range 237 237 b then in_range 128 159 c
                 else cont c)
                && cont d && valid_utf8 fuel' rest'
            | _ => false
            end
          else if in_range 240 244 b then
            match rest with
            | c :: d :: e :: rest' =>
                (if in_range 240 240 b then in_range 144 191 c
                 else if in_range 244 244 b then in_range 128 143 c
                 else cont c)
                && cont d && cont e && valid_utf8 fuel' rest'
            | _ => false
            end
          else false
      end
  end.

(** [lv.decode() if isinstance(lv, bytes) else str(lv)]. *)
Definition tag_text (lv : lang_tag) : res string :=
  match lv with
  | TagBytes b =>
      if valid_utf8 (String.length b) (list_ascii_of_string b) then Ret b
      else Raise ValueError
  | TagStr s => Ret s
  end.

(** The list [langs] the first loop builds for a voice. *)
Fixpoint voice_langs (tags : list lang_tag) : list string :=
  match tags with
  | [] => []
  | lv :: rest =>
      match tag_text lv with
      | Ret s => s :: voice_langs rest
      | Raise _ => voice_langs rest
      end
  end.

(** [sep.join(l)]. *)
Fixpoint py_join (sep : string) (l : list string) : string :=
  match l with
  | [] => ""
  | [s] => s
  | s :: rest => s ++ sep ++ py_join sep rest
  end.

(** [s.replace("-", "_")]. *)
Definition dash_to_underscore (s : string) : string :=
  map_str (fun c => if Ascii.eqb c "-"%char then "_"%char else c) s.

(** The text the first loop searches for a voice. *)
Definition voice_joined (v : Voice) : string :=
  py_join " "
    (match voice_languages v with
     | Some tags => voice_langs tags
     | None => []
     end
     ++ [py_lower (or_empty (voice_name v));
         py_lower (or_empty (voice_id v))]).

Fixpoint select_by_language (language : string) (voices : list Voice)
  : option (option string) :=
  match voices with
  | [] => None
  | v :: rest =>
      let joined := voice_joined v in
      if str_contains language joined
         || str_contains (dash_to_underscore language) joined
      then Some (voice_id v)
      else select_by_language language rest
  end.

Definition fallback_map : list (string * list string) :=
  [("en", ["english"; "en_"]); ("hi", ["hindi"; "hi_"]);
   ("it", ["italian"; "it_"]); ("de", ["german"; "de_"]);
   ("fr", ["french"; "fr_"]); ("es", ["spanish"; "es_"])].

Fixpoint fallback_checks (language : string)
    (table : list (string * list string)) : list string :=
  match table with
  | [] => []
  | (l, checks) :: rest =>
      if String.eqb language l then checks else fallback_checks language rest
  end.

Fixpoint select_by_name (checks : list string) (voices : list Voice)
  : option (option string) :=
  match voices with
  | [] => None
  | v :: rest =>
      let name := py_lower (or_empty (voice_name v)) in
      let vid := py_lower (or_empty (voice_id v)) in
      if existsb (fun chk => str_contains chk name || str_contains chk vid)
                 checks
      then Some (voice_id v)
      else select_by_name checks rest
  end.

(** [has_pyttsx3] is the flag [_HAS_PYTTSX3] and [voices] what
    [engine.getProperty("voices")] gives, which may be [None]. The
    result is the identifier returned, which may be [None]. *)
Definition _select_voice_for_language (has_pyttsx3 : bool)
    (voices : option (list Voice)) (language : string) : option string :=
  if negb has_pyttsx3 then None
  else
    let language := py_lower language in
    let voices := match voices with Some l => l | None => [] end in
    match select_by_language language voices with
    | Some found => found
    | None =>
        match select_by_name (fallback_checks language fallback_map) voices with
        | Some found => found
        | None => None
        end
    end.

End Model.

(** ** A store and a history to run the program on *)

Module Example.

Definition ana : string := "3f2b8c1e-7a4d-4e0b-9c55-1d2e3f4a5b6c".

(** Two readings of the clock on 2026-11-04: 10:00:00.25 and
    10:00:01.5. *)
Definition clock : Z := 63929383200250000.
Definition clock' : Z := 63929383201500000.

Definition signup_ana : call :=
  UserSignup "ana@example.org" "Abcde1!" true (Some "Ana") None None None
    ana clock.

(** [users.json] once Ana has signed up, and once she has then named
    herself as a caretaker. *)
Definition one_user : file := snd (run (lib := python) signup_ana Absent).

Definition own_caretaker : file :=
  snd (run (lib := python) (AddCaretaker ana "ana@example.org") one_user).

(** An event of an hour before the first reading and one of fifteen
    days before. *)
Definition fresh_event : Event :=
  {| ts := PStr "2026-11-04 09:00:00"; source := PStr "UI";
     button := PStr "BTN1"; language := PStr "en";
     text := PStr "I need help"; device_id := PStr "unknown";
     user_id := PStr "default" |}.

Definition old_event : Event :=
  {| ts := PStr "2026-10-20 09:00:00"; source := PStr "DEVICE";
     button := PStr "BTN3"; language := PStr "fr";
     text := PStr "J'ai besoin d'eau"; device_id := PStr "tablet";
     user_id := PStr ana |}.

Definition two_events : store :=
  {| HISTORY := [fresh_event; old_event];
     EVENTS_FILE := Json (PList [asdict fresh_event; asdict old_event]);
     spoken := [] |}.

(** A history whose second event carries a timestamp that
    [datetime.strptime] refuses. *)
Definition unreadable_event : Event :=
  {| ts := PStr "yesterday"; source := PStr "UI";
     button := PStr "BTN2"; language := PStr "en";
     text := PStr "I am in pain"; device_id := PStr "unknown";
     user_id := PStr "default" |}.

Definition broken_history : store :=
  {| HISTORY := [fresh_event; unreadable_event];
     EVENTS_FILE := Json (PList [asdict fresh_event]);
     spoken := [] |}.

(** Two voices: one with a [str] language tag, one with a [bytes]
    tag that starts with the byte 5. *)
Definition samantha : Voice :=
  {| voice_id := Some "com.apple.speech.synthesis.voice.samantha";
     voice_name := Some "Samantha";
     voice_languages := Some [TagStr "en_US"] |}.

Definition anna : Voice :=
  {| voice_id := Some "gmw/de";
     voice_name := Some "German";
     voice_languages := Some [TagBytes (String (ascii_of_nat 5) "de")] |}.

End Example.

(** ** The library of the examples

    [Lib.sha256] on the two test vectors of FIPS 180-4, and a timestamp
    written and read back. *)

Lemma sha256_test_vectors :
  Lib.sha256 ""
  = "e3b0c44298fc1c149afbf4c8996fb92427ae41e4649b934ca495991b7852b855"
  /\ Lib.sha256 "abc"
     = "ba7816bf8f01cfea414140de5dae2223b00361a396177a9cb410ff61f20015ad".
Proof. split; vm_compute; reflexivity. Qed.

Lemma timestamp_written_and_read :
  Lib.format_timestamp Example.clock = "2026-11-04 10:00:00"
  /\ Lib.parse_timestamp "2026-11-04 10:00:00" = Some 63929383200000000%Z
  /\ Lib.parse_timestamp "2026-02-29 10:00:00" = None.
Proof. repeat split; vm_compute; reflexivity. Qed.

Section Properties.

Context {lib : Library}.

(** ** Dictionaries *)

Lemma dict_get_set_same (k : string) (v : pyval) (kv : list (string * pyval)) :
  dict_get k (dict_set k v kv) = Some v.
Proof.
  induction kv as [|[k' v'] rest IH]; simpl.
  - now rewrite String.eqb_refl.
  - destruct (String.eqb k k') eqn:E; simpl; rewrite E; auto.
Qed.

Lemma dict_get_set_other (k k' : string) (v : pyval) (kv : list (string * pyval)) :
  k' <> k -> dict_get k' (dict_set k v kv) = dict_get k' kv.
Proof.
  intros Hne. induction kv as [|[k0 v0] rest IH]; simpl.
  - apply String.eqb_neq in Hne. now rewrite Hne.
  - destruct (String.eqb k k0) eqn:E; simpl.
    + apply String.eqb_eq in E. subst k0.
      apply String.eqb_neq in Hne. now rewrite Hne.
    + now rewrite IH.
Qed.

Lemma dict_get_In (k : string) (v : pyval) (kv : list (string * pyval)) :
  dict_get k kv = Some v -> In (k, v) kv.
Proof.
  induction kv as [|[k' v'] rest IH]; simpl; [discriminate|].
  destruct (String.eqb k k') eqn:E.
  - apply String.eqb_eq in E. intros [= ->]. left. now subst.
  - auto.
Qed.

Lemma dict_get_key (k : string) (kv : list (string * pyval)) :
  existsb (String.eqb k) (dict_keys kv)
  = match dict_get k kv with Some _ => true | None => false end.
Proof.
  induction kv as [|[k' v'] rest IH]; simpl; [reflexivity|].
  destruct (String.eqb k k'); simpl; auto.
Qed.

Lemma In_dict_get (k : string) (v : pyval) (kv : list (string * pyval)) :
  NoDup (dict_keys kv) -> In (k, v) kv -> dict_get k kv = Some v.
Proof.
  induction kv as [|[k' v'] rest IH]; simpl; [tauto|].
  intros Hnd [Heq|Hin].
  - injection Heq as -> ->. now rewrite String.eqb_refl.
  - inversion Hnd as [|? ? Hnotin Hnd']; subst.
    destruct (String.eqb k k') eqn:E.
    + apply String.eqb_eq in E. subst k'. exfalso. apply Hnotin.
      change k with (fst (k, v)). now apply in_map.
    + auto.
Qed.

Lemma dict_keys_set (k : string) (v : pyval) (kv : list (string * pyval)) :
  dict_keys (dict_set k v kv)
  = if existsb (String.eqb k) (dict_keys kv) then dict_keys kv
    else dict_keys kv ++ [k].
Proof.
  induction kv as [|[k' v'] rest IH]; simpl; [reflexivity|].
  destruct (String.eqb k k') eqn:E; simpl; [reflexivity|].
  rewrite IH. now destruct (existsb (String.eqb k) (dict_keys rest)).
Qed.

Lemma dict_set_NoDup (k : string) (v : pyval) (kv : list (string * pyval)) :
  NoDup (dict_keys kv) -> NoDup (dict_keys (dict_set k v kv)).
Proof.
  intros Hnd. rewrite dict_keys_set.
  destruct (existsb (String.eqb k) (dict_keys kv)) eqn:E; [assumption|].
  apply NoDup_app; [assumption | repeat constructor; simpl; tauto |].
  intros x Hx [<-|[]].
  assert (existsb (String.eqb k) (dict_keys kv) = true); [|congruence].
  apply existsb_exists. exists k. split; [assumption | apply String.eqb_refl].
Qed.

Lemma dict_set_Forall (P : pyval -> Prop) (k : string) (v : pyval)
    (kv : list (string * pyval)) :
  Forall (fun p => P (snd p)) kv -> P v ->
  Forall (fun p => P (snd p)) (dict_set k v kv).
Proof.
  intros Hall Hv. induction Hall as [|[k' v'] rest Hp Hrest IH]; simpl.
  - repeat constructor. exact Hv.
  - destruct (String.eqb k k'); constructor; auto.
Qed.

Lemma dict_get_Forall (P : pyval -> Prop) (k : string) (v : pyval)
    (kv : list (string * pyval)) :
  Forall (fun p => P (snd p)) kv -> dict_get k kv = Some v -> P v.
Proof.
  intros Hall Hget. apply dict_get_In in Hget.
  rewrite Forall_forall in Hall. exact (Hall _ Hget).
Qed.

(** ** Signing up and logging in *)

(** What a successful [user_signup] has checked and written. *)
Lemma user_signup_succeeded
    (email password : string) (pa : bool) (name phone q a : option string)
    (uuid4 : string) (now : Z) (f f' : file) (r : pyval) :
  user_signup email password pa name phone q a uuid4 now f = (Ret r, f') ->
  succeeded r = true ->
  exists kv,
    _load_users f = (Ret (PDict kv), f)
    /\ valid_email email = true
    /\ user_signup_scan email kv = Ret false
    /\ meets_policy password = true
    /\ r = result_for "Account created" uuid4
    /\ f' = Json (PDict (dict_set uuid4
                           (new_user email password pa name phone q a now) kv)).
Proof.
  unfold user_signup, bind, lift, ret, valid_email, re_search.
  destruct (_load_users f) as [[users|e] f0] eqn:Hload.
  2:{ intros [=]. }
  assert (f0 = f) as -> by (destruct f; simpl in Hload; congruence).
  destruct (str_contains "@" email); simpl;
    [|intros [= <- <-]; discriminate].
  destruct (str_contains "." email); simpl;
    [|intros [= <- <-]; discriminate].
  destruct users as [| | | |l|kv]; simpl; try (intros [=]; fail).
  destruct (user_signup_scan email kv) as [[|]|e] eqn:Hscan; simpl;
    try (intros [= <- <-]; discriminate); try (intros [=]; fail).
  destruct (py_len password <? 7)%Z eqn:Hlen; simpl;
    [intros [= <- <-]; discriminate|].
  destruct (existsb_str is_upper password) eqn:Hup; simpl;
    [|intros [= <- <-]; discriminate].
  destruct (existsb_str is_digit password) eqn:Hdig; simpl;
    [|intros [= <- <-]; discriminate].
  destruct (existsb_str is_special password) eqn:Hspec; simpl;
    [|intros [= <- <-]; discriminate].
  intros [= <- <-] _. exists kv. repeat split; try reflexivity; try assumption.
  unfold meets_policy. rewrite Hup, Hdig, Hspec.
  apply Z.ltb_ge in Hlen. apply Z.leb_le in Hlen. now rewrite Hlen.
Qed.

Lemma user_login_scan_new_user
    (email password uuid4 : string) (fields kv : list (string * pyval)) :
  dict_get "email" fields = Some (PStr email) ->
  dict_get "password_hash" fields = Some (PStr (_hash_password password)) ->
  user_signup_scan email kv = Ret false ->
  user_login_scan email password (dict_set uuid4 (PDict fields) kv)
  = Ret (result_for "Login successful" uuid4).
Proof.
  intros Hemail Hhash.
  assert (Hnew : forall k rest,
    user_login_scan email password ((k, PDict fields) :: rest)
    = Ret (result_for "Login successful" k)).
  { intros k rest. simpl. rewrite Hemail. simpl.
    rewrite String.eqb_refl, Hhash. simpl. now rewrite String.eqb_refl. }
  induction kv as [|[k u] rest IH]; intros Hscan.
  - apply Hnew.
  - simpl in Hscan. simpl dict_set.
    destruct (py_getitem u "email") as [e|x] eqn:Hu; simpl in Hscan;
      [|discriminate].
    destruct (py_eq_str e email) eqn:He; [discriminate|].
    destruct (String.eqb uuid4 k) eqn:Hk.
    + apply String.eqb_eq in Hk. subst k. apply Hnew.
    + simpl. rewrite Hu. simpl. rewrite He. now apply IH.
Qed.

(** C4. After [user_signup] has accepted an email and a password and
    returned a success, [user_login] with the same email and password
    succeeds and returns the identifier the signup returned. *)
Theorem user_login_after_signup
    (email password : string) (pa : bool) (name phone q a : option string)
    (uuid4 : string) (now : Z) (f f' : file) (r : pyval) :
  user_signup email password pa name phone q a uuid4 now f = (Ret r, f') ->
  succeeded r = true ->
  exists uid,
    py_getitem r "user_id" = Ret (PStr uid)
    /\ user_login email password f'
       = (Ret (result_for "Login successful" uid), f').
Proof.
  intros Hrun Hok.
  destruct (user_signup_succeeded _ _ _ _ _ _ _ _ _ _ _ _ Hrun Hok)
    as (kv & _ & _ & Hscan & _ & -> & ->).
  exists uuid4. split; [reflexivity|].
  unfold user_login, bind, lift. simpl.
  unfold new_user.
  now rewrite (user_login_scan_new_user email password uuid4 _ kv).
Qed.

(** ** Records of the shape [user_signup] writes *)

Lemma user_ok_fields (user : pyval) :
  user_ok user ->
  exists fields e h l d,
    user = PDict fields
    /\ dict_get "email" fields = Some (PStr e) /\ valid_email e = true
    /\ dict_get "password_hash" fields = Some (PStr h)
    /\ (dict_get "theme" fields = Some (PStr "light")
        \/ dict_get "theme" fields = Some (PStr "dark"))
    /\ dict_get "caretakers" fields = Some (PList l)
    /\ Forall (fun x => exists s, x = PStr s) l
    /\ dict_get "devices" fields = Some (PDict d)
    /\ Forall (fun p => exists i, snd p = PDict i) d.
Proof.
  intros (fields & -> & Hreq & Hok).
  assert (Hfield : forall k,
            In k ["email"; "password_hash"; "theme"; "caretakers"; "devices"] ->
            exists v, dict_get k fields = Some v /\ field_ok k v).
  { intros k Hk. rewrite Forall_forall in Hreq. specialize (Hreq k Hk).
    destruct (dict_get k fields) as [v|] eqn:E; [|congruence].
    exists v. split; [reflexivity | exact (Hok _ _ E)]. }
  destruct (Hfield "email") as (? & He & e & -> & Hv); [simpl; tauto|].
  destruct (Hfield "password_hash") as (? & Hh & h & ->); [simpl; tauto|].
  destruct (Hfield "theme") as (? & Ht & Htheme); [simpl; tauto|].
  destruct (Hfield "caretakers") as (? & Hc & l & -> & Hl); [simpl; tauto|].
  destruct (Hfield "devices") as (? & Hd & d & -> & Hdev); [simpl; tauto|].
  exists fields, e, h, l, d.
  repeat split; try assumption.
  simpl in Htheme. destruct Htheme as [-> | ->]; auto.
Qed.

Lemma user_ok_set (k : string) (v : pyval) (fields : list (string * pyval)) :
  user_ok (PDict fields) -> field_ok k v ->
  user_ok (PDict (dict_set k v fields)).
Proof.
  intros (fields' & [= <-] & Hreq & Hok) Hv.
  exists (dict_set k v fields). split; [reflexivity|]. split.
  - rewrite Forall_forall in *. intros k' Hk'.
    destruct (String.eqb k' k) eqn:E.
    + apply String.eqb_eq in E. subst k'. now rewrite dict_get_set_same.
    + apply String.eqb_neq in E. rewrite dict_get_set_other by assumption.
      now apply Hreq.
  - intros k' v' Hget.
    destruct (String.eqb k' k) eqn:E.
    + apply String.eqb_eq in E. subst k'.
      rewrite dict_get_set_same in Hget. now injection Hget as <-.
    + apply String.eqb_neq in E. rewrite dict_get_set_other in Hget by assumption.
      now apply Hok.
Qed.

Lemma new_user_ok
    (email password : string) (pa : bool) (name phone q a : option string)
    (now : Z) :
  valid_email email = true ->
  user_ok (new_user email password pa name phone q a now).
Proof.
  intros Hv. eexists. split; [reflexivity|]. split.
  - repeat constructor; simpl; discriminate.
  - intros k v. unfold field_ok. simpl.
    repeat match goal with
           | |- context [String.eqb k ?s] =>
               let E := fresh "E" in
               destruct (String.eqb k s) eqn:E;
               [apply String.eqb_eq in E; subst k; simpl; intros [= <-]|]
           end; eauto; try discriminate.
Qed.

Lemma users_ok_load (f : file) :
  users_ok f ->
  exists kv,
    _load_users f = (Ret (PDict kv), f)
    /\ NoDup (dict_keys kv)
    /\ Forall (fun p => user_ok (snd p)) kv.
Proof.
  destruct f as [| |[| | | | |kv]]; simpl; try tauto.
  - intros _. exists []. repeat split; constructor.
  - intros _. exists []. repeat split; constructor.
  - intros [Hnd Hall]. now exists kv.
Qed.

Lemma users_ok_lookup (f : file) (uid : string) (user : pyval) :
  users_ok f -> lookup_user f uid = Some user -> user_ok user.
Proof.
  destruct f as [| |[| | | | |kv]]; simpl; try discriminate.
  intros [_ Hall] Hget.
  exact (dict_get_Forall user_ok _ _ _ Hall Hget).
Qed.

Lemma users_ok_store (k : string) (user : pyval) (kv : list (string * pyval)) :
  NoDup (dict_keys kv) -> Forall (fun p => user_ok (snd p)) kv ->
  user_ok user ->
  users_ok (Json (PDict (dict_set k user kv))).
Proof.
  intros Hnd Hall Hu. split.
  - now apply dict_set_NoDup.
  - now apply (dict_set_Forall user_ok).
Qed.

(** ** What each call does to a well-shaped store *)

Lemma lookup_user_load (f : file) (kv : list (string * pyval)) (uid : string) :
  _load_users f = (Ret (PDict kv), f) -> lookup_user f uid = dict_get uid kv.
Proof.
  destruct f as [| |[| | | | |kv']]; simpl; intros [= <-]; reflexivity.
Qed.

Lemma with_field_ok (f f' : file) (uid k : string) (v : pyval) :
  users_ok f -> with_field f uid k v f' -> field_ok k v -> users_ok f'.
Proof.
  intros Hok (kv & fields & Hload & Hget & ->) Hv.
  destruct (users_ok_load f Hok) as (kv' & Hload' & Hnd & Hall).
  rewrite Hload in Hload'. injection Hload' as <-.
  apply users_ok_store; try assumption.
  apply user_ok_set; [|assumption].
  exact (dict_get_Forall user_ok _ _ _ Hall Hget).
Qed.

Lemma with_field_lookup (f f' : file) (uid k : string) (v : pyval)
    (uid' : string) (user' : pyval) :
  with_field f uid k v f' ->
  lookup_user f' uid' = Some user' ->
  (uid' = uid
   /\ exists fields, lookup_user f uid = Some (PDict fields)
                     /\ user' = PDict (dict_set k v fields))
  \/ (uid' <> uid /\ lookup_user f uid' = Some user').
Proof.
  intros (kv & fields & Hload & Hget & ->). simpl.
  rewrite (lookup_user_load f kv uid' Hload).
  rewrite (lookup_user_load f kv uid Hload).
  destruct (String.eqb uid' uid) eqn:E.
  - apply String.eqb_eq in E. subst uid'.
    rewrite dict_get_set_same. intros [= <-].
    left. split; [reflexivity|]. exists fields. auto.
  - apply String.eqb_neq in E. rewrite dict_get_set_other by assumption.
    intros Hget'. right. auto.
Qed.

Ltac load_ok f Hok kv Hload Hnd Hall :=
  destruct (users_ok_load f Hok) as (kv & Hload & Hnd & Hall).

Ltac find_user uid kv Hall user Hget fields :=
  rewrite (dict_get_key uid kv);
  destruct (dict_get uid kv) as [user|] eqn:Hget; simpl;
  [ let Hu := fresh "Hu" in
    pose proof (dict_get_Forall user_ok _ _ _ Hall Hget) as Hu;
    destruct (user_ok_fields _ Hu)
      as (fields & ?e & ?h & ?l & ?d & -> & ?He & ?Hv & ?Hh & ?Ht & ?Hc & ?Hl
          & ?Hd & ?Hdev);
    clear Hu; simpl
  | ].

Lemma set_user_theme_spec (uid theme : string) (f : file) :
  users_ok f ->
  lookup_user f uid = None
  /\ set_user_theme uid theme f = (Ret (result false "User not found"), f)
  \/ exists f',
       set_user_theme uid theme f = (Ret (result true "Theme updated"), f')
       /\ with_field f uid "theme"
            (PStr (if String.eqb theme "light" || String.eqb theme "dark"
                   then theme else "light")) f'.
Proof.
  intros Hok. load_ok f Hok kv Hload Hnd Hall.
  rewrite (lookup_user_load f kv uid Hload).
  unfold set_user_theme, bind, lift, ret. rewrite Hload. simpl.
  find_user uid kv Hall user Hget fields.
  - right. eexists. split; [reflexivity|]. now exists kv, fields.
  - left. auto.
Qed.

Lemma set_user_medicines_spec (uid : string) (medicines : pyval) (f : file) :
  users_ok f ->
  lookup_user f uid = None
  /\ set_user_medicines uid medicines f = (Ret (PBool false), f)
  \/ exists f',
       set_user_medicines uid medicines f = (Ret (PBool true), f')
       /\ with_field f uid "medicines" medicines f'.
Proof.
  intros Hok. load_ok f Hok kv Hload Hnd Hall.
  rewrite (lookup_user_load f kv uid Hload).
  unfold set_user_medicines, bind, lift, ret. rewrite Hload. simpl.
  find_user uid kv Hall user Hget fields.
  - right. eexists. split; [reflexivity|]. now exists kv, fields.
  - left. auto.
Qed.

Lemma register_device_spec (uid device_id device_name : string)
    (now1 now2 : Z) (f : file) :
  users_ok f ->
  lookup_user f uid = None
  /\ register_device uid device_id device_name now1 now2 f
     = (Ret (result false "User not found"), f)
  \/ exists f' d,
       register_device uid device_id device_name now1 now2 f
       = (Ret (result true ("Device '" ++ device_name ++ "' registered")), f')
       /\ with_field f uid "devices" (PDict d) f'
       /\ Forall (fun p => exists i, snd p = PDict i) d.
Proof.
  intros Hok. load_ok f Hok kv Hload Hnd Hall.
  rewrite (lookup_user_load f kv uid Hload).
  unfold register_device, bind, lift, ret. rewrite Hload. simpl.
  find_user uid kv Hall user Hget fields.
  - right. rewrite Hd. simpl. eexists. eexists.
    split; [reflexivity|]. split; [now exists kv, fields|].
    apply (dict_set_Forall (fun x => exists i, x = PDict i)); eauto.
  - left. auto.
Qed.

Lemma reset_password_spec (uid new_password : string) (f : file) :
  users_ok f ->
  lookup_user f uid = None
  /\ reset_password uid new_password f
     = (Ret (result false "User not found"), f)
  \/ lookup_user f uid <> None /\ meets_policy new_password = false
     /\ (exists msg, In msg policy_messages
           /\ reset_password uid new_password f
              = (Ret (result false msg), f))
  \/ lookup_user f uid <> None /\ meets_policy new_password = true
     /\ exists f',
       reset_password uid new_password f
       = (Ret (result true "Password reset successfully"), f')
       /\ with_field f uid "password_hash"
            (PStr (_hash_password new_password)) f'.
Proof.
  intros Hok. load_ok f Hok kv Hload Hnd Hall.
  rewrite (lookup_user_load f kv uid Hload).
  unfold reset_password, bind, lift, ret, meets_policy, re_search.
  rewrite Hload. simpl py_in. cbv iota beta.
  find_user uid kv Hall user Hget fields.
  2:{ left. auto. }
  right. rewrite Z.leb_antisym.
  destruct (py_len new_password <? 7)%Z; simpl.
  { left. split; [discriminate|]. split; [reflexivity|].
    eexists. split; [|reflexivity]. simpl. tauto. }
  destruct (existsb_str is_upper new_password); simpl.
  2:{ left. split; [discriminate|]. split; [reflexivity|].
      eexists. split; [|reflexivity]. simpl. tauto. }
  destruct (existsb_str is_digit new_password); simpl.
  2:{ left. split; [discriminate|]. split; [reflexivity|].
      eexists. split; [|reflexivity]. simpl. tauto. }
  destruct (existsb_str is_special new_password); simpl.
  2:{ left. split; [discriminate|]. split; [reflexivity|].
      eexists. split; [|reflexivity]. simpl. tauto. }
  right. split; [discriminate|]. split; [reflexivity|].
  rewrite Hget. simpl.
  eexists. split; [reflexivity|]. now exists kv, fields.
Qed.

Lemma py_eq_str_true (x : pyval) (s : string) :
  py_eq_str x s = true <-> x = PStr s.
Proof.
  destruct x; simpl; try (split; [discriminate | intros [=]]).
  rewrite String.eqb_eq. split; [now intros -> | now intros [= ->]].
Qed.

Lemma user_signup_scan_ok (email : string) (kv : list (string * pyval)) :
  Forall (fun p => user_ok (snd p)) kv ->
  user_signup_scan email kv = Ret true
  /\ (exists uid user, In (uid, user) kv
                       /\ py_getitem user "email" = Ret (PStr email))
  \/ user_signup_scan email kv = Ret false
     /\ (forall uid user, In (uid, user) kv ->
                          py_getitem user "email" <> Ret (PStr email)).
Proof.
  induction 1 as [|[k user] rest Hu Hrest IH]; simpl.
  - right. split; [reflexivity | tauto].
  - simpl in Hu.
    destruct (user_ok_fields _ Hu)
      as (fields & e & h & l & d & -> & He & _).
    simpl. rewrite He. simpl.
    destruct (String.eqb e email) eqn:E.
    + apply String.eqb_eq in E. subst e. left. split; [reflexivity|].
      exists k, (PDict fields). split; [now left | simpl; now rewrite He].
    + destruct IH as [[-> (uid & u & Hin & Hm)] | [-> Hnone]].
      * left. split; [reflexivity|]. exists uid, u. auto.
      * right. split; [reflexivity|]. intros uid u [[= <- <-] | Hin].
        -- simpl. rewrite He. intros [= ->].
           now rewrite String.eqb_refl in E.
        -- now apply Hnone with uid.
Qed.

Lemma registered_load (email : string) (f : file) (kv : list (string * pyval)) :
  _load_users f = (Ret (PDict kv), f) -> NoDup (dict_keys kv) ->
  registered email f
  <-> exists uid user, In (uid, user) kv
                       /\ py_getitem user "email" = Ret (PStr email).
Proof.
  intros Hload Hnd. unfold registered. split.
  - intros (uid & user & Hget & Hm). exists uid, user. split; [|assumption].
    rewrite (lookup_user_load f kv uid Hload) in Hget. now apply dict_get_In.
  - intros (uid & user & Hin & Hm). exists uid, user. split; [|assumption].
    rewrite (lookup_user_load f kv uid Hload). now apply In_dict_get.
Qed.

Lemma user_signup_spec
    (email password : string) (pa : bool) (name phone q a : option string)
    (uuid4 : string) (now : Z) (f : file) :
  users_ok f ->
  valid_email email = false
  /\ user_signup email password pa name phone q a uuid4 now f
     = (Ret (result false "Invalid email format"), f)
  \/ valid_email email = true /\ registered email f
     /\ user_signup email password pa name phone q a uuid4 now f
        = (Ret (result false "Email already registered"), f)
  \/ valid_email email = true /\ ~ registered email f
     /\ meets_policy password = false
     /\ (exists msg, In msg policy_messages
           /\ user_signup email password pa name phone q a uuid4 now f
              = (Ret (result false msg), f))
  \/ valid_email email = true /\ ~ registered email f
     /\ meets_policy password = true
     /\ exists kv,
          _load_users f = (Ret (PDict kv), f)
          /\ user_signup email password pa name phone q a uuid4 now f
             = (Ret (result_for "Account created" uuid4),
                Json (PDict (dict_set uuid4
                   (new_user email password pa name phone q a now) kv))).
Proof.
  intros Hok. load_ok f Hok kv Hload Hnd Hall.
  rewrite (registered_load email f kv Hload Hnd).
  unfold user_signup, bind, lift, ret, valid_email, meets_policy, re_search.
  rewrite Hload.
  destruct (str_contains "@" email); simpl; [|left; auto].
  destruct (str_contains "." email); simpl; [|left; auto].
  right.
  destruct (user_signup_scan_ok email kv Hall) as [[-> Hreg] | [-> Hnone]];
    simpl; [left; auto|].
  right.
  assert (Hnot : ~ (exists uid user, In (uid, user) kv
                      /\ py_getitem user "email" = Ret (PStr email))).
  { intros (uid & user & Hin & Hm). exact (Hnone uid user Hin Hm). }
  rewrite Z.leb_antisym.
  destruct (py_len password <? 7)%Z; simpl.
  { left. repeat split; auto. eexists. split; [|reflexivity]. simpl. tauto. }
  destruct (existsb_str is_upper password); simpl.
  2:{ left. repeat split; auto. eexists. split; [|reflexivity]. simpl. tauto. }
  destruct (existsb_str is_digit password); simpl.
  2:{ left. repeat split; auto. eexists. split; [|reflexivity]. simpl. tauto. }
  destruct (existsb_str is_special password); simpl.
  2:{ left. repeat split; auto. eexists. split; [|reflexivity]. simpl. tauto. }
  right. repeat split; auto. exists kv. auto.
Qed.

Lemma user_login_scan_ok (email password : string)
    (kv : list (string * pyval)) :
  Forall (fun p => user_ok (snd p)) kv ->
  exists r, user_login_scan email password kv = Ret r /\ structured r = true.
Proof.
  induction 1 as [|[k user] rest Hu Hrest IH]; simpl.
  - eexists. split; reflexivity.
  - simpl in Hu.
    destruct (user_ok_fields _ Hu)
      as (fields & e & h & l & d & -> & He & _ & Hh & _).
    simpl. rewrite He. simpl.
    destruct (String.eqb e email); [|exact IH].
    rewrite Hh. simpl.
    destruct (String.eqb h (_hash_password password));
      eexists; split; reflexivity.
Qed.

Lemma verify_security_answer_scan_ok (email provided : string)
    (kv : list (string * pyval)) :
  Forall (fun p => user_ok (snd p)) kv ->
  exists r, verify_security_answer_scan email provided kv = Ret r
            /\ structured r = true.
Proof.
  induction 1 as [|[k user] rest Hu Hrest IH]; simpl.
  - eexists. split; reflexivity.
  - simpl in Hu.
    destruct (user_ok_fields _ Hu)
      as (fields & e & h & l & d & -> & He & _).
    simpl. rewrite He. simpl.
    destruct (String.eqb e email); [|exact IH].
    destruct (py_eq_str _ _); eexists; split; reflexivity.
Qed.

Lemma add_caretaker_scan_ok (email : string) (kv : list (string * pyval)) :
  Forall (fun p => user_ok (snd p)) kv ->
  exists found, add_caretaker_scan email kv = Ret found.
Proof.
  induction 1 as [|[k user] rest Hu Hrest IH]; simpl.
  - eexists. reflexivity.
  - simpl in Hu.
    destruct (user_ok_fields _ Hu)
      as (fields & e & h & l & d & -> & He & _).
    simpl. rewrite He. simpl.
    destruct (String.eqb e email); [eexists; reflexivity | exact IH].
Qed.

Lemma get_accessible_accounts_scan_ok (uid : string)
    (kv : list (string * pyval)) :
  Forall (fun p => user_ok (snd p)) kv ->
  get_accessible_accounts_scan uid kv
  = Ret (map fst (filter (fun p => has_caretaker uid (snd p)) kv)).
Proof.
  induction 1 as [|[k user] rest Hu Hrest IH]; simpl.
  - reflexivity.
  - simpl in Hu.
    destruct (user_ok_fields _ Hu)
      as (fields & e & h & l & d & -> & _ & _ & _ & _ & Hc & _).
    unfold has_caretaker. simpl. rewrite Hc. simpl. rewrite IH. simpl.
    now destruct (existsb _ l).
Qed.

Lemma get_user_devices_list_ok (d : list (string * pyval)) :
  Forall (fun p => exists i, snd p = PDict i) d ->
  exists ds, get_user_devices_list d = Ret ds.
Proof.
  induction 1 as [|[did info] rest [i Hi] Hrest [ds IH]]; simpl.
  - eexists. reflexivity.
  - simpl in Hi. subst info. simpl. rewrite IH. simpl. eexists. reflexivity.
Qed.

Lemma user_login_spec (email password : string) (f : file) :
  users_ok f ->
  exists r, user_login email password f = (Ret r, f) /\ structured r = true.
Proof.
  intros Hok. load_ok f Hok kv Hload Hnd Hall.
  unfold user_login, bind, lift. rewrite Hload. simpl.
  destruct (user_login_scan_ok email password kv Hall) as (r & -> & Hr).
  now exists r.
Qed.

Lemma verify_security_answer_spec (email provided : string) (f : file) :
  users_ok f ->
  exists r, verify_security_answer email provided f = (Ret r, f)
            /\ structured r = true.
Proof.
  intros Hok. load_ok f Hok kv Hload Hnd Hall.
  unfold verify_security_answer, bind, lift. rewrite Hload. simpl.
  destruct (verify_security_answer_scan_ok email provided kv Hall)
    as (r & -> & Hr).
  now exists r.
Qed.

Lemma get_accessible_accounts_spec (uid : string) (f : file)
    (kv : list (string * pyval)) :
  users_ok f -> _load_users f = (Ret (PDict kv), f) ->
  get_accessible_accounts uid f
  = (Ret (uid :: map fst (filter (fun p => has_caretaker uid (snd p)) kv)), f).
Proof.
  intros Hok Hload. load_ok f Hok kv' Hload' Hnd Hall.
  rewrite Hload in Hload'. injection Hload' as <-.
  unfold get_accessible_accounts, bind, lift, ret. rewrite Hload. simpl.
  now rewrite (get_accessible_accounts_scan_ok uid kv Hall).
Qed.

Lemma get_user_devices_spec (uid : string) (f : file) :
  users_ok f ->
  exists ds, get_user_devices uid f = (Ret (PList ds), f)
             /\ (lookup_user f uid = None -> ds = []).
Proof.
  intros Hok. load_ok f Hok kv Hload Hnd Hall.
  rewrite (lookup_user_load f kv uid Hload).
  unfold get_user_devices, bind, lift, ret. rewrite Hload. simpl.
  find_user uid kv Hall user Hget fields.
  - rewrite Hd. simpl.
    destruct (get_user_devices_list_ok d Hdev) as (ds & ->).
    exists ds. split; [reflexivity | discriminate].
  - exists []. auto.
Qed.

Lemma get_user_profile_spec (uid : string) (f : file) :
  users_ok f ->
  exists fields,
    get_user_profile uid f = (Ret (PDict fields), f)
    /\ (lookup_user f uid = None -> fields = []).
Proof.
  intros Hok. load_ok f Hok kv Hload Hnd Hall.
  rewrite (lookup_user_load f kv uid Hload).
  unfold get_user_profile, bind, lift, ret, py_get. rewrite Hload. simpl.
  destruct (dict_get uid kv) as [user|] eqn:Hget; simpl;
    [|exists []; auto].
  pose proof (dict_get_Forall user_ok _ _ _ Hall Hget) as Hu.
  destruct (user_ok_fields _ Hu) as (fields & e & h & l & d & -> & He & _).
  destruct fields as [|p fields]; [discriminate|]. simpl.
  eexists. split; [reflexivity | discriminate].
Qed.

Lemma get_user_medicines_spec (uid : string) (f : file) :
  users_ok f ->
  exists m,
    get_user_medicines uid f = (Ret m, f)
    /\ (lookup_user f uid = None -> m = PList []).
Proof.
  intros Hok. load_ok f Hok kv Hload Hnd Hall.
  rewrite (lookup_user_load f kv uid Hload).
  unfold get_user_medicines, bind, lift, ret, py_get. rewrite Hload. simpl.
  destruct (dict_get uid kv) as [user|] eqn:Hget; simpl;
    [|exists (PList []); auto].
  pose proof (dict_get_Forall user_ok _ _ _ Hall Hget) as Hu.
  destruct (user_ok_fields _ Hu) as (fields & e & h & l & d & -> & He & _).
  destruct fields as [|p fields]; [discriminate|]. simpl.
  eexists. split; [reflexivity | discriminate].
Qed.

Lemma add_caretaker_spec (uid caretaker_email : string) (f : file) :
  users_ok f ->
  (exists msg,
     In msg ["User not found"; "Caretaker email not found";
             "Caretaker already added"]
     /\ add_caretaker uid caretaker_email f = (Ret (result false msg), f))
  \/ exists f' l,
       add_caretaker uid caretaker_email f
       = (Ret (result true ("Caretaker " ++ caretaker_email ++ " added")), f')
       /\ with_field f uid "caretakers" (PList l) f'
       /\ Forall (fun x => exists s, x = PStr s) l.
Proof.
  intros Hok. load_ok f Hok kv Hload Hnd Hall.
  unfold add_caretaker, bind, lift, ret. rewrite Hload. simpl.
  find_user uid kv Hall user Hget fields.
  2:{ left. eexists. split; [|reflexivity]. simpl. tauto. }
  destruct (add_caretaker_scan_ok caretaker_email kv Hall) as (found & ->).
  simpl. destruct found as [c|].
  2:{ left. eexists. split; [|reflexivity]. simpl. tauto. }
  destruct (String.eqb c "").
  { left. eexists. split; [|reflexivity]. simpl. tauto. }
  try rewrite Hget. simpl. rewrite Hc. simpl.
  destruct (existsb (fun y => py_eq_str y c) l); simpl.
  { left. eexists. split; [|reflexivity]. simpl. tauto. }
  right. eexists. eexists. split; [reflexivity|].
  split; [now exists kv, fields|].
  apply Forall_app. split; [assumption|]. repeat constructor. eauto.
Qed.

(** ** Every reachable store is well shaped, and no call raises on it *)

Lemma with_field_found (f f' : file) (uid k : string) (v : pyval) :
  with_field f uid k v f' -> exists user, lookup_user f uid = Some user.
Proof.
  intros (kv & fields & Hload & Hget & _).
  rewrite (lookup_user_load f kv uid Hload). eauto.
Qed.

Lemma run_ok (c : call) (f : file) :
  users_ok f ->
  exists v f',
    run c f = (Ret v, f') /\ users_ok f' /\ answer_shape c f v.
Proof.
  intros Hok. destruct c; simpl run.
  - destruct (user_signup_spec email password primary_account name phone
                security_question security_answer uuid4 now f Hok)
      as [(_ & ->) | [(_ & _ & ->) | [(_ & _ & _ & msg & _ & ->)
          | (Hv & _ & _ & kv & Hload & ->)]]];
      do 2 eexists; (split; [reflexivity|]); (split; [|reflexivity]);
      try assumption.
    destruct (users_ok_load f Hok) as (kv' & Hload' & Hnd & Hall).
    rewrite Hload in Hload'. injection Hload' as <-.
    apply users_ok_store; try assumption. now apply new_user_ok.
  - destruct (user_login_spec email password f Hok) as (r & -> & Hr).
    now exists r, f.
  - destruct (register_device_spec user_id0 device_id0 device_name now1 now2
                f Hok) as [(_ & ->) | (f' & d & -> & Hw & Hd)].
    + do 2 eexists. split; [reflexivity|]. split; [assumption|reflexivity].
    + do 2 eexists. split; [reflexivity|]. split; [|reflexivity].
      apply (with_field_ok f f' _ _ _ Hok Hw). unfold field_ok. simpl. eauto.
  - destruct (get_user_devices_spec user_id0 f Hok) as (ds & -> & Hds).
    do 2 eexists. split; [reflexivity|]. split; [assumption|].
    exists ds. auto.
  - destruct (add_caretaker_spec user_id0 caretaker_email f Hok)
      as [(msg & _ & ->) | (f' & l & -> & Hw & Hl)].
    + do 2 eexists. split; [reflexivity|]. split; [assumption|reflexivity].
    + do 2 eexists. split; [reflexivity|]. split; [|reflexivity].
      apply (with_field_ok f f' _ _ _ Hok Hw). unfold field_ok. simpl. eauto.
  - destruct (users_ok_load f Hok) as (kv & Hload & _).
    unfold bind, ret. rewrite (get_accessible_accounts_spec user_id0 f kv Hok Hload).
    do 2 eexists. split; [reflexivity|]. split; [assumption|].
    simpl. eexists. reflexivity.
  - destruct (set_user_theme_spec user_id0 theme f Hok)
      as [(_ & ->) | (f' & -> & Hw)].
    + do 2 eexists. split; [reflexivity|]. split; [assumption|reflexivity].
    + do 2 eexists. split; [reflexivity|]. split; [|reflexivity].
      apply (with_field_ok f f' _ _ _ Hok Hw). unfold field_ok. simpl.
      destruct (String.eqb theme "light") eqn:E1; simpl.
      { apply String.eqb_eq in E1. subst. auto. }
      destruct (String.eqb theme "dark") eqn:E2; simpl; auto.
      apply String.eqb_eq in E2. subst. auto.
  - destruct (get_user_profile_spec user_id0 f Hok) as (fields & -> & Hf).
    do 2 eexists. split; [reflexivity|]. split; [assumption|].
    exists fields. auto.
  - destruct (get_user_medicines_spec user_id0 f Hok) as (m & -> & Hm).
    do 2 eexists. split; [reflexivity|]. split; [assumption|]. exact Hm.
  - destruct (set_user_medicines_spec user_id0 medicines f Hok)
      as [(Hnone & ->) | (f' & -> & Hw)].
    + do 2 eexists. split; [reflexivity|]. split; [assumption|].
      simpl. now rewrite Hnone.
    + do 2 eexists. split; [reflexivity|]. split.
      * apply (with_field_ok f f' _ _ _ Hok Hw). exact I.
      * simpl. destruct (with_field_found _ _ _ _ _ Hw) as (u & ->).
        reflexivity.
  - destruct (verify_security_answer_spec email provided_answer f Hok)
      as (r & -> & Hr).
    now exists r, f.
  - destruct (reset_password_spec user_id0 new_password f Hok)
      as [(_ & ->) | [(_ & _ & msg & _ & ->) | (_ & _ & f' & -> & Hw)]].
    + do 2 eexists. split; [reflexivity|]. split; [assumption|reflexivity].
    + do 2 eexists. split; [reflexivity|]. split; [assumption|reflexivity].
    + do 2 eexists. split; [reflexivity|]. split; [|reflexivity].
      apply (with_field_ok f f' _ _ _ Hok Hw). unfold field_ok. simpl. eauto.
Qed.

Lemma reachable_ok (f : file) : reachable f -> users_ok f.
Proof.
  induction 1 as [| |c f Hreach IH]; simpl; auto.
  destruct (run_ok c f IH) as (v & f' & -> & Hok & _). exact Hok.
Qed.

(** ** The account store: the stated properties *)

Lemma registered_valid (email : string) (f : file) :
  users_ok f -> registered email f -> valid_email email = true.
Proof.
  intros Hok (uid & user & Hget & Hm).
  pose proof (users_ok_lookup f uid user Hok Hget) as Hu.
  destruct (user_ok_fields _ Hu) as (fields & e & h & l & d & -> & He & Hv & _).
  simpl in Hm. rewrite He in Hm. now injection Hm as ->.
Qed.

Lemma registered_registeredb (email : string) (f : file) :
  registered email f -> registeredb email f = true.
Proof.
  intros (uid & user & Hget & Hm).
  destruct f as [| |[| | | | |kv]]; simpl in Hget; try discriminate.
  simpl. apply existsb_exists. exists (uid, user).
  split; [now apply dict_get_In|]. simpl. rewrite Hm. apply String.eqb_refl.
Qed.

(** C5. On a store of the program that already holds a record with
    the email, [user_signup] with that email answers with the
    duplicate-email message and leaves [users.json] as it was: no
    record changed, none added, nothing written. *)
Theorem user_signup_duplicate_email
    (email password : string) (pa : bool) (name phone q a : option string)
    (uuid4 : string) (now : Z) (f : file) :
  reachable f ->
  registered email f ->
  user_signup email password pa name phone q a uuid4 now f
  = (Ret (result false "Email already registered"), f).
Proof.
  intros Hreach Hreg. pose proof (reachable_ok f Hreach) as Hok.
  pose proof (registered_valid email f Hok Hreg) as Hv.
  destruct (user_signup_spec email password pa name phone q a uuid4 now f Hok)
    as [(Hv' & _) | [(_ & _ & Hrun) | [(_ & Hnot & _) | (_ & Hnot & _)]]].
  - congruence.
  - exact Hrun.
  - contradiction.
  - contradiction.
Qed.

Lemma reset_password_succeeded (user_id new_password : string)
    (f f' : file) (r : pyval) :
  reset_password user_id new_password f = (Ret r, f') ->
  succeeded r = true ->
  meets_policy new_password = true.
Proof.
  unfold reset_password, bind, lift, ret, re_search.
  destruct (_load_users f) as [[users|e] f0]; [|intros [=]].
  destruct (py_in user_id users) as [[|]|e]; simpl;
    try (intros [= <- <-]; discriminate); try (intros [=]; fail).
  destruct (py_len new_password <? 7)%Z eqn:Hlen; simpl;
    [intros [= <- <-]; discriminate|].
  destruct (existsb_str is_upper new_password) eqn:Hup; simpl;
    [|intros [= <- <-]; discriminate].
  destruct (existsb_str is_digit new_password) eqn:Hdig; simpl;
    [|intros [= <- <-]; discriminate].
  destruct (existsb_str is_special new_password) eqn:Hspec; simpl;
    [|intros [= <- <-]; discriminate].
  intros _ _. unfold meets_policy. rewrite Hup, Hdig, Hspec.
  apply Z.ltb_ge in Hlen. apply Z.leb_le in Hlen. now rewrite Hlen.
Qed.

(** C6. Neither [user_signup] nor [reset_password] ever succeeds with
    a password that is shorter than seven characters or lacks an
    uppercase letter, a digit or a character that is neither letter
    nor digit. On a store of the program, once the email is well formed
    and new ([user_signup]) or the user exists ([reset_password]), such
    a password is refused with one of the four policy messages and
    nothing is written, and every other password is accepted. The
    password Abcde1! meets the policy. *)
Theorem password_policy
    (email password : string) (pa : bool) (name phone q a : option string)
    (uuid4 : string) (now : Z) (user_id : string) (f : file) :
  (forall r f',
     user_signup email password pa name phone q a uuid4 now f = (Ret r, f') ->
     succeeded r = true -> meets_policy password = true)
  /\ (forall r f',
        reset_password user_id password f = (Ret r, f') ->
        succeeded r = true -> meets_policy password = true)
  /\ (reachable f -> valid_email email = true -> ~ registered email f ->
      if meets_policy password
      then exists f',
             user_signup email password pa name phone q a uuid4 now f
             = (Ret (result_for "Account created" uuid4), f')
      else exists msg,
             In msg policy_messages
             /\ user_signup email password pa name phone q a uuid4 now f
                = (Ret (result false msg), f))
  /\ (reachable f -> lookup_user f user_id <> None ->
      if meets_policy password
      then exists f',
             reset_password user_id password f
             = (Ret (result true "Password reset successfully"), f')
      else exists msg,
             In msg policy_messages
             /\ reset_password user_id password f
                = (Ret (result false msg), f))
  /\ meets_policy "Abcde1!" = true.
Proof.
  split; [|split; [|split; [|split; [|reflexivity]]]].
  - intros r f' Hrun Hr.
    destruct (user_signup_succeeded _ _ _ _ _ _ _ _ _ _ _ _ Hrun Hr)
      as (kv & _ & _ & _ & Hp & _). exact Hp.
  - intros r f'. apply reset_password_succeeded.
  - intros Hreach Hv Hnew. pose proof (reachable_ok f Hreach) as Hok.
    destruct (user_signup_spec email password pa name phone q a uuid4 now f
                Hok)
      as [(Hv' & _) | [(_ & Hreg & _)
          | [(_ & _ & -> & Hmsg) | (_ & _ & -> & kv & _ & Hrun)]]];
      first [congruence | contradiction | exact Hmsg | eauto].
  - intros Hreach Huser. pose proof (reachable_ok f Hreach) as Hok.
    destruct (reset_password_spec user_id password f Hok)
      as [(Hnone & _) | [(_ & -> & Hmsg) | (_ & -> & f' & Hrun & _)]];
      first [congruence | exact Hmsg | eauto].
Qed.




Lemma NoDup_keys_filter (p : string * pyval -> bool)
    (kv : list (string * pyval)) :
  NoDup (dict_keys kv) -> NoDup (dict_keys (filter p kv)).
Proof.
  unfold dict_keys. induction kv as [|[k v] rest IH]; simpl; [auto|].
  intros Hnd. inversion Hnd as [|? ? Hnotin Hnd']; subst.
  destruct (p (k, v)); simpl; [|auto].
  constructor; [|auto]. intros Hin. apply Hnotin.
  apply in_map_iff in Hin as ([k' v'] & Hk & Hin). simpl in Hk. subst k'.
  apply filter_In in Hin as [Hin _].
  change k with (fst (k, v')). now apply in_map.
Qed.

Lemma has_caretaker_true (uid : string) (user : pyval) :
  has_caretaker uid user = true
  <-> exists l, py_getitem user "caretakers" = Ret (PList l) /\ In (PStr uid) l.
Proof.
  unfold has_caretaker. split.
  - destruct (py_getitem user "caretakers") as [[| | | |l|]|]; try discriminate.
    intros H. exists l. split; [reflexivity|].
    apply existsb_exists in H as (y & Hin & Hy).
    apply py_eq_str_true in Hy. now subst y.
  - intros (l & -> & Hin). apply existsb_exists. exists (PStr uid).
    split; [assumption | now apply py_eq_str_true].
Qed.

(** C2, as the program has it. On a store of the program,
    [get_accessible_accounts] returns the identifier it was given
    followed by the accounts whose caretaker list holds it: each such
    account once, and no other. The identifier itself comes twice
    exactly when the account is on its own caretaker list. *)
Theorem get_accessible_accounts_exact (user_id : string) (f : file) :
  reachable f ->
  exists others,
    get_accessible_accounts user_id f = (Ret (user_id :: others), f)
    /\ NoDup others
    /\ (forall a, In a others <-> lists_caretaker f a user_id)
    /\ (NoDup (user_id :: others) <-> ~ lists_caretaker f user_id user_id).
Proof.
  intros Hreach. pose proof (reachable_ok f Hreach) as Hok.
  destruct (users_ok_load f Hok) as (kv & Hload & Hnd & Hall).
  exists (map fst (filter (fun p => has_caretaker user_id (snd p)) kv)).
  assert (Hmem : forall a,
    In a (map fst (filter (fun p => has_caretaker user_id (snd p)) kv))
    <-> lists_caretaker f a user_id).
  { intros a. unfold lists_caretaker.
    rewrite (lookup_user_load f kv a Hload). rewrite in_map_iff. split.
    - intros ([k user] & Hk & Hin). simpl in Hk. subst k.
      apply filter_In in Hin as [Hin Hc]. simpl in Hc.
      apply has_caretaker_true in Hc as (l & Hl & Hm).
      exists user, l. split; [now apply In_dict_get | auto].
    - intros (user & l & Hget & Hl & Hm). exists (a, user).
      split; [reflexivity|]. apply filter_In.
      split; [now apply dict_get_In|]. simpl.
      apply has_caretaker_true. eauto. }
  assert (Hnd' : NoDup
    (map fst (filter (fun p => has_caretaker user_id (snd p)) kv))).
  { now apply (NoDup_keys_filter _ kv). }
  split; [now apply get_accessible_accounts_spec|].
  split; [assumption|]. split; [assumption|].
  rewrite <- Hmem. split.
  - intros H. now inversion H.
  - intros H. now constructor.
Qed.

Lemma with_field_theme (f f' : file) (uid k : string) (v : pyval)
    (uid' : string) (user' : pyval) :
  with_field f uid k v f' ->
  k <> "theme" \/ uid' <> uid ->
  lookup_user f' uid' = Some user' ->
  exists user, lookup_user f uid' = Some user
               /\ py_getitem user' "theme" = py_getitem user "theme".
Proof.
  intros Hw Hne Hget.
  destruct (with_field_lookup f f' uid k v uid' user' Hw Hget)
    as [(-> & fields & Hf & ->) | (_ & Hsame)].
  - exists (PDict fields). split; [assumption|]. simpl.
    destruct Hne as [Hk | Hu]; [|congruence].
    rewrite dict_get_set_other; [reflexivity|]. congruence.
  - now exists user'.
Qed.

Lemma run_theme_kept (c : call) (f : file) (uid : string) (user' : pyval) :
  users_ok f ->
  writes_theme c <> Some uid ->
  lookup_user (snd (run c f)) uid = Some user' ->
  exists user, lookup_user f uid = Some user
               /\ py_getitem user' "theme" = py_getitem user "theme".
Proof.
  intros Hok Hw.
  assert (Hsame : lookup_user f uid = Some user' ->
    exists user, lookup_user f uid = Some user
                 /\ py_getitem user' "theme" = py_getitem user "theme")
    by eauto.
  assert (Hfield : forall f' uid0 k v,
    with_field f uid0 k v f' -> k <> "theme" \/ uid <> uid0 ->
    lookup_user f' uid = Some user' ->
    exists user, lookup_user f uid = Some user
                 /\ py_getitem user' "theme" = py_getitem user "theme").
  { intros f' uid0 k v Hwf Hne. now apply with_field_theme with uid0 k v. }
  destruct c; simpl run; simpl in Hw.
  - destruct (user_signup_spec email password primary_account name phone
                security_question security_answer uuid4 now f Hok)
      as [(_ & ->) | [(_ & _ & ->) | [(_ & _ & _ & msg & _ & ->)
          | (_ & _ & _ & kv & Hload & ->)]]]; simpl snd; auto.
    simpl lookup_user. rewrite dict_get_set_other by congruence.
    now rewrite <- (lookup_user_load f kv uid Hload).
  - destruct (user_login_spec email password f Hok) as (r & -> & _). auto.
  - destruct (register_device_spec user_id0 device_id0 device_name now1 now2
                f Hok) as [(_ & ->) | (f' & d & -> & Hwf & _)]; simpl snd; auto.
    apply (Hfield _ _ _ _ Hwf). left. discriminate.
  - destruct (get_user_devices_spec user_id0 f Hok) as (ds & -> & _). auto.
  - destruct (add_caretaker_spec user_id0 caretaker_email f Hok)
      as [(msg & _ & ->) | (f' & l & -> & Hwf & _)]; simpl snd; auto.
    apply (Hfield _ _ _ _ Hwf). left. discriminate.
  - destruct (users_ok_load f Hok) as (kv & Hload & _).
    unfold bind, ret.
    rewrite (get_accessible_accounts_spec user_id0 f kv Hok Hload). auto.
  - destruct (set_user_theme_spec user_id0 theme f Hok)
      as [(_ & ->) | (f' & -> & Hwf)]; simpl snd; auto.
    apply (Hfield _ _ _ _ Hwf). right. congruence.
  - destruct (get_user_profile_spec user_id0 f Hok) as (fields & -> & _). auto.
  - destruct (get_user_medicines_spec user_id0 f Hok) as (m & -> & _). auto.
  - destruct (set_user_medicines_spec user_id0 medicines f Hok)
      as [(_ & ->) | (f' & -> & Hwf)]; simpl snd; auto.
    apply (Hfield _ _ _ _ Hwf). left. discriminate.
  - destruct (verify_security_answer_spec email provided_answer f Hok)
      as (r & -> & _). auto.
  - destruct (reset_password_spec user_id0 new_password f Hok)
      as [(_ & ->) | [(_ & _ & msg & _ & ->) | (_ & _ & f' & -> & Hwf)]];
      simpl snd; auto.
    apply (Hfield _ _ _ _ Hwf). left. discriminate.
Qed.

(** C9. On every store of the program each record's theme is light or
    dark: [user_signup] stores light, [set_user_theme] stores the theme
    asked for when it is light or dark and light otherwise, answering
    with a success either way, and a call leaves the theme of every
    record alone unless it is the signup that stores the record or a
    [set_user_theme] for it. *)
Theorem theme_light_or_dark (f : file) :
  reachable f ->
  (forall uid user,
     lookup_user f uid = Some user ->
     py_getitem user "theme" = Ret (PStr "light")
     \/ py_getitem user "theme" = Ret (PStr "dark"))
  /\ (forall email password pa name phone q a uuid4 now r f',
        user_signup email password pa name phone q a uuid4 now f = (Ret r, f') ->
        succeeded r = true ->
        exists user, lookup_user f' uuid4 = Some user
                     /\ py_getitem user "theme" = Ret (PStr "light"))
  /\ (forall uid theme,
        lookup_user f uid <> None ->
        exists f' user,
          set_user_theme uid theme f = (Ret (result true "Theme updated"), f')
          /\ lookup_user f' uid = Some user
          /\ py_getitem user "theme"
             = Ret (PStr (if String.eqb theme "light" || String.eqb theme "dark"
                          then theme else "light")))
  /\ (forall c uid user',
        writes_theme c <> Some uid ->
        lookup_user (snd (run c f)) uid = Some user' ->
        exists user, lookup_user f uid = Some user
                     /\ py_getitem user' "theme" = py_getitem user "theme").
Proof.
  intros Hreach. pose proof (reachable_ok f Hreach) as Hok.
  split; [|split; [|split]].
  - intros uid user Hget.
    pose proof (users_ok_lookup f uid user Hok Hget) as Hu.
    destruct (user_ok_fields _ Hu)
      as (fields & e & h & l & d & -> & _ & _ & _ & [Ht | Ht] & _);
      simpl; rewrite Ht; auto.
  - intros email password pa name phone q a uuid4 now r f' Hrun Hr.
    destruct (user_signup_succeeded _ _ _ _ _ _ _ _ _ _ _ _ Hrun Hr)
      as (kv & _ & _ & _ & _ & _ & ->).
    eexists. split; [simpl; apply dict_get_set_same | reflexivity].
  - intros uid theme Hfound.
    destruct (set_user_theme_spec uid theme f Hok)
      as [(Hnone & _) | (f' & Hrun & kv & fields & Hload & Hget & ->)];
      [contradiction|].
    eexists. eexists. split; [exact Hrun|].
    split; [simpl; apply dict_get_set_same|].
    simpl. now rewrite dict_get_set_same.
  - intros c uid user'. now apply run_theme_kept.
Qed.


(** ** The event store: the stated properties *)

Lemma Event_kwargs_asdict (e : Event) : Event_kwargs (asdict e) = Ret e.
Proof. destruct e. reflexivity. Qed.

Lemma asdict_inj (e e' : Event) : asdict e = asdict e' -> e = e'.
Proof.
  intros H. pose proof (Event_kwargs_asdict e) as He.
  rewrite H, Event_kwargs_asdict in He. now injection He.
Qed.

Lemma load_items_asdict (cutoff : Z) (events : list Event) :
  load_items cutoff (map asdict events) = filter (recent cutoff) events.
Proof.
  induction events as [|e rest IH]; simpl; [reflexivity|].
  unfold load_item, recent. rewrite Event_kwargs_asdict.
  change (py_getitem (asdict e) "ts") with (@Ret pyval (ts e)). simpl.
  destruct (strptime_val (ts e)) as [t|x]; simpl; [|exact IH].
  destruct (cutoff <=? t)%Z; simpl; now rewrite IH.
Qed.

(** C7. Whatever list of events [_save_events_to_file] is given,
    [_load_events_from_file] then returns the events of that list
    whose timestamp is not older than seven days, in the order of the
    list. *)
Theorem save_then_load_events (events : list Event) (now : Z) (st : store) :
  _load_events_from_file now
    (EVENTS_FILE (snd (_save_events_to_file events st)))
  = filter (recent (now - seven_days)) events.
Proof.
  simpl. apply load_items_asdict.
Qed.

Lemma keep_recent_stamped (cutoff : Z) (h : list Event) :
  Forall stamped h -> keep_recent cutoff h = Ret (filter (recent cutoff) h).
Proof.
  induction 1 as [|e rest [t Ht] Hrest IH]; simpl; [reflexivity|].
  unfold recent. rewrite Ht, IH. simpl. reflexivity.
Qed.

Lemma keep_recent_ret (cutoff : Z) (h h' : list Event) :
  keep_recent cutoff h = Ret h' ->
  Forall stamped h /\ h' = filter (recent cutoff) h.
Proof.
  revert h'. induction h as [|e rest IH]; simpl; intros h'.
  - intros [= <-]. auto.
  - destruct (strptime_val (ts e)) as [t|x] eqn:Ht; simpl; [|discriminate].
    destruct (keep_recent cutoff rest) as [rest'|x] eqn:Hrest; simpl;
      [|discriminate].
    intros [= <-]. destruct (IH rest' eq_refl) as [Hall ->].
    split; [constructor; [now exists t | assumption]|].
    unfold recent. now rewrite Ht.
Qed.

(** What [_cleanup_old_events] does, in full. *)
Lemma _cleanup_old_events_spec (now : Z) (st : store) :
  _cleanup_old_events now st
  = match keep_recent (now - seven_days) (HISTORY st) with
    | Ret h' => (Ret tt, {| HISTORY := h';
                            EVENTS_FILE := Json (PList (map asdict h'));
                            spoken := spoken st |})
    | Raise x => (Raise x, st)
    end.
Proof.
  unfold _cleanup_old_events, bind, lift, get_HISTORY, set_HISTORY,
    _save_events_to_file.
  destruct (keep_recent (now - seven_days) (HISTORY st)); reflexivity.
Qed.

Lemma old_event_gone (cutoff : Z) (h : list Event) (e : Event) (t : Z) :
  strptime_val (ts e) = Ret t -> (t < cutoff)%Z ->
  ~ In e (filter (recent cutoff) h)
  /\ ~ In (asdict e) (map asdict (filter (recent cutoff) h)).
Proof.
  intros Ht Hold.
  assert (Hrecent : recent cutoff e = false).
  { unfold recent. rewrite Ht. now apply Z.leb_gt. }
  assert (Hnot : ~ In e (filter (recent cutoff) h)).
  { intros Hin. apply filter_In in Hin as [_ Hr]. congruence. }
  split; [assumption|].
  intros Hin. apply in_map_iff in Hin as (e' & Heq & Hin).
  apply asdict_inj in Heq. now subst e'.
Qed.

Lemma recent_event_kept (cutoff : Z) (h : list Event) (e : Event) (t : Z) :
  In e h -> strptime_val (ts e) = Ret t -> (cutoff <= t)%Z ->
  In e (filter (recent cutoff) h)
  /\ In (asdict e) (map asdict (filter (recent cutoff) h)).
Proof.
  intros Hin Ht Hnew.
  assert (Hin' : In e (filter (recent cutoff) h)).
  { apply filter_In. split; [assumption|].
    unfold recent. rewrite Ht. now apply Z.leb_le. }
  split; [assumption | now apply in_map].
Qed.

Lemma resolve_text_expected (button language : string)
    (custom_text : option string) :
  resolve_text button language custom_text
  = Ret (expected_text button language custom_text).
Proof.
  unfold resolve_text, expected_text.
  assert (Hrest :
    (known <- py_in button CONFIG ;;
     if negb known then Ret (PStr ("Unknown button " ++ button))
     else
       entry <- py_getitem CONFIG button ;;
       texts <- py_getitem entry "texts" ;;
       entry' <- py_getitem CONFIG button ;;
       texts' <- py_getitem entry' "texts" ;;
       en <- py_getitem texts' "en" ;;
       py_get_default texts language en)%res
    = Ret match phrase_table button with
          | Some texts =>
              match dict_get language texts with
              | Some phrase => phrase
              | None =>
                  match dict_get "en" texts with
                  | Some phrase => phrase
                  | None => PNone
                  end
              end
          | None => PStr ("Unknown button " ++ button)
          end).
  { unfold phrase_table, CONFIG. cbn [py_in py_getitem dict_keys map fst existsb dict_get rbind].
    destruct (String.eqb button "BTN1"); [reflexivity|].
    destruct (String.eqb button "BTN2"); [reflexivity|].
    destruct (String.eqb button "BTN3"); [reflexivity|].
    destruct (String.eqb button "BTN4"); [reflexivity|].
    destruct (String.eqb button "BTN5"); [reflexivity|].
    destruct (String.eqb button "BTN6"); [reflexivity|].
    reflexivity. }
  destruct custom_text as [[|c s]|]; [exact Hrest | reflexivity | exact Hrest].
Qed.

(** What [trigger] does, in full: it returns exactly when every
    timestamp of the history, the new event's first, reads as a time. *)
Lemma trigger_spec (button language source : string)
    (custom_text : option string) (device_id user_id : string)
    (now_evt now_cleanup : Z) (st : store) :
  let evt := trigger_event button language source custom_text device_id
               user_id now_evt in
  trigger button language source custom_text device_id user_id
    now_evt now_cleanup st
  = match keep_recent (now_cleanup - seven_days) (evt :: HISTORY st) with
    | Ret h' =>
        (Ret (asdict evt),
         {| HISTORY := h';
            EVENTS_FILE := Json (PList (map asdict h'));
            spoken := if truthy (text evt)
                      then spoken st ++ [(text evt, language)]
                      else spoken st |})
    | Raise x =>
        (Raise x, {| HISTORY := evt :: HISTORY st;
                     EVENTS_FILE := EVENTS_FILE st;
                     spoken := spoken st |})
    end.
Proof.
  cbv zeta. unfold trigger, trigger_event, bind at 1, lift.
  rewrite resolve_text_expected.
  unfold bind at 1. unfold get_HISTORY at 1.
  unfold bind at 1. unfold set_HISTORY at 1.
  unfold bind at 1. rewrite _cleanup_old_events_spec.
  cbn [HISTORY EVENTS_FILE spoken].
  destruct (keep_recent _ _); [|reflexivity].
  unfold bind, get_HISTORY, _save_events_to_file, speak_text, ret.
  cbn [HISTORY EVENTS_FILE spoken text].
  destruct (truthy _); reflexivity.
Qed.

Lemma pruned_intro (now : Z) (h : list Event) (sp : list (pyval * string)) :
  pruned now h
    {| HISTORY := filter (recent (now - seven_days)) h;
       EVENTS_FILE :=
         Json (PList (map asdict (filter (recent (now - seven_days)) h)));
       spoken := sp |}.
Proof.
  unfold pruned, persisted. cbn [HISTORY EVENTS_FILE].
  split; [reflexivity|]. split; [reflexivity|]. split.
  - intros e t Ht Hold. now apply old_event_gone with t.
  - intros e t Hin Ht Hnew. now apply recent_event_kept with t.
Qed.

Lemma trigger_event_stamped (button language source : string)
    (custom_text : option string) (device_id user_id : string)
    (now_evt t0 : Z) :
  strptime (strftime now_evt) = Some t0 ->
  stamped (trigger_event button language source custom_text device_id
             user_id now_evt).
Proof.
  intros H. exists t0. simpl. now rewrite H.
Qed.

(** ** The histories the program holds

    The history read at the start holds only events whose timestamp
    reads as a time, and [trigger] keeps it so when the library reads
    back the timestamp it has written. *)

Lemma load_item_stamped (cutoff : Z) (item : pyval) (e : Event) :
  load_item cutoff item = Ret (Some e) -> stamped e.
Proof.
  unfold load_item, stamped.
  destruct item as [| | | | |kv]; simpl; try discriminate.
  destruct (dict_get "ts" kv) as [t|] eqn:Hts; simpl; [|discriminate].
  destruct (strptime_val t) as [evt_ts|x] eqn:Ht; simpl; [|discriminate].
  destruct (cutoff <=? evt_ts)%Z; [|discriminate].
  destruct (forallb _ _); simpl; [|discriminate].
  destruct (dict_get "source" kv); simpl; [|discriminate].
  destruct (dict_get "button" kv); simpl; [|discriminate].
  destruct (dict_get "language" kv); simpl; [|discriminate].
  destruct (dict_get "text" kv); simpl; [|discriminate].
  intros [= <-]. simpl. eauto.
Qed.

Lemma startup_stamped (now : Z) (f : file) :
  Forall stamped (HISTORY (startup now f)).
Proof.
  unfold startup, _load_events_from_file. cbn [HISTORY].
  destruct f as [| |data]; try constructor.
  destruct (py_iter data) as [items|x]; [|constructor].
  induction items as [|item rest IH]; simpl; [constructor|].
  destruct (load_item (now - seven_days) item) as [[e|]|x] eqn:Hitem;
    try exact IH.
  constructor; [|exact IH]. now apply load_item_stamped with (now - seven_days)%Z item.
Qed.

Lemma trigger_stamped (button language source : string)
    (custom_text : option string) (device_id user_id : string)
    (now_evt now_cleanup t0 : Z) (st : store) :
  Forall stamped (HISTORY st) ->
  strptime (strftime now_evt) = Some t0 ->
  Forall stamped
    (HISTORY (snd (trigger button language source custom_text device_id
                     user_id now_evt now_cleanup st))).
Proof.
  intros Hall Ht0. rewrite trigger_spec. cbv zeta.
  rewrite keep_recent_stamped.
  - cbn [snd HISTORY]. apply Forall_forall. intros e Hin.
    apply filter_In in Hin as [Hin _]. rewrite Forall_forall in Hall.
    destruct Hin as [<- | Hin]; [|now apply Hall].
    now apply trigger_event_stamped with t0.
  - constructor; [|assumption]. now apply trigger_event_stamped with t0.
Qed.

(** C1. [_cleanup_old_events] returns exactly when every timestamp of
    the history reads as a time, and once it has returned no event
    older than the current time minus seven days is in [HISTORY] or in
    [events.json], while every event of the history within the seven
    days is in both. The same holds whenever [trigger] returns, which
    runs the cleanup on the history with the new event in front, and
    [trigger] returns when the timestamps read as times. *)
Theorem cleanup_drops_old_events (now : Z) (st : store) :
  (Forall stamped (HISTORY st)
   <-> exists st', _cleanup_old_events now st = (Ret tt, st'))
  /\ (forall st',
        _cleanup_old_events now st = (Ret tt, st') ->
        pruned now (HISTORY st) st')
  /\ (forall button language source custom_text device_id user_id now_evt
             v st',
        trigger button language source custom_text device_id user_id
          now_evt now st = (Ret v, st') ->
        pruned now
          (trigger_event button language source custom_text device_id
             user_id now_evt :: HISTORY st) st')
  /\ (forall button language source custom_text device_id user_id now_evt,
        Forall stamped (HISTORY st) ->
        strptime (strftime now_evt) <> None ->
        exists v st',
          trigger button language source custom_text device_id user_id
            now_evt now st = (Ret v, st')).
Proof.
  split; [|split; [|split]].
  - rewrite _cleanup_old_events_spec. split.
    + intros Hall. rewrite (keep_recent_stamped _ _ Hall). eauto.
    + intros (st' & Hrun).
      destruct (keep_recent (now - seven_days) (HISTORY st)) as [h'|x] eqn:Hk;
        [|discriminate].
      now destruct (keep_recent_ret _ _ _ Hk).
  - intros st'. rewrite _cleanup_old_events_spec.
    destruct (keep_recent (now - seven_days) (HISTORY st)) as [h'|x] eqn:Hk;
      [|discriminate].
    destruct (keep_recent_ret _ _ _ Hk) as [_ ->].
    intros [= <-]. apply pruned_intro.
  - intros button language source custom_text device_id user_id now_evt v st'.
    rewrite trigger_spec. cbv zeta.
    destruct (keep_recent _ _) as [h'|x] eqn:Hk; [|discriminate].
    destruct (keep_recent_ret _ _ _ Hk) as [_ ->].
    intros [= _ <-]. apply pruned_intro.
  - intros button language source custom_text device_id user_id now_evt
      Hall Ht0.
    destruct (strptime (strftime now_evt)) as [t0|] eqn:Hstamp; [|congruence].
    rewrite trigger_spec. cbv zeta. rewrite keep_recent_stamped; [eauto|].
    constructor; [|assumption]. now apply trigger_event_stamped with t0.
Qed.


(** ** How a call changes the store *)

Lemma run_effect (c : call) (f : file) :
  users_ok f ->
  snd (run c f) = f
  \/ (exists uid k v,
        writes c = Some (uid, k)
        /\ with_field f uid k v (snd (run c f)))
  \/ (exists email password pa name phone q a uuid4 now kv,
        c = UserSignup email password pa name phone q a uuid4 now
        /\ valid_email email = true
        /\ ~ registered email f
        /\ _load_users f = (Ret (PDict kv), f)
        /\ snd (run c f)
           = Json (PDict (dict_set uuid4
                            (new_user email password pa name phone q a now)
                            kv))).
Proof.
  intros Hok. destruct c; simpl run.
  - destruct (user_signup_spec email password primary_account name phone
                security_question security_answer uuid4 now f Hok)
      as [(_ & ->) | [(_ & _ & ->) | [(_ & _ & _ & msg & _ & ->)
          | (Hv & Hnew & _ & kv & Hload & ->)]]]; simpl snd; auto.
    right. right. exists email, password, primary_account, name, phone,
      security_question, security_answer, uuid4, now, kv. auto.
  - destruct (user_login_spec email password f Hok) as (r & -> & _). auto.
  - destruct (register_device_spec user_id0 device_id0 device_name now1 now2
                f Hok) as [(_ & ->) | (f' & d & -> & Hwf & _)]; simpl snd; auto.
    right. left. do 3 eexists. split; [reflexivity | exact Hwf].
  - destruct (get_user_devices_spec user_id0 f Hok) as (ds & -> & _). auto.
  - destruct (add_caretaker_spec user_id0 caretaker_email f Hok)
      as [(msg & _ & ->) | (f' & l & -> & Hwf & _)]; simpl snd; auto.
    right. left. do 3 eexists. split; [reflexivity | exact Hwf].
  - destruct (users_ok_load f Hok) as (kv & Hload & _).
    unfold bind, ret.
    rewrite (get_accessible_accounts_spec user_id0 f kv Hok Hload). auto.
  - destruct (set_user_theme_spec user_id0 theme f Hok)
      as [(_ & ->) | (f' & -> & Hwf)]; simpl snd; auto.
    right. left. do 3 eexists. split; [reflexivity | exact Hwf].
  - destruct (get_user_profile_spec user_id0 f Hok) as (fields & -> & _). auto.
  - destruct (get_user_medicines_spec user_id0 f Hok) as (m & -> & _). auto.
  - destruct (set_user_medicines_spec user_id0 medicines f Hok)
      as [(_ & ->) | (f' & -> & Hwf)]; simpl snd; auto.
    right. left. do 3 eexists. split; [reflexivity | exact Hwf].
  - destruct (verify_security_answer_spec email provided_answer f Hok)
      as (r & -> & _). auto.
  - destruct (reset_password_spec user_id0 new_password f Hok)
      as [(_ & ->) | [(_ & _ & msg & _ & ->) | (_ & _ & f' & -> & Hwf)]];
      simpl snd; auto.
    right. left. do 3 eexists. split; [reflexivity | exact Hwf].
Qed.

Lemma with_field_keeps (f f' : file) (uid k : string) (v : pyval)
    (uid' k' : string) (user' : pyval) :
  with_field f uid k v f' ->
  k' <> k ->
  lookup_user f' uid' = Some user' ->
  exists user, lookup_user f uid' = Some user
               /\ py_getitem user' k' = py_getitem user k'.
Proof.
  intros Hw Hne Hget.
  destruct (with_field_lookup f f' uid k v uid' user' Hw Hget)
    as [(-> & fields & Hf & ->) | (_ & Hsame)].
  - exists (PDict fields). split; [assumption|]. simpl.
    now rewrite dict_get_set_other.
  - now exists user'.
Qed.

Lemma with_field_present (f f' : file) (uid k : string) (v : pyval)
    (uid' : string) (user : pyval) :
  with_field f uid k v f' ->
  lookup_user f uid' = Some user ->
  exists user', lookup_user f' uid' = Some user'.
Proof.
  intros (kv & fields & Hload & Hget & ->) Hfound. simpl.
  rewrite (lookup_user_load f kv uid' Hload) in Hfound.
  destruct (String.eqb uid' uid) eqn:E.
  - apply String.eqb_eq in E. subst uid'. rewrite dict_get_set_same. eauto.
  - apply String.eqb_neq in E. rewrite dict_get_set_other by assumption. eauto.
Qed.

Lemma run_unique_emails (c : call) (f : file) :
  users_ok f -> unique_emails f -> unique_emails (snd (run c f)).
Proof.
  intros Hok Hun.
  destruct (run_effect c f Hok)
    as [-> | [(uid0 & k & v & Hk & Hwf)
        | (email & password & pa & name & phone & q & a & uuid4 & now & kv
           & _ & _ & Hnew & Hload & ->)]]; [assumption | |].
  - assert (Hne : "email" <> k).
    { intros <-. destruct c; discriminate. }
    intros uid uid' user user' e Hg Hg' He He'.
    destruct (with_field_keeps _ _ _ _ _ uid "email" user Hwf Hne Hg)
      as (u & Hu & Heq).
    destruct (with_field_keeps _ _ _ _ _ uid' "email" user' Hwf Hne Hg')
      as (u' & Hu' & Heq').
    apply (Hun uid uid' u u' e); congruence.
  - intros uid uid' user user' e. simpl lookup_user.
    assert (Hold : forall i u, i <> uuid4 ->
              dict_get i (dict_set uuid4
                (new_user email password pa name phone q a now) kv) = Some u ->
              lookup_user f i = Some u).
    { intros i u Hi. rewrite dict_get_set_other by assumption.
      now rewrite (lookup_user_load f kv i Hload). }
    assert (Hfresh : forall i u, i <> uuid4 ->
              lookup_user f i = Some u ->
              py_getitem u "email" = Ret (PStr email) -> False).
    { intros i u _ Hu Hm. apply Hnew. now exists i, u. }
    destruct (String.eqb uid uuid4) eqn:E; destruct (String.eqb uid' uuid4) eqn:E';
      try (apply String.eqb_eq in E; subst uid);
      try (apply String.eqb_eq in E'; subst uid');
      try (apply String.eqb_neq in E); try (apply String.eqb_neq in E').
    + reflexivity.
    + rewrite dict_get_set_same. intros [= <-] Hg' [= <-] He'.
      exfalso. exact (Hfresh uid' user' E' (Hold _ _ E' Hg') He').
    + rewrite dict_get_set_same. intros Hg [= <-] He [= <-].
      exfalso. exact (Hfresh uid user E (Hold _ _ E Hg) He).
    + intros Hg Hg'. apply (Hun uid uid' user user' e); auto.
Qed.

Lemma reachable_unique_emails (f : file) : reachable f -> unique_emails f.
Proof.
  induction 1 as [| |c f Hreach IH].
  - intros uid uid' user user' e [=].
  - intros uid uid' user user' e [=].
  - apply run_unique_emails; [now apply reachable_ok | assumption].
Qed.

(** ** Further properties of the account store *)

(** On a store of the program no two records carry the same email. *)
Theorem emails_are_unique (f : file) (uid uid' : string)
    (user user' : pyval) (e : string) :
  reachable f ->
  lookup_user f uid = Some user ->
  lookup_user f uid' = Some user' ->
  py_getitem user "email" = Ret (PStr e) ->
  py_getitem user' "email" = Ret (PStr e) ->
  uid = uid'.
Proof.
  intros Hreach. exact (reachable_unique_emails f Hreach uid uid' user user' e).
Qed.


Lemma NoDup_keys_same_value (k : string) (v v' : pyval)
    (kv : list (string * pyval)) :
  NoDup (dict_keys kv) -> In (k, v) kv -> In (k, v') kv -> v = v'.
Proof.
  intros Hnd H H'. apply (In_dict_get _ _ _ Hnd) in H.
  apply (In_dict_get _ _ _ Hnd) in H'. congruence.
Qed.

Lemma user_login_scan_found (email password uid : string) (user : pyval)
    (h : string) (kv : list (string * pyval)) :
  NoDup (dict_keys kv) ->
  Forall (fun p => user_ok (snd p)) kv ->
  (forall k u k' u', In (k, u) kv -> In (k', u') kv ->
     py_getitem u "email" = Ret (PStr email) ->
     py_getitem u' "email" = Ret (PStr email) -> k = k') ->
  In (uid, user) kv ->
  py_getitem user "email" = Ret (PStr email) ->
  py_getitem user "password_hash" = Ret (PStr h) ->
  user_login_scan email password kv
  = Ret (if String.eqb h (_hash_password password)
         then result_for "Login successful" uid
         else result false "Incorrect password").
Proof.
  intros Hnd Hall Hun Hin He Hh.
  induction kv as [|[k u] rest IH]; [destruct Hin|].
  inversion Hall as [|? ? Hu Hrest]; subst. simpl in Hu.
  destruct (user_ok_fields _ Hu)
    as (fields & e0 & h0 & l & d & -> & He0 & _ & Hh0 & _).
  simpl. rewrite He0. simpl.
  destruct (String.eqb e0 email) eqn:E.
  - apply String.eqb_eq in E. subst e0.
    assert (k = uid).
    { apply (Hun k (PDict fields) uid user); simpl; auto.
      now rewrite He0. }
    subst k.
    assert (PDict fields = user)
      by (apply (NoDup_keys_same_value uid _ _ _ Hnd); simpl; auto).
    subst user. simpl in Hh. rewrite Hh0 in Hh. injection Hh as ->.
    rewrite Hh0. simpl.
    destruct (String.eqb h (_hash_password password)); reflexivity.
  - destruct Hin as [[= <- <-] | Hin].
    + simpl in He. rewrite He0 in He. injection He as ->.
      now rewrite String.eqb_refl in E.
    + apply IH; auto.
      * now inversion Hnd.
      * intros k1 u1 k2 u2 H1 H2. apply Hun; now right.
Qed.

Lemma user_login_scan_absent (email password : string)
    (kv : list (string * pyval)) :
  Forall (fun p => user_ok (snd p)) kv ->
  (forall uid user, In (uid, user) kv ->
     py_getitem user "email" <> Ret (PStr email)) ->
  user_login_scan email password kv = Ret (result false "Email not found").
Proof.
  induction 1 as [|[k u] rest Hu Hrest IH]; intros Hnone; [reflexivity|].
  simpl in Hu.
  destruct (user_ok_fields _ Hu)
    as (fields & e0 & h0 & l & d & -> & He0 & _).
  simpl. rewrite He0. simpl.
  destruct (String.eqb e0 email) eqn:E.
  - apply String.eqb_eq in E. subst e0. exfalso.
    apply (Hnone k (PDict fields)); [now left|]. simpl. now rewrite He0.
  - apply IH. intros uid user Hin. apply (Hnone uid). now right.
Qed.

Lemma user_login_found (email password uid : string) (user : pyval)
    (h : string) (f : file) :
  reachable f ->
  lookup_user f uid = Some user ->
  py_getitem user "email" = Ret (PStr email) ->
  py_getitem user "password_hash" = Ret (PStr h) ->
  user_login email password f
  = (Ret (if String.eqb h (_hash_password password)
          then result_for "Login successful" uid
          else result false "Incorrect password"), f).
Proof.
  intros Hreach Hget He Hh. pose proof (reachable_ok f Hreach) as Hok.
  pose proof (reachable_unique_emails f Hreach) as Hun.
  destruct (users_ok_load f Hok) as (kv & Hload & Hnd & Hall).
  unfold user_login, bind, lift. rewrite Hload. simpl.
  rewrite (lookup_user_load f kv uid Hload) in Hget.
  rewrite (user_login_scan_found email password uid user h kv); auto.
  - intros k u k' u' Hin Hin' He1 He2.
    apply (Hun k k' u u' email); try assumption;
      rewrite (lookup_user_load f kv _ Hload); now apply In_dict_get.
  - now apply dict_get_In.
Qed.

(** On a store of the program [user_login] answers "Email not found"
    when no record carries the email; otherwise the one record that
    carries it decides: a success with its identifier when the hash of
    the password is the stored one, "Incorrect password" when it is
    not. It never writes. *)
Theorem user_login_outcomes (email password : string) (f : file) :
  reachable f ->
  (~ registered email f ->
   user_login email password f = (Ret (result false "Email not found"), f))
  /\ (forall uid user h,
        lookup_user f uid = Some user ->
        py_getitem user "email" = Ret (PStr email) ->
        py_getitem user "password_hash" = Ret (PStr h) ->
        user_login email password f
        = (Ret (if String.eqb h (_hash_password password)
                then result_for "Login successful" uid
                else result false "Incorrect password"), f)).
Proof.
  intros Hreach. split.
  - intros Hnew. pose proof (reachable_ok f Hreach) as Hok.
    destruct (users_ok_load f Hok) as (kv & Hload & Hnd & Hall).
    unfold user_login, bind, lift. rewrite Hload. simpl.
    rewrite (user_login_scan_absent email password kv Hall); [reflexivity|].
    intros uid user Hin Hm. apply Hnew.
    apply (registered_load email f kv Hload Hnd). eauto.
  - intros uid user h. now apply user_login_found.
Qed.

(** On a store of the program, once [reset_password] has accepted a
    new password for a user, [user_login] with the user's email and
    the new password succeeds with the user's identifier, and fails
    with "Incorrect password" for every password whose hash differs. *)
Theorem reset_password_then_login (user_id new_password email : string)
    (user : pyval) (f : file) :
  reachable f ->
  lookup_user f user_id = Some user ->
  py_getitem user "email" = Ret (PStr email) ->
  meets_policy new_password = true ->
  exists f',
    reset_password user_id new_password f
    = (Ret (result true "Password reset successfully"), f')
    /\ user_login email new_password f'
       = (Ret (result_for "Login successful" user_id), f')
    /\ (forall other,
          _hash_password other <> _hash_password new_password ->
          user_login email other f'
          = (Ret (result false "Incorrect password"), f')).
Proof.
  intros Hreach Hget He Hp. pose proof (reachable_ok f Hreach) as Hok.
  destruct (reset_password_spec user_id new_password f Hok)
    as [(Hnone & _) | [(_ & Hp' & _) | (_ & _ & f' & Hrun & Hwf)]];
    try congruence.
  exists f'. split; [exact Hrun|].
  assert (Hreach' : reachable f').
  { replace f' with (snd (run (ResetPassword user_id new_password) f))
      by (simpl; now rewrite Hrun).
    now constructor. }
  destruct Hwf as (kv & fields & Hload & Hkv & ->).
  rewrite (lookup_user_load f kv user_id Hload) in Hget.
  assert (user = PDict fields) by congruence. subst user.
  set (user' := PDict (dict_set "password_hash"
                         (PStr (_hash_password new_password)) fields)) in *.
  assert (Hget' : lookup_user (Json (PDict (dict_set user_id user' kv))) user_id
                  = Some user')
    by (simpl; apply dict_get_set_same).
  assert (He' : py_getitem user' "email" = Ret (PStr email)).
  { simpl. rewrite dict_get_set_other by discriminate. exact He. }
  assert (Hh' : py_getitem user' "password_hash"
                = Ret (PStr (_hash_password new_password))).
  { simpl. now rewrite dict_get_set_same. }
  split.
  - rewrite (user_login_found email new_password user_id user' _ _
               Hreach' Hget' He' Hh').
    now rewrite String.eqb_refl.
  - intros other Hother.
    rewrite (user_login_found email other user_id user' _ _
               Hreach' Hget' He' Hh').
    destruct (String.eqb _ _) eqn:E; [|reflexivity].
    apply String.eqb_eq in E. congruence.
Qed.





(** On a store of the program, [get_user_profile] of a user shows the
    email, the name, the phone and the theme of the record, under
    these four keys and no other: neither hash is shown. *)
Theorem get_user_profile_public_fields (user_id : string) (user : pyval)
    (f : file) :
  reachable f ->
  lookup_user f user_id = Some user ->
  exists e n p t,
    get_user_profile user_id f
    = (Ret (PDict [("email", PStr e); ("name", n); ("phone", p);
                   ("theme", PStr t)]), f)
    /\ py_getitem user "email" = Ret (PStr e)
    /\ py_get user "name" = Ret n
    /\ py_get user "phone" = Ret p
    /\ py_getitem user "theme" = Ret (PStr t).
Proof.
  intros Hreach Hget. pose proof (reachable_ok f Hreach) as Hok.
  pose proof (users_ok_lookup f user_id user Hok Hget) as Hu.
  destruct (user_ok_fields _ Hu)
    as (fields & e & h & l & d & -> & He & _ & _ & Ht & _).
  load_ok f Hok kv Hload Hnd Hall.
  rewrite (lookup_user_load f kv user_id Hload) in Hget.
  unfold get_user_profile, bind, lift, ret, py_get. rewrite Hload. simpl.
  rewrite Hget. destruct fields as [|p0 fields]; [discriminate|].
  cbn [truthy negb py_get_default py_getitem].
  rewrite He.
  destruct Ht as [Ht | Ht]; rewrite Ht; do 4 eexists;
    (split; [reflexivity|]); auto.
Qed.

(** Whatever the store, once [user_signup] has returned a success the
    new account has the profile that was given (light theme, empty
    name and phone when none was given), no medicines and no
    devices. *)
Theorem fresh_account
    (email password : string) (pa : bool) (name phone q a : option string)
    (uuid4 : string) (now : Z) (f f' : file) (r : pyval) :
  user_signup email password pa name phone q a uuid4 now f = (Ret r, f') ->
  succeeded r = true ->
  get_user_profile uuid4 f'
  = (Ret (PDict [("email", PStr email); ("name", PStr (or_empty name));
                 ("phone", PStr (or_empty phone)); ("theme", PStr "light")]),
     f')
  /\ get_user_medicines uuid4 f' = (Ret (PList []), f')
  /\ get_user_devices uuid4 f' = (Ret (PList []), f').
Proof.
  intros Hrun Hr.
  destruct (user_signup_succeeded _ _ _ _ _ _ _ _ _ _ _ _ Hrun Hr)
    as (kv & _ & _ & _ & _ & _ & ->).
  unfold get_user_profile, get_user_medicines, get_user_devices, bind, lift,
    ret, py_get.
  simpl. rewrite dict_get_key, !dict_get_set_same. simpl. auto.
Qed.

Lemma add_caretaker_scan_found (email uid : string) (user : pyval)
    (kv : list (string * pyval)) :
  NoDup (dict_keys kv) ->
  Forall (fun p => user_ok (snd p)) kv ->
  (forall k u k' u', In (k, u) kv -> In (k', u') kv ->
     py_getitem u "email" = Ret (PStr email) ->
     py_getitem u' "email" = Ret (PStr email) -> k = k') ->
  In (uid, user) kv ->
  py_getitem user "email" = Ret (PStr email) ->
  add_caretaker_scan email kv = Ret (Some uid).
Proof.
  intros Hnd Hall Hun Hin He.
  induction kv as [|[k u] rest IH]; [destruct Hin|].
  inversion Hall as [|? ? Hu Hrest]; subst. simpl in Hu.
  destruct (user_ok_fields _ Hu) as (fields & e0 & h0 & l & d & -> & He0 & _).
  simpl. rewrite He0. simpl.
  destruct (String.eqb e0 email) eqn:E.
  - apply String.eqb_eq in E. subst e0.
    assert (k = uid); [|now subst].
    apply (Hun k (PDict fields) uid user); simpl; auto. now rewrite He0.
  - destruct Hin as [[= <- <-] | Hin].
    + simpl in He. rewrite He0 in He. injection He as ->.
      now rewrite String.eqb_refl in E.
    + apply IH; auto.
      * now inversion Hnd.
      * intros k1 u1 k2 u2 H1 H2. apply Hun; now right.
Qed.

Lemma add_caretaker_scan_absent (email : string) (kv : list (string * pyval)) :
  Forall (fun p => user_ok (snd p)) kv ->
  (forall uid user, In (uid, user) kv ->
     py_getitem user "email" <> Ret (PStr email)) ->
  add_caretaker_scan email kv = Ret None.
Proof.
  induction 1 as [|[k u] rest Hu Hrest IH]; intros Hnone; [reflexivity|].
  simpl in Hu.
  destruct (user_ok_fields _ Hu) as (fields & e0 & h0 & l & d & -> & He0 & _).
  simpl. rewrite He0. simpl.
  destruct (String.eqb e0 email) eqn:E.
  - apply String.eqb_eq in E. subst e0. exfalso.
    apply (Hnone k (PDict fields)); [now left|]. simpl. now rewrite He0.
  - apply IH. intros uid user Hin. apply (Hnone uid). now right.
Qed.

Lemma existsb_py_eq_str (c : string) (l : list pyval) :
  existsb (fun y => py_eq_str y c) l = true <-> In (PStr c) l.
Proof.
  rewrite existsb_exists. split.
  - intros (y & Hin & Hy). apply py_eq_str_true in Hy. now subst.
  - intros Hin. exists (PStr c). split; [assumption | now apply py_eq_str_true].
Qed.

(** Every way [add_caretaker] can go on a store of the program. *)
Lemma add_caretaker_cases (uid email : string) (f : file) :
  reachable f ->
  (lookup_user f uid = None
   /\ add_caretaker uid email f = (Ret (result false "User not found"), f))
  \/ (lookup_user f uid <> None /\ ~ registered email f
      /\ add_caretaker uid email f
         = (Ret (result false "Caretaker email not found"), f))
  \/ (exists c cu user l,
        lookup_user f uid = Some user
        /\ lookup_user f c = Some cu
        /\ py_getitem cu "email" = Ret (PStr email)
        /\ py_getitem user "caretakers" = Ret (PList l)
        /\ ((c = ""
             /\ add_caretaker uid email f
                = (Ret (result false "Caretaker email not found"), f))
            \/ (c <> "" /\ In (PStr c) l
                /\ add_caretaker uid email f
                   = (Ret (result false "Caretaker already added"), f))
            \/ (c <> "" /\ ~ In (PStr c) l
                /\ exists f',
                     add_caretaker uid email f
                     = (Ret (result true ("Caretaker " ++ email ++ " added")),
                        f')
                     /\ with_field f uid "caretakers"
                          (PList (l ++ [PStr c])) f'))).
Proof.
  intros Hreach. pose proof (reachable_ok f Hreach) as Hok.
  pose proof (reachable_unique_emails f Hreach) as Hun.
  load_ok f Hok kv Hload Hnd Hall.
  rewrite (lookup_user_load f kv uid Hload).
  unfold add_caretaker, bind, lift, ret. rewrite Hload. simpl.
  rewrite (dict_get_key uid kv).
  destruct (dict_get uid kv) as [user|] eqn:Hget; simpl; [|left; auto].
  right.
  pose proof (dict_get_Forall user_ok _ _ _ Hall Hget) as Hu.
  destruct (user_ok_fields _ Hu)
    as (fields & e0 & h0 & l & d & -> & _ & _ & _ & _ & Hc & _).
  destruct (user_signup_scan_ok email kv Hall) as [[_ Hreg] | [_ Hnone]].
  - right. destruct Hreg as (c & cu & Hin & He).
    rewrite (add_caretaker_scan_found email c cu kv); auto.
    + exists c, cu, (PDict fields), l.
      rewrite (lookup_user_load f kv c Hload).
      split; [reflexivity|]. split; [now apply In_dict_get|].
      split; [assumption|]. split; [simpl; now rewrite Hc|].
      simpl. destruct (String.eqb c "") eqn:Ec.
      * left. apply String.eqb_eq in Ec. auto.
      * apply String.eqb_neq in Ec. right. rewrite Hc. simpl.
        destruct (existsb (fun y => py_eq_str y c) l) eqn:El; simpl.
        -- left. apply existsb_py_eq_str in El. auto.
        -- right. split; [assumption|]. split.
           { intros Hin'. apply existsb_py_eq_str in Hin'. congruence. }
           eexists. split; [reflexivity|]. now exists kv, fields.
    + intros k u k' u' Hk Hk' He1 He2.
      apply (Hun k k' u u' email); try assumption;
        rewrite (lookup_user_load f kv _ Hload); now apply In_dict_get.
  - left. rewrite (add_caretaker_scan_absent email kv Hall Hnone). simpl.
    split; [discriminate|]. split; [|reflexivity].
    intros Hreg. apply (registered_load email f kv Hload Hnd) in Hreg.
    destruct Hreg as (c & cu & Hin & He). exact (Hnone c cu Hin He).
Qed.

Lemma lists_caretaker_found (f : file) (owner uid : string) (user : pyval)
    (l : list pyval) :
  lookup_user f owner = Some user ->
  py_getitem user "caretakers" = Ret (PList l) ->
  lists_caretaker f owner uid <-> In (PStr uid) l.
Proof.
  intros Hget Hl. unfold lists_caretaker. split.
  - intros (user' & l' & Hget' & Hl' & Hin). congruence.
  - intros Hin. now exists user, l.
Qed.

(** On a store of the program [add_caretaker] answers "User not found"
    for an unknown user and "Caretaker email not found" when no record
    carries the email, both without writing. When a record with a
    non-empty identifier carries the email, a caretaker already on the
    user's list gets "Caretaker already added" and nothing is written;
    otherwise the caretaker is put on the list, and asking again gets
    "Caretaker already added". *)
Theorem add_caretaker_outcomes (user_id caretaker_email : string) (f : file) :
  reachable f ->
  (lookup_user f user_id = None ->
   add_caretaker user_id caretaker_email f
   = (Ret (result false "User not found"), f))
  /\ (lookup_user f user_id <> None -> ~ registered caretaker_email f ->
      add_caretaker user_id caretaker_email f
      = (Ret (result false "Caretaker email not found"), f))
  /\ (forall c cu,
        lookup_user f user_id <> None ->
        lookup_user f c = Some cu ->
        py_getitem cu "email" = Ret (PStr caretaker_email) ->
        c <> "" ->
        (lists_caretaker f user_id c ->
         add_caretaker user_id caretaker_email f
         = (Ret (result false "Caretaker already added"), f))
        /\ (~ lists_caretaker f user_id c ->
            exists f',
              add_caretaker user_id caretaker_email f
              = (Ret (result true
                        ("Caretaker " ++ caretaker_email ++ " added")), f')
              /\ lists_caretaker f' user_id c
              /\ add_caretaker user_id caretaker_email f'
                 = (Ret (result false "Caretaker already added"), f'))).
Proof.
  intros Hreach.
  assert (Hfound : forall g c cu,
    reachable g ->
    lookup_user g user_id <> None ->
    lookup_user g c = Some cu ->
    py_getitem cu "email" = Ret (PStr caretaker_email) ->
    c <> "" ->
    exists user l,
      lookup_user g user_id = Some user
      /\ py_getitem user "caretakers" = Ret (PList l)
      /\ ((In (PStr c) l
           /\ add_caretaker user_id caretaker_email g
              = (Ret (result false "Caretaker already added"), g))
          \/ (~ In (PStr c) l
              /\ exists g',
                   add_caretaker user_id caretaker_email g
                   = (Ret (result true
                             ("Caretaker " ++ caretaker_email ++ " added")),
                      g')
                   /\ with_field g user_id "caretakers"
                        (PList (l ++ [PStr c])) g'))).
  { intros g c cu Hg Huser Hc He Hne.
    destruct (add_caretaker_cases user_id caretaker_email g Hg)
      as [(Hnone & _) | [(_ & Hnew & _)
          | (c' & cu' & user & l & Hu & Hc' & He' & Hl & Hcases)]].
    - contradiction.
    - exfalso. apply Hnew. now exists c, cu.
    - assert (c' = c)
        by exact (reachable_unique_emails g Hg c' c cu' cu caretaker_email
                    Hc' Hc He' He).
      subst c'. exists user, l. split; [assumption|]. split; [assumption|].
      destruct Hcases as [(Hempty & _) | [(_ & Hin & Hrun) | (_ & Hnin & Hrun)]];
        [contradiction | left; auto | right; auto]. }
  split; [|split].
  - intros Hnone.
    destruct (add_caretaker_cases user_id caretaker_email f Hreach)
      as [(_ & Hrun) | [(Hsome & _) | (c & cu & user & l & Hu & _)]];
      [assumption | contradiction | congruence].
  - intros Hsome Hnew.
    destruct (add_caretaker_cases user_id caretaker_email f Hreach)
      as [(Hnone & _) | [(_ & _ & Hrun)
          | (c & cu & user & l & _ & Hc & He & _)]];
      [contradiction | assumption |].
    exfalso. apply Hnew. now exists c, cu.
  - intros c cu Hsome Hc He Hne.
    destruct (Hfound f c cu Hreach Hsome Hc He Hne)
      as (user & l & Hu & Hl & Hcases).
    pose proof (lists_caretaker_found f user_id c user l Hu Hl) as Hlists.
    split.
    + intros Hin. apply Hlists in Hin.
      destruct Hcases as [(_ & Hrun) | (Hnin & _)];
        [assumption | contradiction].
    + intros Hnin. rewrite Hlists in Hnin.
      destruct Hcases as [(Hin & _) | (_ & f' & Hrun & Hwf)];
        [contradiction|].
      exists f'. split; [assumption|].
      assert (Hreach' : reachable f').
      { replace f' with (snd (run (AddCaretaker user_id caretaker_email) f))
          by (simpl; now rewrite Hrun).
        now constructor. }
      destruct (with_field_present _ _ _ _ _ c cu Hwf Hc) as (cu' & Hc').
      destruct (with_field_keeps _ _ _ _ _ c "email" cu' Hwf
                  ltac:(discriminate) Hc') as (cu0 & Hcu0 & Heq).
      assert (He' : py_getitem cu' "email" = Ret (PStr caretaker_email))
        by congruence.
      assert (Hu' : exists fields,
        lookup_user f' user_id
        = Some (PDict (dict_set "caretakers" (PList (l ++ [PStr c])) fields))).
      { destruct Hwf as (kv & fields & Hload & Hget & ->). exists fields.
        simpl. apply dict_get_set_same. }
      destruct Hu' as (fields & Hu').
      assert (Hsome' : lookup_user f' user_id <> None) by congruence.
      destruct (Hfound f' c cu' Hreach' Hsome' Hc' He' Hne)
        as (user' & l' & Hu'' & Hl' & Hcases').
      rewrite Hu' in Hu''. injection Hu'' as <-.
      simpl in Hl'. rewrite dict_get_set_same in Hl'. injection Hl' as <-.
      assert (Hin : In (PStr c) (l ++ [PStr c]))
        by (apply in_or_app; right; now left).
      split.
      * exists (PDict (dict_set "caretakers" (PList (l ++ [PStr c])) fields)),
          (l ++ [PStr c]).
        split; [assumption|]. split; [|assumption].
        simpl. now rewrite dict_get_set_same.
      * destruct Hcases' as [(_ & Hrun') | (Hnin' & _)];
          [assumption | contradiction].
Qed.

Lemma filter_dict_set (q : pyval -> bool) (k : string) (v v' : pyval)
    (kv : list (string * pyval)) :
  dict_get k kv = Some v -> q v' = q v ->
  map fst (filter (fun p => q (snd p)) (dict_set k v' kv))
  = map fst (filter (fun p => q (snd p)) kv).
Proof.
  intros Hget Hq. induction kv as [|[k0 v0] rest IH]; [discriminate|].
  simpl in Hget |- *. destruct (String.eqb k k0).
  - injection Hget as ->. simpl. rewrite Hq. now destruct (q v).
  - simpl. destruct (q v0); simpl; now rewrite IH.
Qed.

(** On a store of the program, once [add_caretaker] has returned a
    success for a user, a record carries the email that was given,
    [get_accessible_accounts] of that caretaker lists the user, and
    the accounts every other identifier can access are as before. *)
Theorem add_caretaker_grants_access (user_id caretaker_email : string)
    (f f' : file) (r : pyval) :
  reachable f ->
  add_caretaker user_id caretaker_email f = (Ret r, f') ->
  succeeded r = true ->
  exists c cu,
    lookup_user f c = Some cu
    /\ py_getitem cu "email" = Ret (PStr caretaker_email)
    /\ (exists others,
          get_accessible_accounts c f' = (Ret (c :: others), f')
          /\ In user_id others)
    /\ (forall u,
          u <> c ->
          fst (get_accessible_accounts u f')
          = fst (get_accessible_accounts u f)).
Proof.
  intros Hreach Hrun Hr. pose proof (reachable_ok f Hreach) as Hok.
  assert (Hok' : users_ok f').
  { apply reachable_ok.
    replace f' with (snd (run (AddCaretaker user_id caretaker_email) f))
      by (simpl; now rewrite Hrun).
    now constructor. }
  destruct (add_caretaker_cases user_id caretaker_email f Hreach)
    as [(_ & Hrun') | [(_ & _ & Hrun')
        | (c & cu & user & l & Hu & Hc & He & Hl
           & [(_ & Hrun') | [(_ & _ & Hrun') | (Hne & Hnin & g & Hrun' & Hwf)]])]];
    rewrite Hrun in Hrun'; injection Hrun' as -> Hf'; try discriminate.
  subst g. exists c, cu. split; [assumption|]. split; [assumption|].
  destruct Hwf as (kv & fields & Hload & Hget & ->).
  rewrite (lookup_user_load f kv user_id Hload) in Hu.
  assert (user = PDict fields) by congruence. subst user.
  simpl in Hl.
  destruct (dict_get "caretakers" fields) as [x|] eqn:Hcare;
    [|discriminate]. injection Hl as ->.
  set (user' := PDict (dict_set "caretakers" (PList (l ++ [PStr c])) fields))
    in *.
  assert (Hload' : _load_users (Json (PDict (dict_set user_id user' kv)))
                   = (Ret (PDict (dict_set user_id user' kv)),
                      Json (PDict (dict_set user_id user' kv))))
    by reflexivity.
  split.
  - eexists. split; [exact (get_accessible_accounts_spec c _ _ Hok' Hload')|].
    apply in_map_iff. exists (user_id, user'). split; [reflexivity|].
    apply filter_In. split; [apply dict_get_In, dict_get_set_same|].
    unfold has_caretaker, user'. simpl. rewrite dict_get_set_same.
    apply existsb_py_eq_str, in_or_app. right. now left.
  - intros u Hu'.
    rewrite (get_accessible_accounts_spec u _ _ Hok' Hload').
    rewrite (get_accessible_accounts_spec u f kv Hok Hload). simpl fst.
    rewrite (filter_dict_set (has_caretaker u) user_id (PDict fields) user' kv
               Hget); [reflexivity|].
    unfold has_caretaker, user'. simpl. rewrite dict_get_set_same, Hcare.
    rewrite existsb_app. simpl.
    assert (String.eqb c u = false) as ->
      by (apply String.eqb_neq; congruence).
    now rewrite !orb_false_r.
Qed.

(** ** Devices *)

Lemma In_dict_set (k k' : string) (v v' : pyval) (kv : list (string * pyval)) :
  NoDup (dict_keys kv) ->
  In (k', v') (dict_set k v kv)
  <-> (k' = k /\ v' = v) \/ (k' <> k /\ In (k', v') kv).
Proof.
  intros Hnd. induction kv as [|[k0 v0] rest IH]; simpl.
  - split.
    + intros [[= <- <-] | []]. now left.
    + intros [[-> ->] | [_ []]]. now left.
  - inversion Hnd as [|? ? Hnotin Hnd']; subst.
    destruct (String.eqb k k0) eqn:E.
    + apply String.eqb_eq in E. subst k0. simpl. split.
      * intros [[= <- <-] | Hin]; [now left|]. right. split; [|now right].
        intros ->. apply Hnotin. change k with (fst (k, v')). now apply in_map.
      * intros [[-> ->] | [Hne [[= <- <-] | Hin]]];
          [now left | contradiction | now right].
    + apply String.eqb_neq in E. simpl. rewrite (IH Hnd'). split.
      * intros [[= <- <-] | [[-> ->] | [Hne Hin]]];
          [right; split; [congruence | now left] | now left
          | right; split; [assumption | now right]].
      * intros [[-> ->] | [Hne [[= <- <-] | Hin]]];
          [right; now left | now left | right; right; auto].
Qed.

Lemma get_user_devices_list_rows (d : list (string * pyval)) :
  Forall (fun p => device_ok (snd p)) d ->
  get_user_devices_list d = Ret (map device_row d).
Proof.
  induction 1 as [|[did info] rest (n & r & l & Hi) Hrest IH];
    simpl; [reflexivity|].
  simpl in Hi. subst info. simpl. now rewrite IH.
Qed.

Lemma get_user_devices_found (uid : string) (user : pyval)
    (d : list (string * pyval)) (f : file) :
  users_ok f ->
  lookup_user f uid = Some user ->
  py_getitem user "devices" = Ret (PDict d) ->
  Forall (fun p => device_ok (snd p)) d ->
  get_user_devices uid f = (Ret (PList (map device_row d)), f).
Proof.
  intros Hok Hget Hd Hall. load_ok f Hok kv Hload Hnd Hkv.
  rewrite (lookup_user_load f kv uid Hload) in Hget.
  unfold get_user_devices, bind, lift, ret. rewrite Hload. simpl.
  rewrite (dict_get_key uid kv), Hget. simpl. rewrite Hd. simpl.
  now rewrite (get_user_devices_list_rows d Hall).
Qed.

Lemma register_device_found (uid did name : string) (now1 now2 : Z)
    (user : pyval) (d : list (string * pyval)) (f : file) :
  users_ok f ->
  lookup_user f uid = Some user ->
  py_getitem user "devices" = Ret (PDict d) ->
  exists f',
    register_device uid did name now1 now2 f
    = (Ret (result true ("Device '" ++ name ++ "' registered")), f')
    /\ with_field f uid "devices"
         (PDict (dict_set did
                   (PDict [("name", PStr name);
                           ("registered_at", PStr (strftime now1));
                           ("last_seen", PStr (strftime now2))]) d)) f'.
Proof.
  intros Hok Hget Hd. load_ok f Hok kv Hload Hnd Hkv.
  rewrite (lookup_user_load f kv uid Hload) in Hget.
  pose proof (dict_get_Forall user_ok _ _ _ Hkv Hget) as Hu.
  destruct Hu as (fields & -> & _).
  unfold register_device, bind, lift, ret. rewrite Hload. simpl.
  rewrite (dict_get_key uid kv), Hget. simpl. simpl in Hd.
  destruct (dict_get "devices" fields) as [x|]; [|discriminate].
  injection Hd as ->. simpl.
  eexists. split; [reflexivity|]. now exists kv, fields.
Qed.

Lemma run_devices_ok (c : call) (f : file) :
  users_ok f -> devices_ok f -> devices_ok (snd (run c f)).
Proof.
  intros Hok Hdev.
  assert (Hkeep : forall f' uid0 k v,
    with_field f uid0 k v f' -> "devices" <> k -> devices_ok f').
  { intros f' uid0 k v Hwf Hne uid user' Hget'.
    destruct (with_field_keeps _ _ _ _ _ uid "devices" user' Hwf Hne Hget')
      as (user & Hget & Heq).
    rewrite Heq. exact (Hdev uid user Hget). }
  destruct c;
    match goal with
    | |- devices_ok (snd (run ?c f)) =>
        destruct (run_effect c f Hok)
          as [Heq | [(uid0 & k & v & Hk & Hwf)
              | (e & p & pa & n & ph & q & a & u & t & kv & Hc & _ & _ & Hload
                 & Heq)]]
    end;
    try (rewrite Heq; assumption); try discriminate;
    try (injection Hk as <- <-; apply (Hkeep _ _ _ _ Hwf); discriminate).
  - injection Hc as <- <- <- <- <- <- <- <- <-. rewrite Heq.
    intros uid user. simpl.
    destruct (String.eqb uid uuid4) eqn:E.
    + apply String.eqb_eq in E. subst uid. rewrite dict_get_set_same.
      intros [= <-]. exists []. repeat split; constructor.
    + apply String.eqb_neq in E. rewrite dict_get_set_other by assumption.
      rewrite <- (lookup_user_load f kv uid Hload). apply Hdev.
  - clear Hk Hwf. simpl run.
    destruct (lookup_user f user_id0) as [user|] eqn:Hget.
    2:{ destruct (register_device_spec user_id0 device_id0 device_name
                    now1 now2 f Hok) as [(_ & ->) | (f' & d & _ & Hwf & _)];
          [assumption|].
        destruct (with_field_found _ _ _ _ _ Hwf) as (u & Hu). congruence. }
    destruct (Hdev user_id0 user Hget) as (d & Hd & Hnd & Hall).
    destruct (register_device_found user_id0 device_id0 device_name now1 now2
                user d f Hok Hget Hd) as (f' & -> & Hwf).
    simpl snd. intros uid user' Hget'.
    destruct (with_field_lookup _ _ _ _ _ uid user' Hwf Hget')
      as [(-> & fields & _ & ->) | (_ & Hsame)]; [|now apply (Hdev uid)].
    eexists. split; [simpl; now rewrite dict_get_set_same|].
    split; [now apply dict_set_NoDup|].
    apply (dict_set_Forall device_ok); [assumption|]. do 3 eexists. reflexivity.
Qed.

Lemma reachable_devices_ok (f : file) : reachable f -> devices_ok f.
Proof.
  induction 1 as [| |c f Hreach IH].
  - intros uid user [=].
  - intros uid user [=].
  - apply run_devices_ok; [now apply reachable_ok | assumption].
Qed.

Lemma device_row_id (p : string * pyval) :
  device_ok (snd p) -> py_getitem (device_row p) "id" = Ret (PStr (fst p)).
Proof.
  destruct p as [did info]. intros (n & r & l & Hi). simpl in Hi. subst info.
  reflexivity.
Qed.

(** On a store of the program, after [register_device] for a user
    [get_user_devices] lists the device with the name given and the
    two timestamps of the call, as the only entry with that
    identifier; the user's other devices are listed as before, and so
    are the devices of every other user. *)
Theorem register_device_then_listed
    (user_id device_id device_name : string) (now1 now2 : Z) (f : file) :
  reachable f ->
  lookup_user f user_id <> None ->
  exists f' ds ds',
    get_user_devices user_id f = (Ret (PList ds), f)
    /\ register_device user_id device_id device_name now1 now2 f
       = (Ret (result true ("Device '" ++ device_name ++ "' registered")), f')
    /\ get_user_devices user_id f' = (Ret (PList ds'), f')
    /\ (forall e,
          In e ds'
          <-> e = PDict [("id", PStr device_id); ("name", PStr device_name);
                         ("registered_at", PStr (strftime now1));
                         ("last_seen", PStr (strftime now2))]
              \/ (In e ds /\ py_getitem e "id" <> Ret (PStr device_id)))
    /\ (forall other,
          other <> user_id ->
          fst (get_user_devices other f') = fst (get_user_devices other f)).
Proof.
  intros Hreach Hfound. pose proof (reachable_ok f Hreach) as Hok.
  pose proof (reachable_devices_ok f Hreach) as Hdev.
  destruct (lookup_user f user_id) as [user|] eqn:Hget; [|contradiction].
  destruct (Hdev user_id user Hget) as (d & Hd & Hnd & Hall).
  destruct (register_device_found user_id device_id device_name now1 now2
              user d f Hok Hget Hd) as (f' & Hrun & Hwf).
  assert (Hreach' : reachable f').
  { replace f' with (snd (run (RegisterDevice user_id device_id device_name
                                 now1 now2) f))
      by (simpl; now rewrite Hrun).
    now constructor. }
  pose proof (reachable_ok f' Hreach') as Hok'.
  pose proof (reachable_devices_ok f' Hreach') as Hdev'.
  set (rec := PDict [("name", PStr device_name);
                     ("registered_at", PStr (strftime now1));
                     ("last_seen", PStr (strftime now2))]) in *.
  assert (Hrec : device_ok rec) by (do 3 eexists; reflexivity).
  assert (Hall' : Forall (fun p => device_ok (snd p)) (dict_set device_id rec d))
    by now apply (dict_set_Forall device_ok).
  assert (Hget' : exists fields,
    lookup_user f' user_id
    = Some (PDict (dict_set "devices" (PDict (dict_set device_id rec d))
                     fields))).
  { destruct Hwf as (kv & fields & Hload & Hkv & ->). exists fields.
    simpl. apply dict_get_set_same. }
  destruct Hget' as (fields & Hget').
  exists f', (map device_row d), (map device_row (dict_set device_id rec d)).
  split; [now apply get_user_devices_found with user|].
  split; [exact Hrun|].
  split.
  { apply get_user_devices_found with
      (PDict (dict_set "devices" (PDict (dict_set device_id rec d)) fields));
      auto.
    simpl. now rewrite dict_get_set_same. }
  split.
  - intros e. rewrite !in_map_iff. split.
    + intros ([k i] & <- & Hin).
      apply (In_dict_set _ _ _ _ _ Hnd) in Hin as [[-> ->] | [Hne Hin]].
      * left. reflexivity.
      * right. split; [now exists (k, i)|].
        rewrite Forall_forall in Hall.
        rewrite (device_row_id (k, i) (Hall _ Hin)). simpl. congruence.
    + intros [-> | [([k i] & <- & Hin) Hid]].
      * exists (device_id, rec). split; [reflexivity|].
        apply (In_dict_set _ _ _ _ _ Hnd). now left.
      * exists (k, i). split; [reflexivity|].
        apply (In_dict_set _ _ _ _ _ Hnd). right. split; [|assumption].
        intros ->. apply Hid.
        rewrite Forall_forall in Hall. exact (device_row_id _ (Hall _ Hin)).
  - intros other Hother.
    destruct (lookup_user f other) as [u|] eqn:Hu.
    + destruct (Hdev other u Hu) as (d0 & Hd0 & _ & Hall0).
      rewrite (get_user_devices_found other u d0 f Hok Hu Hd0 Hall0).
      assert (Hu' : lookup_user f' other = Some u).
      { destruct Hwf as (kv & fields0 & Hload & Hkv & ->). simpl.
        rewrite dict_get_set_other by assumption.
        now rewrite <- (lookup_user_load f kv other Hload). }
      now rewrite (get_user_devices_found other u d0 f' Hok' Hu' Hd0 Hall0).
    + destruct (get_user_devices_spec other f Hok) as (ds0 & -> & Hnil).
      rewrite (Hnil Hu).
      assert (Hu' : lookup_user f' other = None).
      { destruct Hwf as (kv & fields0 & Hload & Hkv & ->). simpl.
        rewrite dict_get_set_other by assumption.
        now rewrite <- (lookup_user_load f kv other Hload). }
      destruct (get_user_devices_spec other f' Hok') as (ds1 & -> & Hnil').
      now rewrite (Hnil' Hu').
Qed.

(** ** The security answer, and stores that are not objects *)



(** When [users.json] holds a JSON value that is not an object, the
    functions that go through the records raise [AttributeError] and
    write nothing; [user_signup] still refuses a malformed email
    first. *)
Theorem non_object_store_raises (v : pyval)
    (email password : string) (pa : bool) (name phone q a : option string)
    (uuid4 : string) (now : Z) (user_id provided : string) :
  (forall kv, v <> PDict kv) ->
  user_login email password (Json v) = (Raise AttributeError, Json v)
  /\ verify_security_answer email provided (Json v)
     = (Raise AttributeError, Json v)
  /\ get_accessible_accounts user_id (Json v) = (Raise AttributeError, Json v)
  /\ get_user_profile user_id (Json v) = (Raise AttributeError, Json v)
  /\ get_user_medicines user_id (Json v) = (Raise AttributeError, Json v)
  /\ user_signup email password pa name phone q a uuid4 now (Json v)
     = (if valid_email email then Raise AttributeError
        else Ret (result false "Invalid email format"), Json v).
Proof.
  intros Hv.
  assert (Hitems : py_items v = Raise AttributeError)
    by (destruct v; try reflexivity; now destruct (Hv kv)).
  assert (Hget : forall k d, py_get_default v k d = Raise AttributeError)
    by (intros k d; destruct v; try reflexivity; now destruct (Hv kv)).
  unfold user_login, verify_security_answer, get_accessible_accounts,
    get_user_profile, get_user_medicines, user_signup, bind, lift, ret,
    py_get, valid_email.
  simpl. rewrite Hitems, !Hget.
  repeat split.
  destruct (str_contains "@" email), (str_contains "." email); reflexivity.
Qed.

(** ** Further properties of the event store *)

Lemma load_items_app (cutoff : Z) (l1 l2 : list pyval) :
  load_items cutoff (l1 ++ l2) = load_items cutoff l1 ++ load_items cutoff l2.
Proof.
  induction l1 as [|item rest IH]; simpl; [reflexivity|].
  destruct (load_item cutoff item) as [[e|]|x]; simpl; now rewrite IH.
Qed.

Lemma load_item_malformed (cutoff : Z) (item : pyval) (e : Event) :
  well_formed_item item = false -> load_item cutoff item <> Ret (Some e).
Proof.
  unfold well_formed_item, load_item.
  destruct item as [| | | | |kv]; simpl; try discriminate.
  destruct (dict_get "ts" kv) as [t|]; simpl; [|discriminate].
  destruct t as [| | |s| |]; simpl; try discriminate.
  destruct (strptime s) as [evt_ts|]; simpl; [|discriminate].
  destruct (cutoff <=? evt_ts)%Z; [|discriminate].
  destruct (forallb _ (dict_keys kv)); simpl; [|discriminate].
  destruct (dict_get "source" kv); simpl; [|discriminate].
  destruct (dict_get "button" kv); simpl; [|discriminate].
  destruct (dict_get "language" kv); simpl; [|discriminate].
  destruct (dict_get "text" kv); simpl; discriminate.
Qed.

Lemma load_items_strings (cutoff : Z) (l : list pyval) :
  Forall (fun item => exists s, item = PStr s) l -> load_items cutoff l = [].
Proof.
  induction 1 as [|item rest [s ->] Hrest IH]; simpl; auto.
Qed.

(** [_load_events_from_file] fails soft. Without a readable file, or
    with one that holds anything but a list, it returns no event. In
    a list it passes over every entry that is not well formed,
    wherever it stands, and loads the others as if the entry were not
    there. A well-formed recent entry that names neither device nor
    user is loaded with the device "unknown" and the user "default". *)
Theorem load_skips_malformed_entries (now : Z) :
  _load_events_from_file now Absent = []
  /\ _load_events_from_file now Garbage = []
  /\ (forall data,
        (forall l, data <> PList l) ->
        _load_events_from_file now (Json data) = [])
  /\ (forall before bad after,
        well_formed_item bad = false ->
        _load_events_from_file now (Json (PList (before ++ bad :: after)))
        = _load_events_from_file now (Json (PList (before ++ after))))
  /\ (forall kv s t,
        well_formed_item (PDict kv) = true ->
        dict_get "ts" kv = Some (PStr s) ->
        strptime s = Some t ->
        (now - seven_days <= t)%Z ->
        dict_get "device_id" kv = None ->
        dict_get "user_id" kv = None ->
        exists e,
          _load_events_from_file now (Json (PList [PDict kv])) = [e]
          /\ ts e = PStr s
          /\ device_id e = PStr "unknown"
          /\ user_id e = PStr "default").
Proof.
  split; [reflexivity|]. split; [reflexivity|]. split; [|split].
  - intros data Hdata. unfold _load_events_from_file.
    destruct data as [| | |s|l|kv]; simpl; try reflexivity.
    + apply load_items_strings. apply Forall_forall. intros item Hin.
      apply in_map_iff in Hin as (c & <- & _). eauto.
    + now destruct (Hdata l).
    + apply load_items_strings. apply Forall_forall. intros item Hin.
      apply in_map_iff in Hin as (p & <- & _). eauto.
  - intros before bad after Hbad. simpl.
    rewrite !load_items_app. simpl.
    destruct (load_item (now - seven_days) bad) as [[e|]|x] eqn:Hitem;
      try reflexivity.
    now destruct (load_item_malformed (now - seven_days)%Z bad e Hbad).
  - intros kv s t Hwf Hts Ht Hrecent Hdev Huser.
    unfold well_formed_item in Hwf. rewrite Hts, Ht in Hwf. simpl in Hwf.
    apply andb_prop in Hwf as [Hkeys Hreq].
    simpl. unfold load_item. simpl. rewrite Hts. simpl. rewrite Ht. simpl.
    apply Z.leb_le in Hrecent. rewrite Hrecent, Hkeys.
    destruct (dict_get "source" kv); simpl in Hreq; [|discriminate].
    destruct (dict_get "button" kv); simpl in Hreq; [|discriminate].
    destruct (dict_get "language" kv); simpl in Hreq; [|discriminate].
    destruct (dict_get "text" kv); simpl in Hreq; [|discriminate].
    rewrite Hdev, Huser. simpl. eexists. split; [reflexivity|]. auto.
Qed.

Lemma expected_text_spoken (button language : string)
    (custom_text : option string) :
  exists t,
    expected_text button language custom_text = PStr t /\ t <> "".
Proof.
  assert (Hconfig : exists t,
    match phrase_table button with
    | Some texts =>
        match dict_get language texts with
        | Some phrase => phrase
        | None =>
            match dict_get "en" texts with
            | Some phrase => phrase
            | None => PNone
            end
        end
    | None => PStr ("Unknown button " ++ button)
    end = PStr t /\ t <> "").
  { unfold phrase_table, CONFIG. cbn [py_getitem dict_get].
    repeat match goal with
           | |- context [String.eqb button ?s] =>
               destruct (String.eqb button s);
               [ cbn [py_getitem dict_get String.eqb Ascii.eqb Bool.eqb];
                 repeat match goal with
                        | |- context [String.eqb language ?l] =>
                            destruct (String.eqb language l);
                            [eexists; split; [reflexivity | discriminate]|]
                        end;
                 eexists; split; [reflexivity | discriminate]
               | ]
           end.
    eexists. split; [reflexivity | discriminate]. }
  unfold expected_text.
  destruct custom_text as [[|c s]|]; try exact Hconfig.
  eexists. split; [reflexivity | discriminate].
Qed.

(** Every [trigger] that returns has handed exactly one text to the
    speech engine, with the language it was given: the text of the
    event it returns, which is never empty. *)
Theorem trigger_speaks_once (button language source : string)
    (custom_text : option string) (device_id user_id : string)
    (now_evt now_cleanup : Z) (st st' : store) (v : pyval) :
  trigger button language source custom_text device_id user_id
    now_evt now_cleanup st = (Ret v, st') ->
  exists t,
    spoken st' = spoken st ++ [(PStr t, language)]
    /\ t <> ""
    /\ py_getitem v "text" = Ret (PStr t).
Proof.
  rewrite trigger_spec. cbv zeta.
  destruct (keep_recent _ _) as [h'|x]; [|discriminate].
  intros [= <- <-]. cbn [spoken trigger_event text asdict py_getitem dict_get].
  destruct (expected_text_spoken (py_upper (py_strip button)) language
              custom_text) as (t & -> & Ht).
  exists t. simpl. destruct t as [|c s]; [contradiction|]. auto.
Qed.

Lemma keep_recent_raises (cutoff : Z) (h : list Event) :
  ~ Forall stamped h -> exists x, keep_recent cutoff h = Raise x.
Proof.
  intros Hbad. destruct (keep_recent cutoff h) as [h'|x] eqn:Hk; [|eauto].
  now destruct (keep_recent_ret _ _ _ Hk).
Qed.

Lemma trigger_raises (button language source : string)
    (custom_text : option string) (device_id user_id : string)
    (now_evt now_cleanup : Z) (st : store) :
  ~ Forall stamped (HISTORY st) ->
  exists x,
    trigger button language source custom_text device_id user_id
      now_evt now_cleanup st
    = (Raise x,
       {| HISTORY := trigger_event button language source custom_text
                       device_id user_id now_evt :: HISTORY st;
          EVENTS_FILE := EVENTS_FILE st;
          spoken := spoken st |}).
Proof.
  intros Hbad. rewrite trigger_spec. cbv zeta.
  destruct (keep_recent_raises (now_cleanup - seven_days)
              (trigger_event button language source custom_text device_id
                 user_id now_evt :: HISTORY st)) as (x & ->).
  - intros Hall. apply Hbad. now inversion Hall.
  - now exists x.
Qed.

(** When some timestamp of the history does not read as a time,
    [trigger] raises: the new event stays in front of [HISTORY],
    [events.json] is not written and nothing is spoken. Every
    [trigger] after it raises as well. *)
Theorem trigger_raises_on_unreadable_timestamp
    (button language source : string) (custom_text : option string)
    (device_id user_id : string) (now_evt now_cleanup : Z) (st : store) :
  ~ Forall stamped (HISTORY st) ->
  exists x st',
    trigger button language source custom_text device_id user_id
      now_evt now_cleanup st = (Raise x, st')
    /\ HISTORY st'
       = trigger_event button language source custom_text device_id user_id
           now_evt :: HISTORY st
    /\ EVENTS_FILE st' = EVENTS_FILE st
    /\ spoken st' = spoken st
    /\ (forall button' language' source' custom_text' device_id' user_id'
               now_evt' now_cleanup',
          exists x' st'',
            trigger button' language' source' custom_text' device_id'
              user_id' now_evt' now_cleanup' st' = (Raise x', st'')).
Proof.
  intros Hbad.
  destruct (trigger_raises button language source custom_text device_id
              user_id now_evt now_cleanup st Hbad) as (x & Hrun).
  do 2 eexists. split; [exact Hrun|]. repeat split.
  intros button' language' source' custom_text' device_id' user_id'
    now_evt' now_cleanup'.
  match goal with
  | |- exists x' st'', trigger _ _ _ _ _ _ _ _ ?s = _ =>
      destruct (trigger_raises button' language' source' custom_text'
                  device_id' user_id' now_evt' now_cleanup' s) as (x' & Hrun')
  end.
  - cbn [HISTORY]. intros Hall. apply Hbad. now inversion Hall.
  - eauto.
Qed.

Lemma filter_recent_stamped (cutoff : Z) (h : list Event) :
  Forall stamped (filter (recent cutoff) h).
Proof.
  apply Forall_forall. intros e Hin. apply filter_In in Hin as [_ Hr].
  unfold recent in Hr. unfold stamped.
  destruct (strptime_val (ts e)) as [t|x]; [eauto | discriminate].
Qed.

Lemma filter_recent_twice (c1 c2 : Z) (h : list Event) :
  (c1 <= c2)%Z ->
  filter (recent c2) (filter (recent c1) h) = filter (recent c2) h.
Proof.
  intros Hle. induction h as [|e rest IH]; simpl; [reflexivity|].
  destruct (recent c1 e) eqn:E1; simpl; [now rewrite IH|].
  destruct (recent c2 e) eqn:E2; [|exact IH].
  exfalso. unfold recent in E1, E2.
  destruct (strptime_val (ts e)) as [t|x]; [|discriminate].
  apply Z.leb_le in E2. apply Z.leb_gt in E1. lia.
Qed.

Lemma filter_recent_earlier (c1 c2 : Z) (h : list Event) :
  (c1 <= c2)%Z ->
  filter (recent c1) (filter (recent c2) h) = filter (recent c2) h.
Proof.
  intros Hle. induction h as [|e rest IH]; simpl; [reflexivity|].
  destruct (recent c2 e) eqn:E2; simpl; [|exact IH].
  assert (recent c1 e = true) as ->; [|now rewrite IH].
  unfold recent in *. destruct (strptime_val (ts e)) as [t|x]; [|discriminate].
  apply Z.leb_le in E2. apply Z.leb_le. lia.
Qed.

(** On a history whose timestamps read as times, a cleanup followed by
    a later one leaves what the later one alone leaves, in [HISTORY]
    and in [events.json]; in particular cleaning twice at the same
    time is cleaning once. *)
Theorem cleanup_then_later_cleanup (now1 now2 : Z) (st : store) :
  Forall stamped (HISTORY st) ->
  (now1 <= now2)%Z ->
  _cleanup_old_events now2 (snd (_cleanup_old_events now1 st))
  = _cleanup_old_events now2 st.
Proof.
  intros Hall Hle. rewrite !_cleanup_old_events_spec.
  rewrite (keep_recent_stamped _ _ Hall). cbn [snd HISTORY EVENTS_FILE spoken].
  rewrite (keep_recent_stamped _ _ Hall).
  rewrite (keep_recent_stamped _ _ (filter_recent_stamped _ _)).
  rewrite filter_recent_twice by lia. reflexivity.
Qed.

(** After a [trigger] that has returned, starting the program again
    loads from [events.json] the events of [HISTORY] that are at most
    seven days old at the new start, in the same order; when the clock
    has not moved past the reading of the cleanup it loads [HISTORY]
    itself. *)
Theorem restart_reloads_history (button language source : string)
    (custom_text : option string) (device_id user_id : string)
    (now_evt now_cleanup now' : Z) (st st' : store) (v : pyval) :
  trigger button language source custom_text device_id user_id
    now_evt now_cleanup st = (Ret v, st') ->
  HISTORY (startup now' (EVENTS_FILE st'))
  = filter (recent (now' - seven_days)) (HISTORY st')
  /\ ((now' <= now_cleanup)%Z ->
      HISTORY (startup now' (EVENTS_FILE st')) = HISTORY st').
Proof.
  rewrite trigger_spec. cbv zeta.
  destruct (keep_recent _ _) as [h'|x] eqn:Hk; [|discriminate].
  destruct (keep_recent_ret _ _ _ Hk) as [_ Hh'].
  intros [= _ <-]. cbn [startup HISTORY EVENTS_FILE _load_events_from_file py_iter].
  rewrite load_items_asdict. split; [reflexivity|].
  intros Hle. rewrite Hh'. apply filter_recent_earlier. lia.
Qed.

(** *** Choosing a voice *)

Lemma prefix_app (a b : string) : String.prefix a (a ++ b)%string = true.
Proof.
  induction a as [|c a IH]; simpl.
  - now destruct b.
  - destruct (ascii_dec c c); [exact IH | contradiction].
Qed.

Lemma prefix_split (a s : string) :
  String.prefix a s = true -> exists b, s = (a ++ b)%string.
Proof.
  revert s. induction a as [|c a IH]; intros s H.
  - exists s. reflexivity.
  - destruct s as [|d s]; simpl in H; [discriminate|].
    destruct (ascii_dec c d) as [->|]; [|discriminate].
    destruct (IH s H) as [b ->]. exists b. reflexivity.
Qed.

Lemma str_contains_split (sub s : string) :
  str_contains sub s = true <-> exists a b, s = (a ++ sub ++ b)%string.
Proof.
  split.
  - induction s as [|c s IH]; cbn [str_contains]; intros H.
    + rewrite orb_false_r in H. destruct (prefix_split _ _ H) as [b Hb].
      exists "", b. exact Hb.
    + apply orb_true_iff in H. destruct H as [H|H].
      * destruct (prefix_split _ _ H) as [b Hb]. exists "", b. exact Hb.
      * destruct (IH H) as (a & b & ->). exists (String c a), b. reflexivity.
  - intros (a & b & ->). induction a as [|c a IH].
    + cbn [append]. destruct (sub ++ b)%string eqn:E; cbn [str_contains];
        rewrite <- E, prefix_app; reflexivity.
    + cbn [append str_contains]. rewrite IH. apply orb_true_r.
Qed.

Lemma string_app_assoc (a b c : string) : ((a ++ b) ++ c = a ++ b ++ c)%string.
Proof. induction a; simpl; congruence. Qed.

Lemma str_contains_trans (a b c : string) :
  str_contains a b = true -> str_contains b c = true ->
  str_contains a c = true.
Proof.
  rewrite !str_contains_split.
  intros (x & y & ->) (x' & y' & ->).
  exists (x' ++ x)%string, (y ++ y')%string.
  now rewrite !string_app_assoc.
Qed.

Lemma str_contains_join (sep s : string) (l : list string) :
  In s l -> str_contains s (py_join sep l) = true.
Proof.
  induction l as [|h l IH]; intros Hin; [contradiction|].
  apply str_contains_split.
  destruct Hin as [->|Hin].
  - destruct l as [|h' l].
    + exists "", "". simpl. clear. induction s; simpl; congruence.
    + exists "", (sep ++ py_join sep (h' :: l))%string. reflexivity.
  - destruct l as [|h' l]; [contradiction|].
    apply IH in Hin. apply str_contains_split in Hin.
    destruct Hin as (a & b & Hab).
    exists (h ++ sep ++ a)%string, b.
    change (py_join sep (h :: h' :: l))
      with (h ++ sep ++ py_join sep (h' :: l))%string.
    rewrite Hab. now rewrite !string_app_assoc.
Qed.

Lemma voice_joined_name (s : string) (v : Voice) :
  str_contains s (py_lower (or_empty (voice_name v))) = true ->
  str_contains s (voice_joined v) = true.
Proof.
  intros H. eapply str_contains_trans; [exact H|].
  apply str_contains_join, in_or_app. right. left. reflexivity.
Qed.

Lemma voice_joined_id (s : string) (v : Voice) :
  str_contains s (py_lower (or_empty (voice_id v))) = true ->
  str_contains s (voice_joined v) = true.
Proof.
  intros H. eapply str_contains_trans; [exact H|].
  apply str_contains_join, in_or_app. right. right. left. reflexivity.
Qed.

Lemma select_by_language_none (language : string) (voices : list Voice) :
  select_by_language language voices = None ->
  Forall (fun v => str_contains language (voice_joined v) = false) voices.
Proof.
  induction voices as [|v voices IH]; simpl; intros H; [constructor|].
  destruct (str_contains language (voice_joined v)) eqn:E; simpl in H;
    [discriminate|].
  destruct (str_contains (dash_to_underscore language) (voice_joined v));
    [discriminate|].
  constructor; auto.
Qed.

Lemma select_by_name_none (checks : list string) (voices : list Voice) :
  Forall (fun v =>
    forall chk, In chk checks ->
      str_contains chk (py_lower (or_empty (voice_name v))) = false /\
      str_contains chk (py_lower (or_empty (voice_id v))) = false) voices ->
  select_by_name checks voices = None.
Proof.
  induction 1 as [|v voices Hv _ IH]; simpl; [reflexivity|].
  rewrite IH.
  destruct (existsb _ checks) eqn:E; [|reflexivity].
  apply existsb_exists in E. destruct E as (chk & Hin & Hc).
  destruct (Hv chk Hin) as [H1 H2]. rewrite H1, H2 in Hc. discriminate.
Qed.

Lemma select_by_language_in (language : string) (voices : list Voice)
    (found : option string) :
  select_by_language language voices = Some found ->
  exists v, In v voices /\ voice_id v = found /\
    (str_contains language (voice_joined v) = true \/
     str_contains (dash_to_underscore language) (voice_joined v) = true).
Proof.
  induction voices as [|v voices IH]; simpl; intros H; [discriminate|].
  destruct (str_contains language (voice_joined v)
            || str_contains (dash_to_underscore language) (voice_joined v))
    eqn:E.
  - injection H as <-. exists v. apply orb_true_iff in E. auto.
  - destruct (IH H) as (w & Hin & Hw). exists w. auto.
Qed.

Lemma select_by_name_in (checks : list string) (voices : list Voice)
    (found : option string) :
  select_by_name checks voices = Some found ->
  exists v chk, In v voices /\ voice_id v = found /\ In chk checks /\
    (str_contains chk (py_lower (or_empty (voice_name v))) = true \/
     str_contains chk (py_lower (or_empty (voice_id v))) = true).
Proof.
  induction voices as [|v voices IH]; simpl; intros H; [discriminate|].
  destruct (existsb _ checks) eqn:E.
  - injection H as <-. apply existsb_exists in E.
    destruct E as (chk & Hin & Hc). apply orb_true_iff in Hc.
    exists v, chk. auto.
  - destruct (IH H) as (w & chk & Hin & Hw). exists w, chk. auto.
Qed.

Lemma fallback_adds_nothing (language : string) (checks : list string)
    (voices : list Voice) :
  (forall chk, In chk checks -> String.prefix language chk = true) ->
  select_by_language language voices = None ->
  select_by_name checks voices = None.
Proof.
  intros Hc Hnone. apply select_by_name_none.
  apply select_by_language_none in Hnone.
  eapply Forall_impl; [|exact Hnone].
  intros v Hv chk Hin.
  specialize (Hc chk Hin).
  assert (Hsub : str_contains language chk = true).
  { apply str_contains_split. destruct (prefix_split _ _ Hc) as [b ->].
    exists "", b. reflexivity. }
  split.
  - destruct (str_contains chk (py_lower (or_empty (voice_name v)))) eqn:E;
      [|reflexivity].
    rewrite <- Hv. symmetry. apply voice_joined_name.
    eapply str_contains_trans; eassumption.
  - destruct (str_contains chk (py_lower (or_empty (voice_id v)))) eqn:E;
      [|reflexivity].
    rewrite <- Hv. symmetry. apply voice_joined_id.
    eapply str_contains_trans; eassumption.
Qed.

Lemma select_by_name_no_checks (voices : list Voice) :
  select_by_name [] voices = None.
Proof. induction voices; simpl; auto. Qed.

Lemma select_by_language_none_in (language : string) (voices : list Voice)
    (v : Voice) :
  select_by_language language voices = None -> In v voices ->
  str_contains language (voice_joined v) = false.
Proof.
  intros H Hin. apply select_by_language_none in H.
  rewrite Forall_forall in H. auto.
Qed.

(** [_select_voice_for_language]: an identifier the function
    returns is the identifier of one of the voices the engine reports,
    and the engine is present. *)
Theorem select_voice_is_reported (has_pyttsx3 : bool)
    (voices : option (list Voice)) (language id : string) :
  _select_voice_for_language has_pyttsx3 voices language = Some id ->
  has_pyttsx3 = true /\
  exists l v, voices = Some l /\ In v l /\ voice_id v = Some id.
Proof.
  unfold _select_voice_for_language.
  destruct has_pyttsx3; simpl; [|discriminate].
  intros H. split; [reflexivity|].
  destruct voices as [l|].
  - exists l.
    destruct (select_by_language (py_lower language) l) as [found|] eqn:E1.
    + destruct (select_by_language_in _ _ _ E1) as (v & Hin & Hid & _).
      exists v. subst found. auto.
    + destruct (select_by_name _ l) as [found|] eqn:E2; [|discriminate].
      destruct (select_by_name_in _ _ _ E2) as (v & chk & Hin & Hid & _).
      exists v. subst found. auto.
  - simpl in H. discriminate.
Qed.

(** [_select_voice_for_language]: the voice returned is one whose
    language tags, name or identifier contain the lower-cased language
    code, as given or with its dashes turned into underscores. The
    table of language names decides in two cases only: for "de" a voice
    whose name or identifier contains "german", and for "es" one whose
    name or identifier contains "spanish"; the other entries of the
    table never select a voice. *)
Theorem select_voice_match (voices : list Voice) (language id : string) :
  _select_voice_for_language true (Some voices) language = Some id ->
  exists v, In v voices /\ voice_id v = Some id /\
    let code := py_lower language in
    let name := py_lower (or_empty (voice_name v)) in
    let vid := py_lower (or_empty (voice_id v)) in
    (str_contains code (voice_joined v) = true \/
     str_contains (dash_to_underscore code) (voice_joined v) = true \/
     (code = "de" /\
      (str_contains "german" name = true \/
       str_contains "german" vid = true)) \/
     (code = "es" /\
      (str_contains "spanish" name = true \/
       str_contains "spanish" vid = true))).
Proof.
  unfold _select_voice_for_language. cbn [negb].
  set (code := py_lower language).
  intros H.
  destruct (select_by_language code voices) as [found|] eqn:E1.
  - destruct (select_by_language_in _ _ _ E1) as (v & Hin & Hid & Hm).
    exists v. subst found. repeat split; auto.
    cbv zeta. destruct Hm; auto.
  - destruct (select_by_name _ voices) as [found|] eqn:E2; [|discriminate].
    subst found.
    assert (Hdead : forall checks,
      fallback_checks code fallback_map = checks ->
      (forall chk, In chk checks -> String.prefix code chk = true) -> False).
    { intros checks Hc Hp. rewrite Hc in E2.
      rewrite (fallback_adds_nothing _ _ _ Hp E1) in E2. discriminate. }
    destruct (select_by_name_in _ _ _ E2) as (v & chk & Hin & Hid & Hchk & Hm).
    assert (Hno := select_by_language_none_in _ _ _ E1 Hin).
    assert (Hpre : String.prefix code chk = true -> False).
    { intros Hp.
      assert (Hsub : str_contains code chk = true).
      { apply str_contains_split. destruct (prefix_split _ _ Hp) as [b ->].
        exists "", b. reflexivity. }
      destruct Hm as [Hm|Hm].
      - rewrite (voice_joined_name _ _ (str_contains_trans _ _ _ Hsub Hm))
          in Hno. discriminate.
      - rewrite (voice_joined_id _ _ (str_contains_trans _ _ _ Hsub Hm))
          in Hno. discriminate. }
    exists v. repeat split; auto. cbv zeta. fold code.
    unfold fallback_map in Hchk. cbn [fallback_checks] in Hchk.
    destruct (String.eqb_spec code "en") as [He|_].
    { exfalso. rewrite He in *.
      destruct Hchk as [<-|[<-|[]]]; apply Hpre; reflexivity. }
    destruct (String.eqb_spec code "hi") as [He|_].
    { exfalso. rewrite He in *.
      destruct Hchk as [<-|[<-|[]]]; apply Hpre; reflexivity. }
    destruct (String.eqb_spec code "it") as [He|_].
    { exfalso. rewrite He in *.
      destruct Hchk as [<-|[<-|[]]]; apply Hpre; reflexivity. }
    destruct (String.eqb_spec code "de") as [He|_].
    { right. right. left. split; [exact He|].
      destruct Hchk as [<-|[<-|[]]]; [exact Hm|].
      exfalso. apply Hpre. rewrite He. reflexivity. }
    destruct (String.eqb_spec code "fr") as [He|_].
    { exfalso. rewrite He in *.
      destruct Hchk as [<-|[<-|[]]]; apply Hpre; reflexivity. }
    destruct (String.eqb_spec code "es") as [He|_].
    { right. right. right. split; [exact He|].
      destruct Hchk as [<-|[<-|[]]]; [exact Hm|].
      exfalso. apply Hpre. rewrite He. reflexivity. }
    destruct Hchk.
Qed.

(** [_select_voice_for_language]: without the engine, or with no
    voice reported, there is no voice to select. With an empty language
    code the first voice reported is selected, and a voice that
    matches ends the search even when its identifier is [None]: the
    voices after it are not looked at. *)
Theorem select_voice_edges :
  (forall voices language,
     _select_voice_for_language false voices language = None) /\
  (forall has_pyttsx3 language,
     _select_voice_for_language has_pyttsx3 None language = None /\
     _select_voice_for_language has_pyttsx3 (Some []) language = None) /\
  (forall v rest,
     _select_voice_for_language true (Some (v :: rest)) "" = voice_id v) /\
  (forall v rest language,
     str_contains (py_lower language) (voice_joined v) = true ->
     _select_voice_for_language true (Some (v :: rest)) language
     = voice_id v).
Proof.
  repeat split.
  - destruct has_pyttsx3; reflexivity.
  - destruct has_pyttsx3; reflexivity.
  - intros v rest. unfold _select_voice_for_language.
    cbn [negb py_lower map_str select_by_language].
    assert (H : str_contains "" (voice_joined v) = true).
    { destruct (voice_joined v); reflexivity. }
    rewrite H. reflexivity.
  - intros v rest language H. unfold _select_voice_for_language.
    cbn [negb select_by_language]. rewrite H. reflexivity.
Qed.

End Properties.

(** ** The theorems at work on the example store and history *)

Section Witnesses.

#[local] Existing Instance python.

Import Example.

Lemma one_user_reachable : reachable one_user.
Proof. exact (reachable_run signup_ana Absent reachable_absent). Qed.

Lemma own_caretaker_reachable : reachable own_caretaker.
Proof.
  exact (reachable_run (AddCaretaker ana "ana@example.org") one_user
           one_user_reachable).
Qed.

Lemma two_events_stamped : Forall stamped (HISTORY two_events).
Proof. repeat constructor; eexists; vm_compute; reflexivity. Qed.

Lemma cleanup_drops_old_events_witness :
  Forall stamped (HISTORY two_events)
  /\ exists st',
       _cleanup_old_events clock two_events = (Ret tt, st')
       /\ HISTORY st' = [fresh_event]
       /\ persisted st' = [asdict fresh_event].
Proof.
  split; [exact two_events_stamped|].
  destruct (cleanup_drops_old_events clock two_events)
    as (Hreturns & Hpruned & _).
  destruct (proj1 Hreturns two_events_stamped) as (st' & Hrun).
  destruct (Hpruned st' Hrun) as (Hh & Hp & _).
  exists st'. split; [exact Hrun|]. split.
  - rewrite Hh. vm_compute. reflexivity.
  - rewrite Hp, Hh. vm_compute. reflexivity.
Defined.


Lemma user_login_after_signup_witness :
  user_signup "ana@example.org" "Abcde1!" true (Some "Ana") None None None
    ana clock Absent
  = (Ret (result_for "Account created" ana), one_user)
  /\ succeeded (result_for "Account created" ana) = true
  /\ exists uid,
       py_getitem (result_for "Account created" ana) "user_id"
       = Ret (PStr uid)
       /\ user_login "ana@example.org" "Abcde1!" one_user
          = (Ret (result_for "Login successful" uid), one_user).
Proof.
  assert (Hrun : user_signup "ana@example.org" "Abcde1!" true (Some "Ana")
                   None None None ana clock Absent
                 = (Ret (result_for "Account created" ana), one_user))
    by (vm_compute; reflexivity).
  split; [exact Hrun|]. split; [reflexivity|].
  exact (user_login_after_signup _ _ _ _ _ _ _ _ _ _ _ _ Hrun eq_refl).
Defined.

Lemma user_signup_duplicate_email_witness :
  reachable one_user
  /\ registered "ana@example.org" one_user
  /\ user_signup "ana@example.org" "weak" false None None None None
       "b7e1d9a2-5c3f-4f6e-8a10-9d8c7b6a5e4f" clock' one_user
     = (Ret (result false "Email already registered"), one_user).
Proof.
  assert (Hreg : registered "ana@example.org" one_user).
  { exists ana. eexists. split; vm_compute; reflexivity. }
  split; [exact one_user_reachable|]. split; [exact Hreg|].
  exact (user_signup_duplicate_email _ _ _ _ _ _ _ _ _ _
           one_user_reachable Hreg).
Defined.

Lemma password_policy_witness :
  reachable one_user
  /\ valid_email "ben@example.org" = true
  /\ ~ registered "ben@example.org" one_user
  /\ lookup_user one_user ana <> None
  /\ (exists msg, In msg policy_messages
        /\ user_signup "ben@example.org" "abcde1!" true None None None None
             "b7e1d9a2-5c3f-4f6e-8a10-9d8c7b6a5e4f" clock' one_user
           = (Ret (result false msg), one_user))
  /\ (exists msg, In msg policy_messages
        /\ reset_password ana "abcde1!" one_user
           = (Ret (result false msg), one_user)).
Proof.
  assert (Hnew : ~ registered "ben@example.org" one_user).
  { intros H. apply registered_registeredb in H. vm_compute in H.
    discriminate. }
  assert (Hana : lookup_user one_user ana <> None)
    by (vm_compute; discriminate).
  split; [exact one_user_reachable|]. split; [reflexivity|].
  split; [exact Hnew|]. split; [exact Hana|].
  destruct (password_policy "ben@example.org" "abcde1!" true None None None
              None "b7e1d9a2-5c3f-4f6e-8a10-9d8c7b6a5e4f" clock' ana one_user)
    as (_ & _ & Hsignup & Hreset & _).
  split.
  - exact (Hsignup one_user_reachable eq_refl Hnew).
  - exact (Hreset one_user_reachable Hana).
Defined.


Lemma theme_light_or_dark_witness :
  reachable one_user
  /\ exists f' user,
       set_user_theme ana "blue" one_user
       = (Ret (result true "Theme updated"), f')
       /\ lookup_user f' ana = Some user
       /\ py_getitem user "theme" = Ret (PStr "light").
Proof.
  split; [exact one_user_reachable|].
  destruct (theme_light_or_dark one_user one_user_reachable)
    as (_ & _ & Hset & _).
  assert (Hana : lookup_user one_user ana <> None)
    by (vm_compute; discriminate).
  exact (Hset ana "blue" Hana).
Defined.

(** C2. Ana, who has named herself as a caretaker, is listed twice
    among the accounts she can access. *)
Lemma get_accessible_accounts_repeats :
  reachable own_caretaker
  /\ lookup_user own_caretaker ana <> None
  /\ get_accessible_accounts ana own_caretaker
     = (Ret [ana; ana], own_caretaker)
  /\ ~ NoDup [ana; ana].
Proof.
  split; [exact own_caretaker_reachable|].
  split; [vm_compute; discriminate|].
  split; [vm_compute; reflexivity|].
  intros H. inversion H as [|x l Hnotin _]. apply Hnotin. now left.
Qed.

Lemma get_accessible_accounts_exact_witness :
  reachable own_caretaker
  /\ exists others,
       get_accessible_accounts ana own_caretaker
       = (Ret (ana :: others), own_caretaker)
       /\ NoDup others
       /\ ~ NoDup (ana :: others).
Proof.
  split; [exact own_caretaker_reachable|].
  destruct (get_accessible_accounts_exact ana own_caretaker
              own_caretaker_reachable) as (others & Hrun & Hnd & _ & Hself).
  exists others. split; [exact Hrun|]. split; [exact Hnd|].
  intros H. apply Hself in H. apply H.
  exists (PDict (dict_set "caretakers" (PList [PStr ana])
                   match lookup_user one_user ana with
                   | Some (PDict fields) => fields
                   | _ => []
                   end)), [PStr ana].
  split; [vm_compute; reflexivity|]. split; [vm_compute; reflexivity|].
  now left.
Defined.



Lemma ana_signed_up :
  user_signup "ana@example.org" "Abcde1!" true (Some "Ana") None None None
    ana clock Absent
  = (Ret (result_for "Account created" ana), one_user).
Proof. vm_compute. reflexivity. Qed.

Lemma ana_known : lookup_user one_user ana <> None.
Proof. vm_compute. discriminate. Qed.

Lemma ana_email :
  exists user, lookup_user one_user ana = Some user
               /\ py_getitem user "email" = Ret (PStr "ana@example.org").
Proof. eexists. split; vm_compute; reflexivity. Qed.

Lemma ben_unknown : ~ registered "ben@example.org" one_user.
Proof.
  intros H. apply registered_registeredb in H. vm_compute in H. discriminate.
Qed.

Lemma emails_are_unique_witness :
  reachable one_user
  /\ exists user,
       lookup_user one_user ana = Some user
       /\ py_getitem user "email" = Ret (PStr "ana@example.org")
       /\ ana = ana.
Proof.
  split; [exact one_user_reachable|].
  destruct ana_email as (user & Hget & Hemail).
  exists user. split; [exact Hget|]. split; [exact Hemail|].
  exact (emails_are_unique one_user ana ana user user "ana@example.org"
           one_user_reachable Hget Hget Hemail Hemail).
Defined.


Lemma user_login_outcomes_witness :
  reachable one_user
  /\ ~ registered "ben@example.org" one_user
  /\ user_login "ben@example.org" "Abcde1!" one_user
     = (Ret (result false "Email not found"), one_user).
Proof.
  split; [exact one_user_reachable|]. split; [exact ben_unknown|].
  exact (proj1 (user_login_outcomes "ben@example.org" "Abcde1!" one_user
                  one_user_reachable) ben_unknown).
Defined.

Lemma reset_password_then_login_witness :
  reachable one_user
  /\ meets_policy "Zyxwv9#" = true
  /\ exists f',
       reset_password ana "Zyxwv9#" one_user
       = (Ret (result true "Password reset successfully"), f')
       /\ user_login "ana@example.org" "Zyxwv9#" f'
          = (Ret (result_for "Login successful" ana), f').
Proof.
  split; [exact one_user_reachable|]. split; [reflexivity|].
  destruct ana_email as (user & Hget & Hemail).
  destruct (reset_password_then_login ana "Zyxwv9#" "ana@example.org" user
              one_user one_user_reachable Hget Hemail eq_refl)
    as (f' & Hreset & Hlogin & _).
  exists f'. split; [exact Hreset | exact Hlogin].
Defined.


Lemma get_user_profile_public_fields_witness :
  reachable one_user
  /\ exists user e n p t,
       lookup_user one_user ana = Some user
       /\ get_user_profile ana one_user
          = (Ret (PDict [("email", PStr e); ("name", n); ("phone", p);
                         ("theme", PStr t)]), one_user).
Proof.
  split; [exact one_user_reachable|].
  destruct ana_email as (user & Hget & _).
  destruct (get_user_profile_public_fields ana user one_user
              one_user_reachable Hget) as (e & n & p & t & Hprofile & _).
  exists user, e, n, p, t. split; [exact Hget | exact Hprofile].
Defined.

Lemma fresh_account_witness :
  user_signup "ana@example.org" "Abcde1!" true (Some "Ana") None None None
    ana clock Absent
  = (Ret (result_for "Account created" ana), one_user)
  /\ succeeded (result_for "Account created" ana) = true
  /\ get_user_profile ana one_user
     = (Ret (PDict [("email", PStr "ana@example.org"); ("name", PStr "Ana");
                    ("phone", PStr ""); ("theme", PStr "light")]), one_user)
  /\ get_user_medicines ana one_user = (Ret (PList []), one_user)
  /\ get_user_devices ana one_user = (Ret (PList []), one_user).
Proof.
  split; [exact ana_signed_up|]. split; [reflexivity|].
  exact (fresh_account _ _ _ _ _ _ _ _ _ _ _ _ ana_signed_up eq_refl).
Defined.

Lemma add_caretaker_outcomes_witness :
  reachable one_user
  /\ lookup_user one_user "nobody" = None
  /\ add_caretaker "nobody" "ana@example.org" one_user
     = (Ret (result false "User not found"), one_user).
Proof.
  assert (Hnone : lookup_user one_user "nobody" = None)
    by (vm_compute; reflexivity).
  split; [exact one_user_reachable|]. split; [exact Hnone|].
  exact (proj1 (add_caretaker_outcomes "nobody" "ana@example.org" one_user
                  one_user_reachable) Hnone).
Defined.

Lemma add_caretaker_grants_access_witness :
  reachable one_user
  /\ add_caretaker ana "ana@example.org" one_user
     = (Ret (result true "Caretaker ana@example.org added"), own_caretaker)
  /\ succeeded (result true "Caretaker ana@example.org added") = true
  /\ exists c others,
       get_accessible_accounts c own_caretaker
       = (Ret (c :: others), own_caretaker)
       /\ In ana others.
Proof.
  assert (Hrun : add_caretaker ana "ana@example.org" one_user
                 = (Ret (result true "Caretaker ana@example.org added"),
                    own_caretaker)) by (vm_compute; reflexivity).
  split; [exact one_user_reachable|]. split; [exact Hrun|].
  split; [reflexivity|].
  destruct (add_caretaker_grants_access ana "ana@example.org" one_user
              own_caretaker _ one_user_reachable Hrun eq_refl)
    as (c & cu & _ & _ & (others & Hacc & Hin) & _).
  exists c, others. split; [exact Hacc | exact Hin].
Defined.

Lemma register_device_then_listed_witness :
  reachable one_user
  /\ lookup_user one_user ana <> None
  /\ exists f' ds',
       register_device ana "tablet" "Tablet" clock clock' one_user
       = (Ret (result true "Device 'Tablet' registered"), f')
       /\ get_user_devices ana f' = (Ret (PList ds'), f')
       /\ In (PDict [("id", PStr "tablet"); ("name", PStr "Tablet");
                     ("registered_at", PStr (strftime clock));
                     ("last_seen", PStr (strftime clock'))]) ds'.
Proof.
  split; [exact one_user_reachable|]. split; [exact ana_known|].
  destruct (register_device_then_listed ana "tablet" "Tablet" clock clock'
              one_user one_user_reachable ana_known)
    as (f' & ds & ds' & _ & Hreg & Hlist & Hin & _).
  exists f', ds'. split; [exact Hreg|]. split; [exact Hlist|].
  apply Hin. left. reflexivity.
Defined.


Lemma non_object_store_raises_witness :
  (forall kv, PList [] <> PDict kv)
  /\ user_login "ana@example.org" "Abcde1!" (Json (PList []))
     = (Raise AttributeError, Json (PList []))
  /\ user_signup "ana" "Abcde1!" true None None None None ana clock
       (Json (PList []))
     = (Ret (result false "Invalid email format"), Json (PList [])).
Proof.
  assert (Hv : forall kv, PList [] <> PDict kv) by (intros kv; discriminate).
  split; [exact Hv|].
  destruct (non_object_store_raises (PList []) "ana@example.org" "Abcde1!"
              true None None None None ana clock ana "" Hv)
    as (Hlogin & _).
  split; [exact Hlogin|].
  destruct (non_object_store_raises (PList []) "ana" "Abcde1!"
              true None None None None ana clock ana "" Hv)
    as (_ & _ & _ & _ & _ & Hsignup).
  exact Hsignup.
Defined.

Lemma trigger_speaks_once_witness :
  exists v st',
    trigger " btn3" "fr" "UI" None "tablet" ana clock clock' two_events
    = (Ret v, st')
    /\ exists t,
         spoken st' = spoken two_events ++ [(PStr t, "fr")]
         /\ t <> ""
         /\ py_getitem v "text" = Ret (PStr t).
Proof.
  assert (Hrun : exists v st',
    trigger " btn3" "fr" "UI" None "tablet" ana clock clock' two_events
    = (Ret v, st')) by (eexists; eexists; vm_compute; reflexivity).
  destruct Hrun as (v & st' & Hrun).
  exists v, st'. split; [exact Hrun|].
  exact (trigger_speaks_once _ _ _ _ _ _ _ _ _ _ _ Hrun).
Defined.

Lemma broken_history_unreadable : ~ Forall stamped (HISTORY broken_history).
Proof.
  intros H. inversion H as [|e l _ Hl]. inversion Hl as [|e' l' [t Ht] _].
  vm_compute in Ht. discriminate.
Qed.

Lemma trigger_raises_on_unreadable_timestamp_witness :
  ~ Forall stamped (HISTORY broken_history)
  /\ exists x st',
       trigger "BTN1" "en" "UI" None "unknown" "default" clock clock'
         broken_history = (Raise x, st')
       /\ EVENTS_FILE st' = EVENTS_FILE broken_history
       /\ spoken st' = [].
Proof.
  split; [exact broken_history_unreadable|].
  destruct (trigger_raises_on_unreadable_timestamp "BTN1" "en" "UI" None
              "unknown" "default" clock clock' broken_history
              broken_history_unreadable)
    as (x & st' & Hrun & _ & Hfile & Hspoken & _).
  exists x, st'. split; [exact Hrun|]. split; [exact Hfile | exact Hspoken].
Defined.

Lemma cleanup_then_later_cleanup_witness :
  Forall stamped (HISTORY two_events)
  /\ (clock <= clock')%Z
  /\ _cleanup_old_events clock' (snd (_cleanup_old_events clock two_events))
     = _cleanup_old_events clock' two_events.
Proof.
  assert (Hle : (clock <= clock')%Z) by (vm_compute; discriminate).
  split; [exact two_events_stamped|]. split; [exact Hle|].
  exact (cleanup_then_later_cleanup clock clock' two_events
           two_events_stamped Hle).
Defined.

Lemma restart_reloads_history_witness :
  exists v st',
    trigger " btn3" "fr" "UI" None "tablet" ana clock clock two_events
    = (Ret v, st')
    /\ HISTORY (startup clock (EVENTS_FILE st')) = HISTORY st'.
Proof.
  assert (Hrun : exists v st',
    trigger " btn3" "fr" "UI" None "tablet" ana clock clock two_events
    = (Ret v, st')) by (eexists; eexists; vm_compute; reflexivity).
  destruct Hrun as (v & st' & Hrun).
  exists v, st'. split; [exact Hrun|].
  apply (proj2 (restart_reloads_history _ _ _ _ _ _ _ _ clock _ _ _ Hrun)).
  apply Z.le_refl.
Defined.

Lemma select_voice_is_reported_witness :
  _select_voice_for_language true (Some [samantha; anna]) "DE"
  = Some "gmw/de"
  /\ exists v, In v [samantha; anna] /\ voice_id v = Some "gmw/de".
Proof.
  assert (Hrun : _select_voice_for_language true (Some [samantha; anna]) "DE"
                 = Some "gmw/de") by (vm_compute; reflexivity).
  split; [exact Hrun|].
  destruct (select_voice_is_reported _ _ _ _ Hrun)
    as (_ & l & v & Hl & Hin & Hid).
  injection Hl as <-. exists v. split; [exact Hin | exact Hid].
Defined.

Lemma select_voice_match_witness :
  _select_voice_for_language true
    (Some [samantha; {| voice_id := Some "com.apple.voice.Anna";
                        voice_name := Some "German";
                        voice_languages := None |}]) "de"
  = Some "com.apple.voice.Anna"
  /\ exists v,
       voice_id v = Some "com.apple.voice.Anna"
       /\ str_contains "de" (voice_joined v) = false
       /\ str_contains "german" (py_lower (or_empty (voice_name v))) = true.
Proof.
  set (voices := [samantha; {| voice_id := Some "com.apple.voice.Anna";
                               voice_name := Some "German";
                               voice_languages := None |}]).
  assert (Hrun : _select_voice_for_language true (Some voices) "de"
                 = Some "com.apple.voice.Anna") by (vm_compute; reflexivity).
  split; [exact Hrun|].
  destruct (select_voice_match voices "de" "com.apple.voice.Anna" Hrun)
    as (v & Hin & Hid & _).
  exists v. split; [exact Hid|].
  destruct Hin as [<-|[<-|[]]]; [discriminate Hid|].
  split; vm_compute; reflexivity.
Defined.

Lemma load_skips_malformed_entries_witness :
  well_formed_item (PStr "junk") = false
  /\ _load_events_from_file clock
       (Json (PList [asdict fresh_event; PStr "junk"; asdict old_event]))
     = [fresh_event]
  /\ exists e,
       _load_events_from_file clock
         (Json (PList [PDict [("ts", PStr "2026-11-04 09:00:00");
                              ("source", PStr "UI"); ("button", PStr "BTN1");
                              ("language", PStr "en");
                              ("text", PStr "I need help")]]))
       = [e]
       /\ device_id e = PStr "unknown"
       /\ user_id e = PStr "default".
Proof.
  destruct (load_skips_malformed_entries clock)
    as (_ & _ & _ & Hskip & Hdefault).
  split; [reflexivity|]. split.
  - transitivity (_load_events_from_file clock
                    (Json (PList ([asdict fresh_event] ++ [asdict old_event])))).
    + exact (Hskip [asdict fresh_event] (PStr "junk") [asdict old_event]
               eq_refl).
    + vm_compute. reflexivity.
  - destruct (Hdefault [("ts", PStr "2026-11-04 09:00:00");
                        ("source", PStr "UI"); ("button", PStr "BTN1");
                        ("language", PStr "en"); ("text", PStr "I need help")]
                "2026-11-04 09:00:00" 63929379600000000%Z)
      as (e & Hload & _ & Hdev & Huser);
      try (vm_compute; reflexivity).
    + vm_compute. discriminate.
    + exists e. split; [exact Hload|]. split; [exact Hdev | exact Huser].
Defined.

Lemma select_voice_edges_witness :
  str_contains (py_lower "EN") (voice_joined samantha) = true
  /\ _select_voice_for_language true (Some [samantha; anna]) "EN"
     = voice_id samantha
  /\ _select_voice_for_language true (Some [anna; samantha]) ""
     = voice_id anna.
Proof.
  destruct select_voice_edges as (_ & _ & Hempty & Hfirst).
  assert (Hen : str_contains (py_lower "EN") (voice_joined samantha) = true)
    by (vm_compute; reflexivity).
  split; [exact Hen|]. split.
  - exact (Hfirst samantha [anna] "EN" Hen).
  - exact (Hempty anna [samantha]).
Defined.

End Witnesses.
